(** * Order-intake handler ([lambda/Place-Order.py]): model and properties

    The development follows the layout of the Python module:

    - [PyStr]         the few [str] operations the handler relies on
                      ([lower], [upper], [split], slicing, [in]);
    - [Unicode]       strings as lists of code points, and the decimal
                      digits [\d] matches;
    - [Re], [ReFacts] regular expressions with a derivative matcher,
                      [PHONE_PATTERN], and the proof that the matcher
                      decides the language of a pattern;
    - [Phone]         the shape of the strings [PHONE_PATTERN] accepts;
    - [Schema]        the pydantic models [CartItem], [Cart] and
                      [OrderRequest] with their field constraints and
                      validators;
    - [SchemaFacts], [SchemaErrors]
                      what validation reports;
    - [Handler]       [validate_business_hours], [is_domain_real],
                      [send_order_emails], [verify_turnstile_token] and
                      [process_order], in a small monad that carries the
                      raised exception and the trace of outside calls;
    - [Samples]       a concrete world and a few requests;
    - [HandlerFacts], [HandlerClaims]
                      what the handler answers;
    - [Validated]     what a cart and a request that validated guarantee;
    - [PhoneNumbers]  what an accepted phone number looks like;
    - [OrderFlow]     the handler from end to end: its answers, its calls
                      and the order identifier.

    The phone number, the one text that is matched against a pattern, is
    a list of code points ([Unicode.ustr]): [PHONE_PATTERN] is compiled
    without [re.ASCII], so its [\d] matches the decimal digits of every
    script. Other text is a [string] read as Latin-1, one character per
    code point below 256; [lower] is [str.lower] on these code points
    (the letters A-Z and the accented capitals), and [upper] is applied
    to hexadecimal digits only. Python [int] is [Z] and Python [float] is
    a binary64 primitive float. [print] calls are left out. *)

From Stdlib Require Import ZArith NArith Lia List Ascii String Bool.
From Stdlib Require Import Floats.PrimFloat Floats.SpecFloat Floats.FloatOps.
From Stdlib Require Import Floats.FloatAxioms.
From stdpp Require Import base strings gmap.

Local Open Scope stdpp_scope.

(* ===================================================================== *)
(** * Python [str] operations                                             *)
(* ===================================================================== *)

Module PyStr.

Lemma app_cons (a : ascii) (s t : string) :
  String a s +:+ t = String a (s +:+ t).
Proof. reflexivity. Qed.

Lemma app_nil_l (s : string) : "" +:+ s = s.
Proof. reflexivity. Qed.

Lemma app_nil_r (s : string) : s +:+ "" = s.
Proof. induction s as [|a s IH]; [reflexivity|]. rewrite app_cons, IH. reflexivity. Qed.

Lemma app_assoc (s t u : string) : (s +:+ t) +:+ u = s +:+ (t +:+ u).
Proof.
  induction s as [|a s IH]; [reflexivity|].
  rewrite !app_cons, IH. reflexivity.
Qed.

Lemma length_app (s t : string) :
  String.length (s +:+ t) = (String.length s + String.length t)%nat.
Proof.
  induction s as [|a s IH]; [reflexivity|].
  rewrite app_cons. simpl. rewrite IH. reflexivity.
Qed.

(** [lo <= c <= hi] on code points. *)
Definition char_in_range (lo hi c : ascii) : bool :=
  (N_of_ascii lo <=? N_of_ascii c)%N && (N_of_ascii c <=? N_of_ascii hi)%N.

(** The capital letters among the first 256 code points: A to Z, and
    the accented capitals 0xC0 to 0xDE without the multiplication sign
    0xD7. The small letter of each lies 32 further. *)
Definition is_capital (c : ascii) : bool :=
  char_in_range "A" "Z" c
  || char_in_range "192" "214" c
  || char_in_range "216" "222" c.

Definition char_lower (c : ascii) : ascii :=
  if is_capital c then ascii_of_N (N_of_ascii c + 32) else c.

(** The capital of a letter a to z; the handler takes capitals of
    hexadecimal digits only. *)
Definition char_upper (c : ascii) : ascii :=
  if char_in_range "a" "z" c then ascii_of_N (N_of_ascii c - 32) else c.

Fixpoint map_chars (f : ascii -> ascii) (s : string) : string :=
  match s with
  | EmptyString => EmptyString
  | String c s' => String (f c) (map_chars f s')
  end.

(** [s.lower()] and [s.upper()]. *)
Definition lower : string -> string := map_chars char_lower.
Definition upper : string -> string := map_chars char_upper.

Fixpoint all_chars (p : ascii -> bool) (s : string) : bool :=
  match s with
  | EmptyString => true
  | String c s' => p c && all_chars p s'
  end.

(** [s[:n]]. *)
Fixpoint take (n : nat) (s : string) : string :=
  match n, s with
  | S n', String c s' => String c (take n' s')
  | _, _ => EmptyString
  end.

(** [s[n:]]. *)
Fixpoint drop (n : nat) (s : string) : string :=
  match n, s with
  | S n', String _ s' => drop n' s'
  | _, _ => s
  end.

(** [s[a:b]] for [0 <= a <= b]. *)
Definition slice (a b : nat) (s : string) : string := take (b - a) (drop a s).

(** [sub in s]. *)
Fixpoint contains (sub s : string) : bool :=
  String.prefix sub s ||
  match s with
  | EmptyString => false
  | String _ s' => contains sub s'
  end.

(** [s.split(sep)] for a one-character separator: never empty. *)
Fixpoint split (sep : ascii) (s : string) : list string :=
  match s with
  | EmptyString => [EmptyString]
  | String c s' =>
      if Ascii.eqb c sep then EmptyString :: split sep s'
      else match split sep s' with
           | [] => [String c EmptyString]
           | h :: t => String c h :: t
           end
  end.

(** [l[-1]] on the result of [split]. *)
Definition last_item (l : list string) : string := List.last l EmptyString.

(** Python truthiness of a [str]. *)
Definition truthy (s : string) : bool :=
  match s with EmptyString => false | _ => true end.

Lemma split_nonempty sep s : split sep s <> [].
Proof.
  destruct s as [|c s]; simpl; [discriminate|].
  destruct (Ascii.eqb c sep); [discriminate|].
  destruct (split sep s); discriminate.
Qed.

Lemma map_chars_app f s t :
  map_chars f (s +:+ t) = map_chars f s +:+ map_chars f t.
Proof.
  induction s as [|a s IH]; [reflexivity|].
  rewrite app_cons. simpl. rewrite IH. reflexivity.
Qed.


Lemma take_app_length s t : take (String.length s) (s +:+ t) = s.
Proof.
  induction s as [|a s IH].
  - destruct t; reflexivity.
  - rewrite app_cons. simpl. rewrite IH. reflexivity.
Qed.



End PyStr.

Example split_email : PyStr.split "@" "user@gmail.com" = ["user"; "gmail.com"].
Proof. reflexivity. Qed.

Example split_no_sep : PyStr.split "@" "gmail.com" = ["gmail.com"].
Proof. reflexivity. Qed.

Example lower_mixed : PyStr.lower "User@GMail.COM" = "user@gmail.com".
Proof. reflexivity. Qed.

(** E with acute accent, 0xC9, becomes 0xE9; the multiplication sign and
    the sharp s stay. *)
Example lower_accented :
  PyStr.lower (String "201" (String "215" (String "223" "")))
  = String "233" (String "215" (String "223" "")).
Proof. reflexivity. Qed.

(* ===================================================================== *)
(** * Code points                                                         *)
(* ===================================================================== *)

Module Unicode.

(** A Python [str] as the list of its code points. The phone number is
    kept this way: the pattern it is matched against is a [str] pattern
    compiled without [re.ASCII], whose [\d] tells the decimal digits of
    every script. *)
Definition ustr : Type := list N.

(** The code point of one of the first 256 characters. *)
Definition chr (c : ascii) : N := N_of_ascii c.

(** The code points of a literal written with ASCII characters. *)
Definition text (s : string) : ustr := map N_of_ascii (list_ascii_of_string s).

(** The digit zero of every decimal system of Unicode 14 (the version of
    CPython 3.11); the digits one to nine follow each of them. Later
    versions of Unicode add a few systems to these. *)
Definition decimal_zeros : list N :=
  [ 48; 1632; 1776; 1984; 2406; 2534; 2662; 2790; 2918; 3046; 3174; 3302;
    3430; 3558; 3664; 3792; 3872; 4160; 4240; 6112; 6160; 6470; 6608; 6784;
    6800; 6992; 7088; 7232; 7248; 42528; 43216; 43264; 43472; 43504; 43600;
    44016; 65296; 66720; 68912; 69734; 69872; 69942; 70096; 70384; 70736;
    70864; 71248; 71360; 71472; 71904; 72016; 72784; 73040; 73120; 92768;
    92864; 93008; 120782; 120792; 120802; 120812; 120822; 123200; 123632;
    125264; 130032 ]%N.

(** A character of category Nd, which is what [\d] matches. *)
Definition is_decimal (c : N) : bool :=
  existsb (fun z => (z <=? c)%N && (c <? z + 10)%N) decimal_zeros.

End Unicode.

Example text_sample : Unicode.text "+1 5" = [43; 49; 32; 53]%N.
Proof. reflexivity. Qed.

Example arabic_indic_five : Unicode.is_decimal 1637 = true.
Proof. reflexivity. Qed.

Example superscript_two : Unicode.is_decimal 178 = false.
Proof. reflexivity. Qed.

(* ===================================================================== *)
(** * Regular expressions ([re]) and [PHONE_PATTERN]                      *)
(* ===================================================================== *)

Module Re.
Import Unicode.

(** One member of a bracketed character set. *)
Inductive item :=
| IChar (c : N)                (* a literal character *)
| IRange (lo hi : N)           (* [lo-hi] *)
| IDigit.                      (* [\d] *)

Definition item_mem (i : item) (c : N) : bool :=
  match i with
  | IChar a => (a =? c)%N
  | IRange lo hi => (lo <=? c)%N && (c <=? hi)%N
  | IDigit => is_decimal c
  end.

Definition set_mem (items : list item) (c : N) : bool :=
  existsb (fun i => item_mem i c) items.

(** The fragment of [re] syntax that [PHONE_PATTERN] uses. Capturing
    groups only matter for the match object and are dropped: the validator
    tests the match for truthiness. *)
Inductive regex :=
| Void                          (* matches nothing; arises in derivatives *)
| Eps                           (* the empty pattern *)
| Sym (items : list item)       (* one character of a set *)
| Cat (r1 r2 : regex)
| Alt (r1 r2 : regex)
| Star (r : regex).

Definition Lit (c : ascii) : regex := Sym [IChar (chr c)].
Definition Opt (r : regex) : regex := Alt r Eps.      (* [r?] *)
Definition Digit : regex := Sym [IDigit].             (* [\d] *)
Fixpoint Rep (n : nat) (r : regex) : regex :=         (* [r{n}] *)
  match n with O => Eps | S n' => Cat r (Rep n' r) end.

Fixpoint nullable (r : regex) : bool :=
  match r with
  | Void => false
  | Eps => true
  | Sym _ => false
  | Cat r1 r2 => nullable r1 && nullable r2
  | Alt r1 r2 => nullable r1 || nullable r2
  | Star _ => true
  end.

Fixpoint deriv (c : N) (r : regex) : regex :=
  match r with
  | Void => Void
  | Eps => Void
  | Sym items => if set_mem items c then Eps else Void
  | Cat r1 r2 =>
      if nullable r1 then Alt (Cat (deriv c r1) r2) (deriv c r2)
      else Cat (deriv c r1) r2
  | Alt r1 r2 => Alt (deriv c r1) (deriv c r2)
  | Star r1 => Cat (deriv c r1) (Star r1)
  end.

(** Whole-string matching. *)
Fixpoint fullmatch (r : regex) (s : ustr) : bool :=
  match s with
  | [] => nullable r
  | c :: s' => fullmatch (deriv c r) s'
  end.

(** The language of a pattern. *)
Inductive Lang : regex -> ustr -> Prop :=
| LEps : Lang Eps []
| LSym items c : set_mem items c = true -> Lang (Sym items) [c]
| LCat r1 r2 s1 s2 : Lang r1 s1 -> Lang r2 s2 -> Lang (Cat r1 r2) (s1 ++ s2)
| LAltL r1 r2 s : Lang r1 s -> Lang (Alt r1 r2) s
| LAltR r1 r2 s : Lang r2 s -> Lang (Alt r1 r2) s
| LStar0 r : Lang (Star r) []
| LStarS r s1 s2 : Lang r s1 -> Lang (Star r) s2 -> Lang (Star r) (s1 ++ s2).

(** [PHONE_PATTERN = re.compile(
      r'^(\+?1 *[ -.])?(\d{3}) *[ .-]?(\d{3}) *[ .-]?(\d{4}) *$')].

    In the first set the hyphen stands between two characters, so [ -.] is
    the range from space (0x20) to dot (0x2E); in [ .-] it is last and
    literal. *)
Definition prefix_re : regex :=
  Cat (Opt (Lit "+"))
    (Cat (Lit "1") (Cat (Star (Lit " ")) (Sym [IRange (chr " ") (chr ".")]))).

Definition sep_re : regex :=
  Cat (Star (Lit " "))
    (Opt (Sym [IChar (chr " "); IChar (chr "."); IChar (chr "-")])).

(** [ *$]: without [re.MULTILINE], [$] matches at the very end and also
    just before a newline that ends the string. *)
Definition tail_re : regex := Cat (Star (Lit " ")) (Opt (Lit "010")).

Definition PHONE_PATTERN : regex :=
  Cat (Opt prefix_re)
   (Cat (Rep 3 Digit)
    (Cat sep_re
     (Cat (Rep 3 Digit)
      (Cat sep_re
       (Cat (Rep 4 Digit) tail_re))))).

(** [PHONE_PATTERN.match(v)] is truthy: the pattern is anchored by [^] and
    nothing can follow [$], so the match spans the string. *)
Definition phone_match (v : ustr) : bool := fullmatch PHONE_PATTERN v.

End Re.

Example phone_plain : Re.phone_match (Unicode.text "555-123-4567") = true.
Proof. reflexivity. Qed.
Example phone_compact : Re.phone_match (Unicode.text "5551234567") = true.
Proof. reflexivity. Qed.
Example phone_prefixed : Re.phone_match (Unicode.text "+1 555.123 4567") = true.
Proof. reflexivity. Qed.
Example phone_prefix_glued : Re.phone_match (Unicode.text "+15551234567") = false.
Proof. reflexivity. Qed.
Example phone_double_sep : Re.phone_match (Unicode.text "555--123-4567") = false.
Proof. reflexivity. Qed.
Example phone_short : Re.phone_match (Unicode.text "555-123-456") = false.
Proof. reflexivity. Qed.
Example phone_trailing_newline :
  Re.phone_match (Unicode.text "555-123-4567 " ++ [10%N]) = true.
Proof. reflexivity. Qed.
(** The range in the prefix set lets a hash sign through. *)
Example phone_hash_after_prefix : Re.phone_match (Unicode.text "1#5551234567") = true.
Proof. reflexivity. Qed.
(** Three Arabic-Indic fives are three digits. *)
Example phone_arabic_indic :
  Re.phone_match ([1637; 1637; 1637]%N ++ Unicode.text "-123-4567") = true.
Proof. reflexivity. Qed.
(** A no-break space is not a space. *)
Example phone_no_break_space :
  Re.phone_match (Unicode.text "555" ++ [160%N] ++ Unicode.text "123 4567") = false.
Proof. reflexivity. Qed.

(* --------------------------------------------------------------------- *)
(** ** The matcher decides the language                                   *)
(* --------------------------------------------------------------------- *)

Module ReFacts.
Import Unicode Re.

Lemma Lang_Cat_inv r1 r2 s :
  Lang (Cat r1 r2) s -> exists s1 s2, s = s1 ++ s2 /\ Lang r1 s1 /\ Lang r2 s2.
Proof. intros H; inversion H; subst; eauto. Qed.

Lemma Lang_Alt_inv r1 r2 s : Lang (Alt r1 r2) s -> Lang r1 s \/ Lang r2 s.
Proof. intros H; inversion H; subst; auto. Qed.

Lemma Lang_Eps_inv s : Lang Eps s -> s = [].
Proof. intros H; inversion H; reflexivity. Qed.

Lemma Lang_Sym_inv items s :
  Lang (Sym items) s -> exists c, s = [c] /\ set_mem items c = true.
Proof. intros H; inversion H; subst; eauto. Qed.

Lemma Lang_Void_inv s : ~ Lang Void s.
Proof. intros H; inversion H. Qed.

Lemma nullable_Lang r : nullable r = true -> Lang r [].
Proof.
  induction r as [| | items | r1 IH1 r2 IH2 | r1 IH1 r2 IH2 | r IH]; simpl; intros H.
  - discriminate.
  - constructor.
  - discriminate.
  - apply andb_true_iff in H as [H1 H2].
    apply (LCat r1 r2 [] []); auto.
  - apply orb_true_iff in H as [H1 | H2]; [apply LAltL | apply LAltR]; auto.
  - constructor.
Qed.

Lemma Lang_nullable r s : Lang r s -> s = [] -> nullable r = true.
Proof.
  induction 1 as [| items c Hc | r1 r2 s1 s2 H1 IH1 H2 IH2 | r1 r2 s H IH
                 | r1 r2 s H IH | r | r s1 s2 H1 IH1 H2 IH2]; intros E; simpl.
  - reflexivity.
  - discriminate.
  - apply List.app_eq_nil in E as [E1 E2]. rewrite (IH1 E1), (IH2 E2). reflexivity.
  - rewrite (IH E). reflexivity.
  - rewrite (IH E). apply orb_true_r.
  - reflexivity.
  - reflexivity.
Qed.

Lemma deriv_Lang c r : forall s, Lang (deriv c r) s -> Lang r (c :: s).
Proof.
  induction r as [| | items | r1 IH1 r2 IH2 | r1 IH1 r2 IH2 | r IH]; simpl; intros s H.
  - destruct (Lang_Void_inv _ H).
  - destruct (Lang_Void_inv _ H).
  - destruct (set_mem items c) eqn:Hm; [| destruct (Lang_Void_inv _ H)].
    apply Lang_Eps_inv in H as ->. constructor; exact Hm.
  - destruct (nullable r1) eqn:Hn.
    + apply Lang_Alt_inv in H as [H | H].
      * apply Lang_Cat_inv in H as (s1 & s2 & -> & Ha & Hb).
        apply (LCat r1 r2 (c :: s1) s2); auto.
      * apply (LCat r1 r2 [] (c :: s)); [apply nullable_Lang|]; auto.
    + apply Lang_Cat_inv in H as (s1 & s2 & -> & Ha & Hb).
      apply (LCat r1 r2 (c :: s1) s2); auto.
  - apply Lang_Alt_inv in H as [H | H]; [apply LAltL | apply LAltR]; auto.
  - apply Lang_Cat_inv in H as (s1 & s2 & -> & Ha & Hb).
    apply (LStarS r (c :: s1) s2); auto.
Qed.

Lemma Lang_deriv c r w : Lang r w -> forall s, w = c :: s -> Lang (deriv c r) s.
Proof.
  induction 1 as [| items a Ha | r1 r2 s1 s2 H1 IH1 H2 IH2 | r1 r2 s0 H IH
                 | r1 r2 s0 H IH | r | r s1 s2 H1 IH1 H2 IH2]; intros s E; simpl.
  - discriminate.
  - injection E as -> <-. rewrite Ha. constructor.
  - destruct s1 as [|b s1].
    + simpl in E. rewrite (Lang_nullable _ _ H1 eq_refl). apply LAltR. auto.
    + simpl in E. injection E as -> <-.
      assert (Lang (Cat (deriv c r1) r2) (s1 ++ s2)) by (constructor; auto).
      destruct (nullable r1); [apply LAltL|]; assumption.
  - apply LAltL; auto.
  - apply LAltR; auto.
  - discriminate.
  - destruct s1 as [|b s1].
    + simpl in E. apply (IH2 _ E).
    + simpl in E. injection E as -> <-.
      constructor; auto.
Qed.

Lemma fullmatch_Lang s : forall r, fullmatch r s = true <-> Lang r s.
Proof.
  induction s as [|c s IH]; intros r; simpl.
  - split; [apply nullable_Lang | intros H; apply (Lang_nullable _ _ H eq_refl)].
  - rewrite IH. split; [apply deriv_Lang | intros H; apply (Lang_deriv _ _ _ H _ eq_refl)].
Qed.

End ReFacts.

(* --------------------------------------------------------------------- *)
(** ** What a phone number looks like                                     *)
(* --------------------------------------------------------------------- *)

Module Phone.
Import Unicode Re ReFacts.

(** a decimal digit of any script *)
Definition is_digit (c : N) : bool := is_decimal c.
Definition is_space (c : N) : bool := (chr " " =? c)%N.
(** space, dot or hyphen *)
Definition is_sep (c : N) : bool :=
  (chr " " =? c)%N || (chr "." =? c)%N || (chr "-" =? c)%N.
(** any character from space (0x20) to dot (0x2E) *)
Definition in_space_dot_range (c : N) : bool :=
  (chr " " <=? c)%N && (c <=? chr ".")%N.
(** the characters of that range other than space, dot and hyphen: the
    twelve code points 0x21 (exclamation mark) to 0x2C (comma) *)
Definition is_stray (c : N) : bool := (chr "!" <=? c)%N && (c <=? chr ",")%N.

Definition spaces (s : ustr) : bool := forallb is_space s.
Definition digits (n : nat) (s : ustr) : Prop :=
  length s = n /\ forallb is_digit s = true.

(** The country-code prefix as the pattern has it: an optional [+], a [1],
    any number of spaces, then exactly one character accepted by [sepc]. *)
Definition prefix_shape (sepc : N -> bool) (p : ustr) : Prop :=
  p = [] \/
  exists plus sp c,
    p = plus ++ text "1" ++ sp ++ [c] /\
    (plus = [] \/ plus = text "+") /\ spaces sp = true /\ sepc c = true.

(** Between digit groups: any number of spaces, then at most one of space,
    dot, hyphen. *)
Definition sep_shape (t : ustr) : Prop :=
  exists sp e,
    t = sp ++ e /\ spaces sp = true /\
    (e = [] \/ exists c, e = [c] /\ is_sep c = true).

(** After the last group: any number of spaces, then at most one newline. *)
Definition tail_shape (t : ustr) : Prop :=
  exists sp nl,
    t = sp ++ nl /\ spaces sp = true /\ (nl = [] \/ nl = [chr "010"]).

Definition phone_shape (sepc : N -> bool) (s : ustr) : Prop :=
  exists p g1 t1 g2 t2 g3 tl,
    s = p ++ g1 ++ t1 ++ g2 ++ t2 ++ g3 ++ tl /\
    prefix_shape sepc p /\ digits 3 g1 /\ sep_shape t1 /\ digits 3 g2 /\
    sep_shape t2 /\ digits 4 g3 /\ tail_shape tl.

(** No stray character after the first position (a leading [+] is the
    only place where one is expected). *)
Definition no_stray (s : ustr) : bool :=
  match s with
  | [] => true
  | _ :: t => forallb (fun c => negb (is_stray c)) t
  end.

(** The form the specification describes: an optional [+1] or [1], then
    3-3-4 digits, the groups separated by any combination (any string) of
    spaces, dots and hyphens. *)
Definition spec_phone_form (s : ustr) : Prop :=
  exists p g1 t1 g2 t2 g3,
    s = p ++ g1 ++ t1 ++ g2 ++ t2 ++ g3 /\
    (p = [] \/ p = text "+1" \/ p = text "1") /\
    digits 3 g1 /\ forallb is_sep t1 = true /\
    digits 3 g2 /\ forallb is_sep t2 = true /\ digits 4 g3.

Lemma Lang_Lit c s : Lang (Lit c) s <-> s = [chr c].
Proof.
  split.
  - intros (a & -> & Hm)%Lang_Sym_inv. simpl in Hm.
    rewrite orb_false_r in Hm. apply N.eqb_eq in Hm as ->. reflexivity.
  - intros ->. constructor. simpl. rewrite N.eqb_refl. reflexivity.
Qed.

Lemma Lang_Opt r s : Lang (Opt r) s <-> s = [] \/ Lang r s.
Proof.
  split.
  - intros [H | H]%Lang_Alt_inv; [right; exact H | left; apply Lang_Eps_inv, H].
  - intros [-> | H]; [apply LAltR; constructor | apply LAltL; exact H].
Qed.

Lemma Lang_Cat r1 r2 s :
  Lang (Cat r1 r2) s <-> exists s1 s2, s = s1 ++ s2 /\ Lang r1 s1 /\ Lang r2 s2.
Proof.
  split; [apply Lang_Cat_inv |].
  intros (s1 & s2 & -> & H1 & H2). constructor; assumption.
Qed.

Lemma Lang_spaces s : Lang (Star (Lit " ")) s <-> spaces s = true.
Proof.
  split.
  - intros H. remember (Star (Lit " ")) as r eqn:E.
    induction H as [| | | | | r0 | r0 s1 s2 H1 _ H2 IH2]; try discriminate.
    + reflexivity.
    + injection E as ->. apply Lang_Lit in H1 as ->.
      unfold spaces. simpl. apply (IH2 eq_refl).
  - induction s as [|c s IH]; unfold spaces; simpl; intros H; [constructor|].
    apply andb_true_iff in H as [Hc Hs]. unfold is_space in Hc.
    apply N.eqb_eq in Hc as <-.
    apply (LStarS (Lit " ") [chr " "] s); [apply Lang_Lit; reflexivity | apply IH, Hs].
Qed.

Lemma Lang_digits n : forall s, Lang (Rep n Digit) s <-> digits n s.
Proof.
  induction n as [|n IH]; intros s; simpl.
  - split.
    + intros ->%Lang_Eps_inv. split; reflexivity.
    + intros [Hl _]. destruct s; [constructor | discriminate].
  - rewrite Lang_Cat. split.
    + intros (s1 & s2 & -> & (c & -> & Hc)%Lang_Sym_inv & [Hl Hd]%IH).
      split; simpl; [rewrite Hl; reflexivity|].
      simpl in Hc. rewrite orb_false_r in Hc. unfold is_digit at 1.
      rewrite Hc, Hd. reflexivity.
    + intros [Hl Hd]. destruct s as [|c s]; [discriminate|].
      simpl in Hl, Hd. apply andb_true_iff in Hd as [Hc Hs].
      exists [c], s. split; [reflexivity|]. split.
      * constructor. simpl. rewrite orb_false_r. exact Hc.
      * apply IH. split; [lia | exact Hs].
Qed.

Lemma Lang_prefix p :
  Lang (Opt prefix_re) p <-> prefix_shape in_space_dot_range p.
Proof.
  rewrite Lang_Opt. unfold prefix_re, prefix_shape.
  apply or_iff_compat_l. rewrite Lang_Cat. split.
  - intros (plus & rest & -> & Hplus%Lang_Opt & Hrest).
    apply Lang_Cat in Hrest as (one & rest' & -> & ->%Lang_Lit & Hrest').
    apply Lang_Cat in Hrest' as (sp & last & -> & Hsp%Lang_spaces & Hlast).
    apply Lang_Sym_inv in Hlast as (c & -> & Hc).
    simpl in Hc. rewrite orb_false_r in Hc.
    exists plus, sp, c. repeat split; auto.
    destruct Hplus as [-> | ->%Lang_Lit]; auto.
  - intros (plus & sp & c & -> & Hplus & Hsp & Hc).
    exists plus, (text "1" ++ sp ++ [c]). split; [reflexivity|]. split.
    + apply Lang_Opt. destruct Hplus as [-> | ->]; [left | right; apply Lang_Lit]; reflexivity.
    + constructor; [apply Lang_Lit; reflexivity|].
      constructor; [apply Lang_spaces, Hsp|].
      constructor. simpl. rewrite orb_false_r. exact Hc.
Qed.

Lemma set_mem_sep c :
  set_mem [IChar (chr " "); IChar (chr "."); IChar (chr "-")] c = is_sep c.
Proof. unfold is_sep. simpl. rewrite orb_false_r, orb_assoc. reflexivity. Qed.

Lemma Lang_sep t : Lang sep_re t <-> sep_shape t.
Proof.
  unfold sep_re, sep_shape. rewrite Lang_Cat. split.
  - intros (sp & e & -> & Hsp%Lang_spaces & He%Lang_Opt).
    exists sp, e. repeat split; auto.
    destruct He as [-> | (c & -> & Hc)%Lang_Sym_inv]; [left; reflexivity|].
    right. exists c. rewrite <- set_mem_sep. auto.
  - intros (sp & e & -> & Hsp & He).
    exists sp, e. split; [reflexivity|]. split; [apply Lang_spaces, Hsp|].
    apply Lang_Opt. destruct He as [-> | (c & -> & Hc)]; [left; reflexivity|].
    right. constructor. rewrite set_mem_sep. exact Hc.
Qed.

Lemma Lang_tail t : Lang tail_re t <-> tail_shape t.
Proof.
  unfold tail_re, tail_shape. rewrite Lang_Cat. split.
  - intros (sp & e & -> & Hsp%Lang_spaces & He%Lang_Opt).
    exists sp, e. repeat split; auto.
    destruct He as [-> | ->%Lang_Lit]; auto.
  - intros (sp & e & -> & Hsp & He).
    exists sp, e. split; [reflexivity|]. split; [apply Lang_spaces, Hsp|].
    apply Lang_Opt. destruct He as [-> | ->]; [left | right; apply Lang_Lit]; reflexivity.
Qed.

(** The matcher accepts exactly the strings of the pattern's shape, the
    prefix separator ranging over space..dot. *)
Lemma phone_match_shape s :
  phone_match s = true <-> phone_shape in_space_dot_range s.
Proof.
  unfold phone_match, PHONE_PATTERN, phone_shape. rewrite fullmatch_Lang.
  split.
  - intros (p & r1 & -> & Hp%Lang_prefix & H)%Lang_Cat.
    apply Lang_Cat in H as (g1 & r2 & -> & Hg1%Lang_digits & H).
    apply Lang_Cat in H as (t1 & r3 & -> & Ht1%Lang_sep & H).
    apply Lang_Cat in H as (g2 & r4 & -> & Hg2%Lang_digits & H).
    apply Lang_Cat in H as (t2 & r5 & -> & Ht2%Lang_sep & H).
    apply Lang_Cat in H as (g3 & tl & -> & Hg3%Lang_digits & Htl%Lang_tail).
    exists p, g1, t1, g2, t2, g3, tl. repeat split; auto; apply Hg1 || apply Hg2 || apply Hg3.
  - intros (p & g1 & t1 & g2 & t2 & g3 & tl & -> & Hp & Hg1 & Ht1 & Hg2 & Ht2 & Hg3 & Htl).
    repeat (constructor; [first [apply Lang_prefix | apply Lang_digits | apply Lang_sep]; assumption|]).
    apply Lang_tail, Htl.
Qed.

Lemma range_not_stray c :
  in_space_dot_range c = true -> is_stray c = false -> is_sep c = true.
Proof.
  unfold in_space_dot_range, is_stray, is_sep, chr. simpl N_of_ascii.
  intros [H1 H2]%andb_true_iff H3.
  apply N.leb_le in H1, H2. apply andb_false_iff in H3.
  rewrite !orb_true_iff, !N.eqb_eq.
  destruct H3 as [H3 | H3]; apply N.leb_gt in H3; lia.
Qed.

Lemma sep_in_range c : is_sep c = true -> in_space_dot_range c = true.
Proof.
  unfold in_space_dot_range, is_sep, chr. simpl N_of_ascii.
  rewrite !orb_true_iff, !N.eqb_eq, andb_true_iff, !N.leb_le. lia.
Qed.

Lemma prefix_shape_mono (p1 p2 : N -> bool) s :
  (forall c, p1 c = true -> p2 c = true) -> prefix_shape p1 s -> prefix_shape p2 s.
Proof.
  intros Hp [-> | (plus & sp & c & -> & Hplus & Hsp & Hc)]; [left; reflexivity|].
  right. exists plus, sp, c. auto.
Qed.

Lemma prefix_no_stray p rest :
  no_stray (p ++ rest) = true ->
  prefix_shape in_space_dot_range p -> prefix_shape is_sep p.
Proof.
  intros Hns [-> | (plus & sp & c & -> & Hplus & Hsp & Hc)]; [left; reflexivity|].
  right. exists plus, sp, c. repeat split; auto.
  apply range_not_stray; [exact Hc|].
  assert (Hin : forall pre post,
             forallb (fun c => negb (is_stray c)) (pre ++ c :: post) = true ->
             is_stray c = false).
  { intros pre post H. rewrite forallb_app in H.
    apply andb_true_iff in H as [_ H]. simpl in H.
    apply andb_true_iff in H as [H _]. apply negb_true_iff, H. }
  destruct Hplus as [-> | ->]; rewrite <- !List.app_assoc in Hns; simpl in Hns;
    first [ apply (Hin sp rest Hns)
          | apply andb_true_iff in Hns as [_ Hns]; apply (Hin sp rest Hns) ].
Qed.

End Phone.

(* ===================================================================== *)
(** * Binary64 comparisons                                                *)
(* ===================================================================== *)

Module FloatFacts.

Lemma SFcompare_antisym (a b : spec_float) :
  SFcompare b a = option_map CompOpp (SFcompare a b).
Proof.
  destruct a as [sa|sa| |sa ma ea], b as [sb|sb| |sb mb eb]; simpl;
    try reflexivity; try (destruct sa; reflexivity); try (destruct sb; reflexivity);
    try (destruct sa, sb; reflexivity).
  destruct sa, sb; simpl; try reflexivity;
    rewrite (Z.compare_antisym ea eb); destruct (ea ?= eb)%Z; simpl; try reflexivity;
    change (Pos.compare_cont Eq ?x ?y) with (Pos.compare x y);
    rewrite (Pos.compare_antisym ma mb); destruct (ma ?= mb)%positive; reflexivity.
Qed.

(** [x <= y] excludes [y < x]. *)
Lemma leb_not_ltb (x y : float) :
  PrimFloat.leb x y = true -> PrimFloat.ltb y x = false.
Proof.
  rewrite leb_spec, ltb_spec. unfold SFleb, SFltb.
  rewrite (SFcompare_antisym (Prim2SF x) (Prim2SF y)).
  destruct (SFcompare (Prim2SF x) (Prim2SF y)) as [[]|]; simpl; congruence.
Qed.

Lemma SFcompare_none (a b : spec_float) :
  SFcompare a b = None -> SFeqb a a = false \/ SFeqb b b = false.
Proof.
  unfold SFeqb.
  destruct a as [sa|sa| |sa ma ea]; [| |left; reflexivity|];
    (destruct b as [sb|sb| |sb mb eb]; [| |right; reflexivity|]);
    simpl; try discriminate;
    try (destruct sa; discriminate); try (destruct sb; discriminate);
    try (destruct sa, sb; discriminate);
    destruct sa, sb; try discriminate;
    destruct (ea ?= eb)%Z; try discriminate;
    destruct (Pos.compare_cont Eq ma mb); discriminate.
Qed.

(** When [y < x] is false, either [x <= y] or one of the two is not a
    number: every comparison with a NaN is false. *)
Lemma not_ltb_cases (x y : float) :
  PrimFloat.ltb y x = false ->
  PrimFloat.leb x y = true \/ PrimFloat.is_nan x = true \/ PrimFloat.is_nan y = true.
Proof.
  unfold PrimFloat.is_nan. rewrite leb_spec, ltb_spec, !FloatAxioms.eqb_spec.
  unfold SFleb, SFltb.
  rewrite (SFcompare_antisym (Prim2SF x) (Prim2SF y)).
  destruct (SFcompare (Prim2SF x) (Prim2SF y)) as [[]|] eqn:E; simpl;
    try discriminate; auto.
  intros _. right.
  destruct (SFcompare_none _ _ E) as [-> | ->]; auto.
Qed.

End FloatFacts.

(* ===================================================================== *)
(** * The pydantic models                                                 *)
(* ===================================================================== *)

Module Schema.
Import PyStr.

(** Why a field was refused. *)
Inductive err_kind :=
| Missing                 (* the field is absent or not of its declared type *)
| NotGt (bound : Z)       (* [Field(gt=bound)] *)
| NotGe (bound : Z)       (* [Field(ge=bound)] *)
| EmailSyntax             (* [EmailStr] *)
| ValueError (msg : string).   (* raised by a [@validator] *)

(** One entry of a [ValidationError]: where, and why. *)
Record error := mk_error { loc : list string; kind : err_kind }.

Definition zero : float := 0%float.
(** The double nearest to the literal [0.01]. *)
Definition tolerance : float := 0x1.47ae147ae147bp-7%float.

(** A field's checks run in order on the parsed value and stop at the
    first one that raises. *)
Fixpoint first_error {A} (checks : list (A -> option err_kind)) (v : A)
  : option err_kind :=
  match checks with
  | [] => None
  | c :: rest =>
      match c v with
      | Some e => Some e
      | None => first_error rest v
      end
  end.

(** Validation of one field: the raw value is [None] when the payload
    lacks the field or holds a value that does not parse at its type. *)
Definition field {A} (name : string) (raw : option A)
    (checks : list (A -> option err_kind)) : list error + A :=
  match raw with
  | None => inl [mk_error [name] Missing]
  | Some v =>
      match first_error checks v with
      | Some e => inl [mk_error [name] e]
      | None => inr v
      end
  end.

Definition errors_of {A} (r : list error + A) : list error :=
  match r with inl es => es | inr _ => [] end.

Definition value_of {A} (r : list error + A) : option A :=
  match r with inl _ => None | inr v => Some v end.

(** Errors of a nested model are reported below the field that holds it. *)
Definition under (name : string) (es : list error) : list error :=
  map (fun e => mk_error (name :: loc e) (kind e)) es.

Definition int_gt (bound : Z) (v : Z) : option err_kind :=
  if (bound <? v)%Z then None else Some (NotGt bound).
Definition int_ge (bound : Z) (v : Z) : option err_kind :=
  if (bound <=? v)%Z then None else Some (NotGe bound).
(** [v >= 0] on floats: false for a negative number and for NaN. *)
Definition float_ge0 (v : float) : option err_kind :=
  if PrimFloat.leb zero v then None else Some (NotGe 0).

(** ** [CartItem] *)

Record RawCartItem := {
  raw_qty : option Z;
  raw_price : option float;
  raw_pricePerUnit : option float;
  raw_imageUrl : option string
}.

Record CartItem := {
  qty : Z;
  price : float;
  pricePerUnit : float;
  imageUrl : string
}.

Definition validate_cart_item (r : RawCartItem) : list error + CartItem :=
  let f_qty := field "qty" (raw_qty r) [int_gt 0] in
  let f_price := field "price" (raw_price r) [float_ge0] in
  let f_ppu := field "pricePerUnit" (raw_pricePerUnit r) [float_ge0] in
  let f_img := field "imageUrl" (raw_imageUrl r) [] in
  match f_qty, f_price, f_ppu, f_img with
  | inr q, inr p, inr u, inr i =>
      inr {| qty := q; price := p; pricePerUnit := u; imageUrl := i |}
  | _, _, _, _ =>
      inl (errors_of f_qty ++ errors_of f_price ++ errors_of f_ppu ++ errors_of f_img)
  end.

(** ** [Cart] *)

(** [items: Dict[str, CartItem]]: a dict keeps insertion order, which is
    the order of the errors and of the sums. *)
Record RawCart := {
  raw_items : option (list (string * RawCartItem));
  raw_totalQty : option Z;
  raw_totalPrice : option float
}.

Record Cart := {
  items : list (string * CartItem);
  totalQty : Z;
  totalPrice : float
}.

(** The [values] argument of a validator: the fields declared earlier
    that validated. *)
Record cart_values := {
  val_items : option (list (string * CartItem));
  val_totalQty : option Z
}.

Fixpoint validate_items (l : list (string * RawCartItem))
  : list error * list (string * CartItem) :=
  match l with
  | [] => ([], [])
  | (name, r) :: rest =>
      let '(es, vs) := validate_items rest in
      match validate_cart_item r with
      | inl e => (under name e ++ es, vs)
      | inr it => (es, (name, it) :: vs)
      end
  end.

Definition validate_items_field (raw : option (list (string * RawCartItem)))
  : list error + list (string * CartItem) :=
  match raw with
  | None => inl [mk_error ["items"] Missing]
  | Some l =>
      match validate_items l with
      | ([], vs) => inr vs
      | (es, _) => inl (under "items" es)
      end
  end.

(** [sum] over floats: binary64 additions from left to right, starting
    from 0. (From CPython 3.12 on, [sum] also carries a compensation term;
    nothing below depends on how the additions round.) *)
Definition float_sum (xs : list float) : float :=
  fold_left PrimFloat.add xs zero.

(** [sum(item.price for item in values['items'].values())] *)
Definition sum_prices (its : list (string * CartItem)) : float :=
  float_sum (map (fun it => price (snd it)) its).

(** [sum(item.qty for item in values['items'].values())] *)
Definition sum_qty (its : list (string * CartItem)) : Z :=
  fold_left (fun acc it => (acc + qty (snd it))%Z) its 0%Z.

Definition min_order_message : string :=
  "Our minimum order size for delivery is 3 items.".
Definition price_mismatch_message : string :=
  "Total price does not match sum of item prices".
Definition qty_mismatch_message : string :=
  "Total quantity does not match sum of item quantities".

Definition validate_min_quantity (v : Z) : option err_kind :=
  if (v <? 3)%Z then Some (ValueError min_order_message) else None.

Definition validate_total_price (values : cart_values) (v : float)
  : option err_kind :=
  match val_items values with
  | Some its =>
      let calculated_total := sum_prices its in
      if PrimFloat.ltb tolerance (PrimFloat.abs (PrimFloat.sub calculated_total v))
      then Some (ValueError price_mismatch_message)
      else None
  | None => None
  end.

Definition validate_total_qty (values : cart_values) (v : Z)
  : option err_kind :=
  match val_items values with
  | Some its =>
      let calculated_qty := sum_qty its in
      if (calculated_qty =? v)%Z then None
      else Some (ValueError qty_mismatch_message)
  | None => None
  end.

(** Fields are validated in declaration order; each sees the earlier ones
    that passed. The class validators of a field run after its type and
    [Field] constraints, in the order they are defined in the class. *)
Definition validate_cart (r : RawCart) : list error + Cart :=
  let f_items := validate_items_field (raw_items r) in
  let values1 := {| val_items := value_of f_items; val_totalQty := None |} in
  let f_qty := field "totalQty" (raw_totalQty r)
                 [int_ge 0; validate_min_quantity; validate_total_qty values1] in
  let values2 := {| val_items := value_of f_items; val_totalQty := value_of f_qty |} in
  let f_price := field "totalPrice" (raw_totalPrice r)
                   [float_ge0; validate_total_price values2] in
  match f_items, f_qty, f_price with
  | inr its, inr q, inr p => inr {| items := its; totalQty := q; totalPrice := p |}
  | _, _, _ => inl (errors_of f_items ++ errors_of f_qty ++ errors_of f_price)
  end.

Definition min_order_error : error :=
  mk_error ["totalQty"] (ValueError min_order_message).
Definition price_mismatch_error : error :=
  mk_error ["totalPrice"] (ValueError price_mismatch_message).

(** ** [OrderRequest] *)

Record RawOrderRequest := {
  raw_phone : option Unicode.ustr;
  raw_email : option string;
  raw_verification : option string;
  raw_shipping : option string;
  raw_order : option RawCart;
  raw_cf_token : option string
}.

Record OrderRequest := {
  phone : Unicode.ustr;
  email : string;
  verification : string;   (* honeypot field *)
  shipping : string;
  order : Cart;
  cf_token : string        (* cloudflare turnstile *)
}.

Definition phone_message : string := "Please enter a valid phone number.".

Definition validate_phone_format (v : Unicode.ustr) : option err_kind :=
  if negb (Re.phone_match v) then Some (ValueError phone_message) else None.

Section WithEmailValidator.

(** [EmailStr] defers to the [email-validator] package, which returns
    the normalised address or refuses the string. *)
Variable validate_email : string -> option string.

Definition email_field (raw : option string) : list error + string :=
  match raw with
  | None => inl [mk_error ["email"] Missing]
  | Some v =>
      match validate_email v with
      | Some v' => inr v'
      | None => inl [mk_error ["email"] EmailSyntax]
      end
  end.

Definition order_field (raw : option RawCart) : list error + Cart :=
  match raw with
  | None => inl [mk_error ["order"] Missing]
  | Some c =>
      match validate_cart c with
      | inl es => inl (under "order" es)
      | inr c' => inr c'
      end
  end.

Definition validate_order_request (r : RawOrderRequest)
  : list error + OrderRequest :=
  let f_phone := field "phone" (raw_phone r) [validate_phone_format] in
  let f_email := email_field (raw_email r) in
  let f_verification := field "verification" (raw_verification r) [] in
  let f_shipping := field "shipping" (raw_shipping r) [] in
  let f_order := order_field (raw_order r) in
  let f_cf_token := field "cf_token" (raw_cf_token r) [] in
  match f_phone, f_email, f_verification, f_shipping, f_order, f_cf_token with
  | inr p, inr e, inr v, inr s, inr o, inr t =>
      inr {| phone := p; email := e; verification := v; shipping := s;
             order := o; cf_token := t |}
  | _, _, _, _, _, _ =>
      inl (errors_of f_phone ++ errors_of f_email ++ errors_of f_verification
           ++ errors_of f_shipping ++ errors_of f_order ++ errors_of f_cf_token)
  end.

End WithEmailValidator.

End Schema.

(* ===================================================================== *)
(** * Properties of the schema                                            *)
(* ===================================================================== *)

Module SchemaFacts.
Import PyStr Schema.

(** ** Phone numbers *)

(** C7, as stated, does not hold: the validator does not accept exactly
    the strings made of an optional [+1] or [1] followed by 3-3-4 digits
    separated by any combination of spaces, dots and hyphens. A double
    hyphen between the first two groups is such a combination, and the
    pattern refuses it. *)
Lemma phone_form_not_exact :
  ~ (forall s, validate_phone_format s = None <-> Phone.spec_phone_form s).
Proof.
  intros H. specialize (H (Unicode.text "555--123-4567")). destruct H as [_ H].
  assert (Hc : validate_phone_format (Unicode.text "555--123-4567") = None);
    [|discriminate Hc].
  apply H.
  exists [], (Unicode.text "555"), (Unicode.text "--"), (Unicode.text "123"),
    (Unicode.text "-"), (Unicode.text "4567").
  repeat split; auto.
Qed.

(** C7, amended: on a string with none of the twelve characters between
    the exclamation mark and the comma after its first position, the
    validator accepts exactly: an optional prefix (optional [+], [1], any
    number of spaces, then one space, dot or hyphen), three digits, a
    separator (any number of spaces, then at most one space, dot or
    hyphen), three digits, a separator, four digits, any number of
    trailing spaces and at most one final newline. The string is a list
    of code points and a digit is a decimal digit of any script, as [\d]
    has it. *)
Theorem phone_validator_shape (s : Unicode.ustr) :
  Phone.no_stray s = true ->
  (validate_phone_format s = None <-> Phone.phone_shape Phone.is_sep s).
Proof.
  intros Hns. unfold validate_phone_format.
  destruct (Re.phone_match s) eqn:Hm; simpl.
  - split; [intros _ | reflexivity].
    apply Phone.phone_match_shape in Hm
      as (p & g1 & t1 & g2 & t2 & g3 & tl & E & Hp & Hrest).
    exists p, g1, t1, g2, t2, g3, tl. split; [exact E|]. split; [|exact Hrest].
    subst s. eapply Phone.prefix_no_stray; eassumption.
  - split; [discriminate|]. intros Hs. exfalso.
    assert (Re.phone_match s = true); [|congruence].
    apply Phone.phone_match_shape.
    destruct Hs as (p & g1 & t1 & g2 & t2 & g3 & tl & E & Hp & Hrest).
    exists p, g1, t1, g2, t2, g3, tl. split; [exact E|]. split; [|exact Hrest].
    eapply Phone.prefix_shape_mono; [apply Phone.sep_in_range | exact Hp].
Qed.

Lemma phone_validator_shape_witness :
  Phone.no_stray (Unicode.text "+1 555.123-4567") = true /\
  (validate_phone_format (Unicode.text "+1 555.123-4567") = None <->
   Phone.phone_shape Phone.is_sep (Unicode.text "+1 555.123-4567")).
Proof.
  split; [reflexivity|].
  apply (phone_validator_shape (Unicode.text "+1 555.123-4567")); reflexivity.
Defined.

(** ** Minimum order size *)

Definition spec_cart : RawCart :=
  {| raw_items := Some
       [ ("apple", {| raw_qty := Some 1%Z; raw_price := Some 10%float;
                      raw_pricePerUnit := Some 10%float; raw_imageUrl := Some "a.png" |});
         ("pear", {| raw_qty := Some 1%Z; raw_price := Some 5%float;
                     raw_pricePerUnit := Some 5%float; raw_imageUrl := Some "p.png" |});
         ("plum", {| raw_qty := Some 1%Z; raw_price := Some 5%float;
                     raw_pricePerUnit := Some 5%float; raw_imageUrl := Some "l.png" |}) ];
     raw_totalQty := Some 3%Z;
     raw_totalPrice := Some 20%float |}.

Example spec_cart_valid : errors_of (validate_cart spec_cart) = [].
Proof. reflexivity. Qed.

(** A cart that declares two items (and holds two). *)
Definition small_cart : RawCart :=
  {| raw_items := Some
       [ ("apple", {| raw_qty := Some 2%Z; raw_price := Some 10%float;
                      raw_pricePerUnit := Some 5%float; raw_imageUrl := Some "a.png" |}) ];
     raw_totalQty := Some 2%Z;
     raw_totalPrice := Some 10%float |}.

(** A cart that declares a negative quantity. *)
Definition negative_cart : RawCart :=
  {| raw_items := Some []; raw_totalQty := Some (-1)%Z; raw_totalPrice := Some 0%float |}.

(** C6, as stated, does not hold for every declared quantity below 3: a
    negative one is refused by [Field(ge=0)], after which the validators
    of the field do not run, and the failure carries no minimum-order
    error. *)
Lemma min_order_not_for_negative :
  raw_totalQty negative_cart = Some (-1)%Z /\ (-1 < 3)%Z /\
  validate_cart negative_cart = inl [mk_error ["totalQty"] (NotGe 0)] /\
  ~ In min_order_error (errors_of (validate_cart negative_cart)).
Proof.
  repeat split. intros [H | []]. discriminate H.
Qed.

Lemma field_error_in {A} name (v : A) checks e :
  first_error checks v = Some e ->
  field name (Some v) checks = inl [mk_error [name] e].
Proof. intros H. unfold field. rewrite H. reflexivity. Qed.

Lemma field_errors_loc {A} name (raw : option A) checks e :
  In e (errors_of (field name raw checks)) -> loc e = [name].
Proof.
  unfold field. destruct raw as [v|]; [destruct (first_error checks v)|];
    simpl; intros H; try destruct H as [<- | []]; try reflexivity; destruct H.
Qed.

Lemma validate_cart_errors (c : RawCart) e :
  In e (errors_of (validate_items_field (raw_items c)) ++
        errors_of (field "totalQty" (raw_totalQty c)
          [int_ge 0; validate_min_quantity;
           validate_total_qty {| val_items := value_of (validate_items_field (raw_items c));
                                 val_totalQty := None |}]) ++
        errors_of (field "totalPrice" (raw_totalPrice c)
          [float_ge0;
           validate_total_price
             {| val_items := value_of (validate_items_field (raw_items c));
                val_totalQty := value_of (field "totalQty" (raw_totalQty c)
                  [int_ge 0; validate_min_quantity;
                   validate_total_qty {| val_items := value_of (validate_items_field (raw_items c));
                                         val_totalQty := None |}]) |}])) <->
  In e (errors_of (validate_cart c)).
Proof.
  unfold validate_cart.
  destruct (validate_items_field (raw_items c)) as [e1 | its]; [reflexivity|].
  destruct (field "totalQty" _ _) as [e2 | q]; [reflexivity|].
  destruct (field "totalPrice" _ _) as [e3 | p]; [reflexivity|].
  simpl. reflexivity.
Qed.

Lemma validate_cart_fails (c : RawCart) e :
  In e (errors_of (validate_cart c)) ->
  exists es, validate_cart c = inl es /\ In e es.
Proof.
  destruct (validate_cart c) as [es | ok]; simpl; [eauto | intros []].
Qed.

(** C6, amended: every cart whose declared totalQty is 0, 1 or 2 fails
    validation with the minimum-order error, whose message contains the
    threshold 3, whatever its line items are. *)
Theorem min_order_enforced (c : RawCart) (q : Z) :
  raw_totalQty c = Some q -> (0 <= q < 3)%Z ->
  (exists es, validate_cart c = inl es /\ In min_order_error es) /\
  kind min_order_error = ValueError min_order_message /\
  contains "3" min_order_message = true.
Proof.
  intros Hq Hr. split; [|split; reflexivity].
  apply validate_cart_fails, validate_cart_errors.
  apply in_or_app; right. apply in_or_app; left.
  rewrite Hq. erewrite field_error_in; [left; reflexivity|].
  simpl. unfold int_ge, validate_min_quantity.
  destruct (0 <=? q)%Z eqn:E0; [|lia].
  destruct (q <? 3)%Z eqn:E3; [reflexivity | lia].
Qed.

Lemma min_order_enforced_witness :
  raw_totalQty small_cart = Some 2%Z /\ (0 <= 2 < 3)%Z /\
  ((exists es, validate_cart small_cart = inl es /\ In min_order_error es) /\
   kind min_order_error = ValueError min_order_message /\
   contains "3" min_order_message = true).
Proof.
  split; [reflexivity|]. split; [lia|].
  apply (min_order_enforced small_cart 2%Z); [reflexivity | lia].
Defined.

(** ** Declared total price *)

(** The prices of the line items as the payload gives them, when every
    item has one. *)
Fixpoint raw_prices (l : list (string * RawCartItem)) : option (list float) :=
  match l with
  | [] => Some []
  | (_, r) :: rest =>
      match raw_price r, raw_prices rest with
      | Some p, Some ps => Some (p :: ps)
      | _, _ => None
      end
  end.

(** The absolute difference between the sum of the line-item prices and
    the declared total, in binary64 arithmetic, summed in item order. *)
Definition price_gap (c : RawCart) : option float :=
  match raw_items c, raw_totalPrice c with
  | Some l, Some v =>
      match raw_prices l with
      | Some ps =>
          Some (PrimFloat.abs (PrimFloat.sub (float_sum ps) v))
      | None => None
      end
  | _, _ => None
  end.

(** Prices 0.1, 0.2 and 0.3 against a declared total of 0.59 and of 0.61,
    each the nearest double: the binary64 sum is 0.6000000000000001, which
    is more than the tolerance away from the first total and less than it
    away from the second. *)
Definition dimes (total : float) : RawCart :=
  {| raw_items := Some
       [ ("a", {| raw_qty := Some 1%Z; raw_price := Some 0x1.999999999999ap-4%float;
                  raw_pricePerUnit := Some 0x1.999999999999ap-4%float;
                  raw_imageUrl := Some "a.png" |});
         ("b", {| raw_qty := Some 1%Z; raw_price := Some 0x1.999999999999ap-3%float;
                  raw_pricePerUnit := Some 0x1.999999999999ap-3%float;
                  raw_imageUrl := Some "b.png" |});
         ("c", {| raw_qty := Some 1%Z; raw_price := Some 0x1.3333333333333p-2%float;
                  raw_pricePerUnit := Some 0x1.3333333333333p-2%float;
                  raw_imageUrl := Some "c.png" |}) ];
     raw_totalQty := Some 3%Z;
     raw_totalPrice := Some total |}.

Example dimes_low_total :
  errors_of (validate_cart (dimes 0x1.2e147ae147ae1p-1%float)) = [price_mismatch_error].
Proof. reflexivity. Qed.

Example dimes_high_total :
  errors_of (validate_cart (dimes 0x1.3851eb851eb85p-1%float)) = [].
Proof. reflexivity. Qed.

(** A cart whose only line item has quantity 0, priced 5, declaring a
    total of 100. *)
Definition zero_qty_cart : RawCart :=
  {| raw_items := Some
       [ ("apple", {| raw_qty := Some 0%Z; raw_price := Some 5%float;
                      raw_pricePerUnit := Some 5%float; raw_imageUrl := Some "a.png" |}) ];
     raw_totalQty := Some 3%Z;
     raw_totalPrice := Some 100%float |}.

(** A cart off by 3 on the price. *)
Definition overpriced_cart : RawCart :=
  {| raw_items := Some
       [ ("apple", {| raw_qty := Some 3%Z; raw_price := Some 30%float;
                      raw_pricePerUnit := Some 10%float; raw_imageUrl := Some "a.png" |}) ];
     raw_totalQty := Some 3%Z;
     raw_totalPrice := Some 33%float |}.

(** A cart with a valid line item priced 30, declaring a total of -1. *)
Definition negative_total_cart : RawCart :=
  {| raw_items := Some
       [ ("apple", {| raw_qty := Some 3%Z; raw_price := Some 30%float;
                      raw_pricePerUnit := Some 10%float; raw_imageUrl := Some "a.png" |}) ];
     raw_totalQty := Some 3%Z;
     raw_totalPrice := Some (-1)%float |}.

(** C5, as stated, does not hold for every cart. When a line item is
    itself invalid, [items] is not among the validated [values], the
    price validator returns without comparing, and the failure carries
    no price-mismatch error although the prices are 95 apart. When the
    declared total is negative, [Field(ge=0)] refuses it and the price
    validator does not run. *)
Lemma price_check_skipped :
  (price_gap zero_qty_cart = Some 95%float /\
   PrimFloat.ltb tolerance 95%float = true /\
   validate_cart zero_qty_cart = inl [mk_error ["items"; "apple"; "qty"] (NotGt 0)] /\
   ~ In price_mismatch_error (errors_of (validate_cart zero_qty_cart))) /\
  (price_gap negative_total_cart = Some 31%float /\
   PrimFloat.ltb tolerance 31%float = true /\
   validate_cart negative_total_cart = inl [mk_error ["totalPrice"] (NotGe 0)] /\
   ~ In price_mismatch_error (errors_of (validate_cart negative_total_cart))).
Proof.
  split; repeat split; intros [H | []]; discriminate H.
Qed.

Lemma validate_cart_item_price (r : RawCartItem) (it : CartItem) :
  validate_cart_item r = inr it -> raw_price r = Some (price it).
Proof.
  unfold validate_cart_item, field.
  destruct (raw_qty r) as [q|], (raw_price r) as [p|],
    (raw_pricePerUnit r) as [u|], (raw_imageUrl r) as [i|];
    repeat match goal with
           | |- context [first_error ?cs ?x] => destruct (first_error cs x)
           end;
    try discriminate.
  intros [= <-]. reflexivity.
Qed.

Lemma validate_cart_item_errors (r : RawCartItem) :
  validate_cart_item r <> inl [].
Proof.
  unfold validate_cart_item, field.
  destruct (raw_qty r) as [q|], (raw_price r) as [p|],
    (raw_pricePerUnit r) as [u|], (raw_imageUrl r) as [i|];
    repeat match goal with
           | |- context [first_error ?cs ?x] => destruct (first_error cs x)
           end;
    discriminate.
Qed.

Lemma validate_items_prices (l : list (string * RawCartItem)) vs :
  validate_items l = ([], vs) ->
  raw_prices l = Some (map (fun it => price (snd it)) vs).
Proof.
  revert vs. induction l as [|[name r] l IH]; intros vs; simpl.
  - intros [= <-]. reflexivity.
  - destruct (validate_items l) as [es vs'] eqn:El.
    destruct (validate_cart_item r) as [e | it] eqn:Ei.
    + intros [= Hnil _]. apply app_eq_nil in Hnil as [Hu _].
      destruct e as [|e0 e]; [|discriminate Hu].
      destruct (validate_cart_item_errors r Ei).
    + intros [= -> <-]. rewrite (validate_cart_item_price _ _ Ei), (IH vs' eq_refl).
      reflexivity.
Qed.

(** C5, amended: for every cart whose line items are all valid and whose
    declared totalPrice is a number not below 0, with the sum and the
    difference taken in binary64 arithmetic: if the absolute difference
    between the sum of the line-item prices and totalPrice is greater
    than 0.01, validation fails with the price-mismatch error; if it is
    at most 0.01, no price-mismatch error is raised. *)
Theorem price_check_on_valid_items (c : RawCart) its (v d : float) :
  validate_items_field (raw_items c) = inr its ->
  raw_totalPrice c = Some v ->
  PrimFloat.leb zero v = true ->
  price_gap c = Some d ->
  (PrimFloat.ltb tolerance d = true ->
     exists es, validate_cart c = inl es /\ In price_mismatch_error es) /\
  (PrimFloat.leb d tolerance = true ->
     ~ In price_mismatch_error (errors_of (validate_cart c))).
Proof.
  intros Hits Hv Hge Hgap.
  assert (Hd : d = PrimFloat.abs (PrimFloat.sub (sum_prices its) v)).
  { unfold price_gap in Hgap. rewrite Hv in Hgap.
    unfold validate_items_field in Hits.
    destruct (raw_items c) as [l|]; [|discriminate].
    destruct (validate_items l) as [[|e es] vs] eqn:El; [|discriminate].
    injection Hits as <-. rewrite (validate_items_prices _ _ El) in Hgap.
    injection Hgap as <-. reflexivity. }
  assert (Hprice : forall vals,
    val_items vals = Some its ->
    errors_of (field "totalPrice" (raw_totalPrice c)
                 [float_ge0; validate_total_price vals]) =
    if PrimFloat.ltb tolerance d then [price_mismatch_error] else []).
  { intros vals Hvals. rewrite Hv. unfold field. simpl. unfold float_ge0.
    rewrite Hge. unfold validate_total_price. rewrite Hvals, <- Hd.
    destruct (PrimFloat.ltb tolerance d); reflexivity. }
  split.
  - intros Hlt. apply validate_cart_fails, validate_cart_errors.
    apply in_or_app; right. apply in_or_app; right.
    rewrite Hprice; [|rewrite Hits; reflexivity]. rewrite Hlt. left; reflexivity.
  - intros Hle Hin. apply validate_cart_errors in Hin.
    apply in_app_or in Hin as [Hin | Hin].
    { rewrite Hits in Hin. destruct Hin. }
    apply in_app_or in Hin as [Hin | Hin].
    + apply field_errors_loc in Hin. discriminate Hin.
    + rewrite Hprice in Hin; [|rewrite Hits; reflexivity].
      rewrite (FloatFacts.leb_not_ltb _ _ Hle) in Hin. destruct Hin.
Qed.

Lemma price_check_on_valid_items_witness :
  exists its,
    validate_items_field (raw_items overpriced_cart) = inr its /\
    raw_totalPrice overpriced_cart = Some 33%float /\
    PrimFloat.leb zero 33%float = true /\
    price_gap overpriced_cart = Some 3%float /\
    ((PrimFloat.ltb tolerance 3%float = true ->
        exists es, validate_cart overpriced_cart = inl es /\ In price_mismatch_error es) /\
     (PrimFloat.leb 3%float tolerance = true ->
        ~ In price_mismatch_error (errors_of (validate_cart overpriced_cart)))).
Proof.
  exists [("apple", {| qty := 3%Z; price := 30%float;
                       pricePerUnit := 10%float; imageUrl := "a.png" |})].
  split; [reflexivity|]. split; [reflexivity|].
  split; [reflexivity|]. split; [reflexivity|].
  apply (price_check_on_valid_items overpriced_cart
           [("apple", {| qty := 3%Z; price := 30%float;
                         pricePerUnit := 10%float; imageUrl := "a.png" |})]
           33%float 3%float); reflexivity.
Defined.

End SchemaFacts.

(* ===================================================================== *)
(** * One error per faulty field, every faulty field reported             *)
(* ===================================================================== *)

Module SchemaErrors.
Import PyStr Schema.

Definition locs (es : list error) : list (list string) := map loc es.

(** Every error sits below one of the fields [names]. *)
Definition rooted_in (names : list string) (es : list error) : Prop :=
  forall e, In e es -> exists n rest, loc e = n :: rest /\ In n names.

(** The errors have pairwise different locations, below [names]. *)
Definition tidy (names : list string) (es : list error) : Prop :=
  List.NoDup (locs es) /\ rooted_in names es.

(** The names of the line items of a payload. *)
Definition item_names (r : RawOrderRequest) : list string :=
  match raw_order r with
  | Some c => match raw_items c with Some l => map fst l | None => [] end
  | None => []
  end.

(** An address is taken as it is when it has an at-sign. *)
Definition lenient_email (s : string) : option string :=
  if contains "@" s then Some s else None.

(** A bad phone number and a cart of two items. *)
Definition two_faults : RawOrderRequest :=
  {| raw_phone := Some (Unicode.text "12345");
     raw_email := Some "ann@example.com";
     raw_verification := Some "";
     raw_shipping := Some "1 Main St";
     raw_order := Some
       {| raw_items := Some
            [ ("apple", {| raw_qty := Some 2%Z; raw_price := Some 10%float;
                           raw_pricePerUnit := Some 5%float;
                           raw_imageUrl := Some "a.png" |}) ];
          raw_totalQty := Some 2%Z;
          raw_totalPrice := Some 10%float |};
     raw_cf_token := Some "good" |}.

Lemma tidy_nil names : tidy names [].
Proof. split; [constructor | intros e []]. Qed.

Lemma tidy_single names name k :
  In name names -> tidy names [mk_error [name] k].
Proof.
  intros Hn. split.
  - constructor; [intros [] | constructor].
  - intros e [<- | []]. eauto.
Qed.

Lemma tidy_field {A} name (raw : option A) checks :
  tidy [name] (errors_of (field name raw checks)).
Proof.
  unfold field. destruct raw as [v|]; [destruct (first_error checks v)|]; simpl;
    first [apply tidy_nil | apply tidy_single; left; reflexivity].
Qed.

Lemma NoDup_prefixed (name : string) (ls : list (list string)) :
  List.NoDup ls -> List.NoDup (map (cons name) ls).
Proof.
  induction 1 as [|l ls Hl Hls IH]; simpl; constructor; [|exact IH].
  intros (l' & [= ->] & Hin)%in_map_iff. exact (Hl Hin).
Qed.

Lemma tidy_under name es :
  List.NoDup (locs es) -> tidy [name] (under name es).
Proof.
  intros Hnd. split.
  - unfold locs, under. rewrite map_map. simpl.
    rewrite <- (map_map loc (cons name)).
    apply NoDup_prefixed, Hnd.
  - intros e (e0 & <- & _)%in_map_iff. simpl. exists name, (loc e0).
    split; [reflexivity | left; reflexivity].
Qed.

Lemma tidy_app n1 n2 es1 es2 :
  tidy n1 es1 -> tidy n2 es2 ->
  (forall n, In n n1 -> ~ In n n2) ->
  tidy (n1 ++ n2) (es1 ++ es2).
Proof.
  intros [Hd1 Hr1] [Hd2 Hr2] Hdis. split.
  - unfold locs. rewrite map_app. apply List.NoDup_app; [exact Hd1 | exact Hd2 |].
    intros l (e1 & <- & H1)%in_map_iff (e2 & E & H2)%in_map_iff.
    destruct (Hr1 _ H1) as (m1 & r1 & E1 & Hm1).
    destruct (Hr2 _ H2) as (m2 & r2 & E2 & Hm2).
    rewrite E1, E2 in E. injection E as -> _. exact (Hdis _ Hm1 Hm2).
  - intros e [H | H]%in_app_or.
    + destruct (Hr1 _ H) as (m & r & E & Hm). exists m, r. split; [exact E|].
      apply in_or_app; left; exact Hm.
    + destruct (Hr2 _ H) as (m & r & E & Hm). exists m, r. split; [exact E|].
      apply in_or_app; right; exact Hm.
Qed.

Lemma tidy_weaken n1 n2 es :
  (forall n, In n n1 -> In n n2) -> tidy n1 es -> tidy n2 es.
Proof.
  intros Hsub [Hd Hr]. split; [exact Hd|].
  intros e He. destruct (Hr _ He) as (m & r & E & Hm). eauto.
Qed.

(** Field names of one model are told apart by comparison. *)
Ltac names_apart :=
  let n := fresh "n" in
  let H1 := fresh "H" in
  let H2 := fresh "H" in
  intros n H1 H2; simpl in H1, H2;
  repeat match goal with
         | H : _ \/ _ |- _ => destruct H
         | H : False |- _ => destruct H
         end;
  subst; discriminate.

Lemma cart_item_errors (r : RawCartItem) :
  errors_of (validate_cart_item r) =
  errors_of (field "qty" (raw_qty r) [int_gt 0]) ++
  errors_of (field "price" (raw_price r) [float_ge0]) ++
  errors_of (field "pricePerUnit" (raw_pricePerUnit r) [float_ge0]) ++
  errors_of (field "imageUrl" (raw_imageUrl r) (@nil (string -> option err_kind))).
Proof.
  unfold validate_cart_item.
  destruct (field "qty" _ _), (field "price" _ _), (field "pricePerUnit" _ _),
    (field "imageUrl" _ _); reflexivity.
Qed.

Lemma tidy_cart_item (r : RawCartItem) :
  List.NoDup (locs (errors_of (validate_cart_item r))).
Proof.
  rewrite cart_item_errors.
  apply (tidy_app ["qty"] ["price"; "pricePerUnit"; "imageUrl"]);
    [apply tidy_field | | names_apart].
  apply (tidy_app ["price"] ["pricePerUnit"; "imageUrl"]);
    [apply tidy_field | | names_apart].
  apply (tidy_app ["pricePerUnit"] ["imageUrl"]);
    [apply tidy_field | apply tidy_field | names_apart].
Qed.

Lemma tidy_items (l : list (string * RawCartItem)) :
  List.NoDup (map fst l) -> tidy (map fst l) (fst (validate_items l)).
Proof.
  induction l as [|[name r] l IH]; simpl; intros Hnd; [apply tidy_nil|].
  apply List.NoDup_cons_iff in Hnd as [Hfresh Hnd]. specialize (IH Hnd).
  destruct (validate_items l) as [es vs]. simpl in IH.
  pose proof (tidy_cart_item r) as Hitem.
  destruct (validate_cart_item r) as [e | it]; simpl in *.
  - apply (tidy_app [name] (map fst l)); [apply tidy_under, Hitem | exact IH |].
    intros n [<- | []]. exact Hfresh.
  - eapply tidy_weaken; [|exact IH]. intros n Hn. right; exact Hn.
Qed.

Lemma tidy_items_field (raw : option (list (string * RawCartItem))) :
  List.NoDup (match raw with Some l => map fst l | None => [] end) ->
  tidy ["items"] (errors_of (validate_items_field raw)).
Proof.
  intros Hnd. unfold validate_items_field. destruct raw as [l|]; simpl.
  - pose proof (tidy_items l Hnd) as [Hd _].
    destruct (validate_items l) as [[|e es] vs]; [apply tidy_nil|].
    apply tidy_under, Hd.
  - apply tidy_single. left; reflexivity.
Qed.

Lemma cart_errors (c : RawCart) :
  exists checks_qty checks_price,
    errors_of (validate_cart c) =
    errors_of (validate_items_field (raw_items c)) ++
    errors_of (field "totalQty" (raw_totalQty c) checks_qty) ++
    errors_of (field "totalPrice" (raw_totalPrice c) checks_price).
Proof.
  unfold validate_cart.
  match goal with
  | |- context [field "totalQty" _ ?cq] =>
      match goal with
      | |- context [field "totalPrice" _ ?cp] => exists cq, cp
      end
  end.
  destruct (validate_items_field (raw_items c)) as [e1 | its];
    [reflexivity|].
  destruct (field "totalQty" _ _) as [e2 | q]; [reflexivity|].
  destruct (field "totalPrice" _ _) as [e3 | p]; reflexivity.
Qed.

Lemma tidy_cart (c : RawCart) :
  List.NoDup (match raw_items c with Some l => map fst l | None => [] end) ->
  List.NoDup (locs (errors_of (validate_cart c))).
Proof.
  intros Hnd. destruct (cart_errors c) as (cq & cp & ->).
  apply (tidy_app ["items"] ["totalQty"; "totalPrice"]);
    [apply tidy_items_field, Hnd | | names_apart].
  apply (tidy_app ["totalQty"] ["totalPrice"]);
    [apply tidy_field | apply tidy_field | names_apart].
Qed.

Section EmailValidator.
Variable validate_email : string -> option string.

Lemma tidy_email (raw : option string) :
  tidy ["email"] (errors_of (email_field validate_email raw)).
Proof.
  unfold email_field. destruct raw as [v|]; [destruct (validate_email v)|]; simpl;
    first [apply tidy_nil | apply tidy_single; left; reflexivity].
Qed.

Lemma tidy_order (r : RawOrderRequest) :
  List.NoDup (item_names r) ->
  tidy ["order"] (errors_of (order_field (raw_order r))).
Proof.
  unfold item_names, order_field. intros Hnd.
  destruct (raw_order r) as [c|]; [|apply tidy_single; left; reflexivity].
  pose proof (tidy_cart c Hnd) as Hc.
  destruct (validate_cart c) as [es | ok]; simpl in *;
    [apply tidy_under, Hc | apply tidy_nil].
Qed.

(** The errors of a request are those of its six fields, in order. *)
Lemma order_request_errors (r : RawOrderRequest) :
  errors_of (validate_order_request validate_email r) =
  errors_of (field "phone" (raw_phone r) [validate_phone_format]) ++
  errors_of (email_field validate_email (raw_email r)) ++
  errors_of (field "verification" (raw_verification r)
               (@nil (string -> option err_kind))) ++
  errors_of (field "shipping" (raw_shipping r) (@nil (string -> option err_kind))) ++
  errors_of (order_field (raw_order r)) ++
  errors_of (field "cf_token" (raw_cf_token r) (@nil (string -> option err_kind))).
Proof.
  unfold validate_order_request.
  destruct (field "phone" _ _), (email_field _ _), (field "verification" _ _),
    (field "shipping" _ _), (order_field _), (field "cf_token" _ _); reflexivity.
Qed.

Lemma tidy_order_request (r : RawOrderRequest) :
  List.NoDup (item_names r) ->
  List.NoDup (locs (errors_of (validate_order_request validate_email r))).
Proof.
  intros Hnd. rewrite order_request_errors.
  apply (tidy_app ["phone"] ["email"; "verification"; "shipping"; "order"; "cf_token"]);
    [apply tidy_field | | names_apart].
  apply (tidy_app ["email"] ["verification"; "shipping"; "order"; "cf_token"]);
    [apply tidy_email | | names_apart].
  apply (tidy_app ["verification"] ["shipping"; "order"; "cf_token"]);
    [apply tidy_field | | names_apart].
  apply (tidy_app ["shipping"] ["order"; "cf_token"]);
    [apply tidy_field | | names_apart].
  apply (tidy_app ["order"] ["cf_token"]);
    [apply tidy_order, Hnd | apply tidy_field | names_apart].
Qed.

End EmailValidator.

(** ** What the models ask of a payload

    The declarations of the three models, read field by field and stated
    without [field] and [first_error]: which payload parses to which
    value, and which fault a payload has at which location. For a field
    with several constraints the cases are told apart by the value, in
    the order in which the constraints apply: [Field] bounds first, then
    the validators in the order of the class. *)

(** The line item [r] of a payload meets the constraints of [CartItem]
    and holds the values of [it]. *)
Definition item_parses (r : RawCartItem) (it : CartItem) : Prop :=
  raw_qty r = Some (qty it) /\ (0 < qty it)%Z /\
  raw_price r = Some (price it) /\ PrimFloat.leb zero (price it) = true /\
  raw_pricePerUnit r = Some (pricePerUnit it) /\
  PrimFloat.leb zero (pricePerUnit it) = true /\
  raw_imageUrl r = Some (imageUrl it).

Definition items_parse (l : list (string * RawCartItem))
    (its : list (string * CartItem)) : Prop :=
  Forall2 (fun x y => fst x = fst y /\ item_parses (snd x) (snd y)) l its.

(** The fault of the field [f] of a line item. *)
Inductive item_fault (r : RawCartItem) : string -> err_kind -> Prop :=
| qty_missing :
    raw_qty r = None -> item_fault r "qty" Missing
| qty_not_positive q :
    raw_qty r = Some q -> (q <= 0)%Z -> item_fault r "qty" (NotGt 0)
| price_missing :
    raw_price r = None -> item_fault r "price" Missing
| price_negative p :
    raw_price r = Some p -> PrimFloat.leb zero p = false ->
    item_fault r "price" (NotGe 0)
| unit_price_missing :
    raw_pricePerUnit r = None -> item_fault r "pricePerUnit" Missing
| unit_price_negative p :
    raw_pricePerUnit r = Some p -> PrimFloat.leb zero p = false ->
    item_fault r "pricePerUnit" (NotGe 0)
| image_missing :
    raw_imageUrl r = None -> item_fault r "imageUrl" Missing.

(** The fault of a cart at a location. A declared quantity has one
    fault at most: below 0 the bound, from 0 to 2 the minimum order,
    from 3 on the comparison with the sum, which takes place when the
    line items parse. Likewise for the declared price. *)
Inductive cart_fault (c : RawCart) : list string -> err_kind -> Prop :=
| items_missing :
    raw_items c = None -> cart_fault c ["items"] Missing
| item_faulty l name r f k :
    raw_items c = Some l -> In (name, r) l -> item_fault r f k ->
    cart_fault c ["items"; name; f] k
| total_qty_missing :
    raw_totalQty c = None -> cart_fault c ["totalQty"] Missing
| total_qty_negative q :
    raw_totalQty c = Some q -> (q < 0)%Z ->
    cart_fault c ["totalQty"] (NotGe 0)
| total_qty_below_minimum q :
    raw_totalQty c = Some q -> (0 <= q < 3)%Z ->
    cart_fault c ["totalQty"] (ValueError min_order_message)
| total_qty_mismatch q l its :
    raw_totalQty c = Some q -> (3 <= q)%Z ->
    raw_items c = Some l -> items_parse l its -> sum_qty its <> q ->
    cart_fault c ["totalQty"] (ValueError qty_mismatch_message)
| total_price_missing :
    raw_totalPrice c = None -> cart_fault c ["totalPrice"] Missing
| total_price_negative p :
    raw_totalPrice c = Some p -> PrimFloat.leb zero p = false ->
    cart_fault c ["totalPrice"] (NotGe 0)
| total_price_mismatch p l its :
    raw_totalPrice c = Some p -> PrimFloat.leb zero p = true ->
    raw_items c = Some l -> items_parse l its ->
    PrimFloat.ltb tolerance (PrimFloat.abs (PrimFloat.sub (sum_prices its) p)) = true ->
    cart_fault c ["totalPrice"] (ValueError price_mismatch_message).

(** The fault of a request at a location. *)
Inductive request_fault (validate_email : string -> option string)
    (r : RawOrderRequest) : list string -> err_kind -> Prop :=
| phone_missing :
    raw_phone r = None -> request_fault validate_email r ["phone"] Missing
| phone_refused p :
    raw_phone r = Some p -> Re.phone_match p = false ->
    request_fault validate_email r ["phone"] (ValueError phone_message)
| email_missing :
    raw_email r = None -> request_fault validate_email r ["email"] Missing
| email_refused e :
    raw_email r = Some e -> validate_email e = None ->
    request_fault validate_email r ["email"] EmailSyntax
| verification_missing :
    raw_verification r = None ->
    request_fault validate_email r ["verification"] Missing
| shipping_missing :
    raw_shipping r = None -> request_fault validate_email r ["shipping"] Missing
| order_missing :
    raw_order r = None -> request_fault validate_email r ["order"] Missing
| order_faulty c l k :
    raw_order r = Some c -> cart_fault c l k ->
    request_fault validate_email r ("order" :: l) k
| cf_token_missing :
    raw_cf_token r = None -> request_fault validate_email r ["cf_token"] Missing.

(** ** The validators report these faults, and no other *)

Lemma field_reports {A} name (raw : option A) checks l k :
  In (mk_error l k) (errors_of (field name raw checks)) <->
  l = [name] /\
  ((raw = None /\ k = Missing) \/
   (exists v, raw = Some v /\ first_error checks v = Some k)).
Proof.
  unfold field. destruct raw as [v|]; [destruct (first_error checks v) as [k0|] eqn:E|];
    simpl; split.
  - intros [[= <- <-] | []]. split; [reflexivity|]. right. eauto.
  - intros [-> [[H _] | (v' & [= <-] & H)]]; [discriminate H|].
    rewrite E in H. injection H as ->. left; reflexivity.
  - intros [].
  - intros [_ [[H _] | (v' & [= <-] & H)]]; [discriminate H|]. congruence.
  - intros [[= <- <-] | []]. auto.
  - intros [-> [[_ ->] | (v' & H & _)]]; [left; reflexivity | discriminate H].
Qed.

Lemma in_under name es l k :
  In (mk_error l k) (under name es) <->
  exists l0, l = name :: l0 /\ In (mk_error l0 k) es.
Proof.
  unfold under. rewrite in_map_iff. split.
  - intros ([l0 k0] & [= <- <-] & Hin). simpl. eauto.
  - intros (l0 & -> & Hin). exists (mk_error l0 k). auto.
Qed.

Lemma positive_check q k :
  first_error [int_gt 0] q = Some k <-> (q <= 0)%Z /\ k = NotGt 0.
Proof.
  simpl. unfold int_gt. destruct (0 <? q)%Z eqn:E.
  - apply Z.ltb_lt in E. split; [discriminate | lia].
  - apply Z.ltb_ge in E. split; [intros [= <-]; auto | intros [_ ->]; reflexivity].
Qed.

Lemma not_negative_check p k :
  first_error [float_ge0] p = Some k <->
  PrimFloat.leb zero p = false /\ k = NotGe 0.
Proof.
  simpl. unfold float_ge0. destruct (PrimFloat.leb zero p).
  - split; [discriminate | intros [H _]; discriminate H].
  - split; [intros [= <-]; auto | intros [_ ->]; reflexivity].
Qed.

Lemma item_reports (r : RawCartItem) l k :
  In (mk_error l k) (errors_of (validate_cart_item r)) <->
  exists f, l = [f] /\ item_fault r f k.
Proof.
  rewrite cart_item_errors, !in_app_iff, !field_reports. split.
  - intros [H | [H | [H | H]]];
      destruct H as [-> [[E ->] | (v & E & Hk)]];
      try apply positive_check in Hk as [Hv ->];
      try apply not_negative_check in Hk as [Hv ->];
      try discriminate Hk;
      (eexists; split; [reflexivity|]); econstructor; eassumption.
  - intros (f & -> & Hf). destruct Hf as [E | q E Hq | E | p E Hp | E | p E Hp | E].
    + left. split; [reflexivity | left; auto].
    + left. split; [reflexivity | right]. exists q. split; [exact E|].
      apply positive_check. auto.
    + right; left. split; [reflexivity | left; auto].
    + right; left. split; [reflexivity | right]. exists p. split; [exact E|].
      apply not_negative_check. auto.
    + right; right; left. split; [reflexivity | left; auto].
    + right; right; left. split; [reflexivity | right]. exists p. split; [exact E|].
      apply not_negative_check. auto.
    + right; right; right. split; [reflexivity | left; auto].
Qed.

Lemma items_errors_cons name r rest :
  fst (validate_items ((name, r) :: rest)) =
  under name (errors_of (validate_cart_item r)) ++ fst (validate_items rest).
Proof.
  simpl. destruct (validate_items rest), (validate_cart_item r); reflexivity.
Qed.

Lemma items_report (lst : list (string * RawCartItem)) l k :
  In (mk_error l k) (fst (validate_items lst)) <->
  exists name r f, In (name, r) lst /\ l = [name; f] /\ item_fault r f k.
Proof.
  induction lst as [|[name r] rest IH].
  - simpl. split; [intros [] | intros (? & ? & ? & [] & _)].
  - rewrite items_errors_cons, in_app_iff, in_under, IH. split.
    + intros [(l0 & -> & (f & -> & Hf)%item_reports) | (n & r' & f & Hin & -> & Hf)].
      * exists name, r, f. split; [left; reflexivity | auto].
      * exists n, r', f. split; [right; exact Hin | auto].
    + intros (n & r' & f & [[= <- <-] | Hin] & -> & Hf).
      * left. exists [f]. split; [reflexivity|]. apply item_reports. eauto.
      * right. eauto 6.
Qed.

Lemma item_parses_iff (r : RawCartItem) (it : CartItem) :
  validate_cart_item r = inr it <-> item_parses r it.
Proof.
  unfold item_parses. split.
  - unfold validate_cart_item, field.
    destruct (raw_qty r) as [q|]; [|discriminate]. simpl. unfold int_gt.
    destruct (0 <? q)%Z eqn:Eq; [|discriminate]. apply Z.ltb_lt in Eq.
    destruct (raw_price r) as [p|]; [|discriminate]. simpl. unfold float_ge0.
    destruct (PrimFloat.leb zero p) eqn:Ep; [|discriminate].
    destruct (raw_pricePerUnit r) as [u|]; [|discriminate]. simpl.
    destruct (PrimFloat.leb zero u) eqn:Eu; [|discriminate].
    destruct (raw_imageUrl r) as [i|]; [|discriminate]. simpl.
    intros [= <-]. simpl. repeat split; assumption.
  - intros (Hq & Hq0 & Hp & Hp0 & Hu & Hu0 & Hi).
    unfold validate_cart_item, field. rewrite Hq, Hp, Hu, Hi. simpl.
    unfold int_gt, float_ge0. rewrite Hp0, Hu0.
    apply Z.ltb_lt in Hq0. rewrite Hq0. destruct it; reflexivity.
Qed.

Lemma items_parse_iff (lst : list (string * RawCartItem)) :
  forall its, validate_items lst = ([], its) <-> items_parse lst its.
Proof.
  unfold items_parse. induction lst as [|[name r] rest IH]; intros its.
  - simpl. split.
    + intros [= <-]. constructor.
    + intros H. inversion H. reflexivity.
  - simpl. destruct (validate_items rest) as [es vs] eqn:El.
    destruct (validate_cart_item r) as [e | it] eqn:Ei.
    + split.
      * intros [= Hnil _]. apply app_eq_nil in Hnil as [Hu _].
        destruct e; [destruct (SchemaFacts.validate_cart_item_errors r Ei)
                    | discriminate Hu].
      * intros H. inversion H as [|? y ? its' [_ Hy] _]; subst.
        apply item_parses_iff in Hy. simpl in Hy. congruence.
    + split.
      * intros [= -> <-]. constructor.
        -- split; [reflexivity | apply item_parses_iff, Ei].
        -- apply IH. reflexivity.
      * intros H. inversion H as [|? [n it'] ? its' [Hn Hy] Hrest]; subst.
        simpl in Hn, Hy. subst n.
        apply item_parses_iff in Hy. rewrite Ei in Hy. injection Hy as <-.
        apply IH in Hrest. injection Hrest as -> ->. reflexivity.
Qed.

Lemma items_value (raw : option (list (string * RawCartItem))) its :
  value_of (validate_items_field raw) = Some its <->
  exists l, raw = Some l /\ items_parse l its.
Proof.
  unfold validate_items_field. destruct raw as [l|]; simpl.
  - destruct (validate_items l) as [[|e es] vs] eqn:El; simpl; split.
    + intros [= <-]. exists l. split; [reflexivity | apply items_parse_iff, El].
    + intros (l' & [= <-] & H%items_parse_iff). congruence.
    + discriminate.
    + intros (l' & [= <-] & H%items_parse_iff). congruence.
  - split; [discriminate | intros (l & H & _); discriminate H].
Qed.

Lemma items_field_reports (raw : option (list (string * RawCartItem))) l k :
  In (mk_error l k) (errors_of (validate_items_field raw)) <->
  (raw = None /\ l = ["items"] /\ k = Missing) \/
  (exists lst name r f,
     raw = Some lst /\ In (name, r) lst /\ l = ["items"; name; f] /\ item_fault r f k).
Proof.
  assert (Hsome : forall lst,
    errors_of (validate_items_field (Some lst)) = under "items" (fst (validate_items lst))).
  { intros lst. unfold validate_items_field.
    destruct (validate_items lst) as [[|e es] vs]; reflexivity. }
  destruct raw as [lst|].
  - rewrite Hsome, in_under. split.
    + intros (l0 & -> & (name & r & f & Hin & -> & Hf)%items_report).
      right. exists lst, name, r, f. auto.
    + intros [[H _] | (lst' & name & r & f & [= <-] & Hin & -> & Hf)];
        [discriminate H|].
      exists [name; f]. split; [reflexivity|]. apply items_report. eauto 6.
  - simpl. split.
    + intros [[= <- <-] | []]. left. auto.
    + intros [(_ & -> & ->) | (lst & ? & ? & ? & H & _)];
        [left; reflexivity | discriminate H].
Qed.

Lemma total_qty_check (vals : cart_values) q k :
  first_error [int_ge 0; validate_min_quantity; validate_total_qty vals] q = Some k <->
  ((q < 0)%Z /\ k = NotGe 0) \/
  ((0 <= q < 3)%Z /\ k = ValueError min_order_message) \/
  ((3 <= q)%Z /\ k = ValueError qty_mismatch_message /\
   exists its, val_items vals = Some its /\ sum_qty its <> q).
Proof.
  simpl. unfold int_ge, validate_min_quantity, validate_total_qty.
  destruct (0 <=? q)%Z eqn:E0; [apply Z.leb_le in E0 | apply Z.leb_gt in E0].
  - destruct (q <? 3)%Z eqn:E3; [apply Z.ltb_lt in E3 | apply Z.ltb_ge in E3].
    + split.
      * intros [= <-]. right; left. split; [lia | reflexivity].
      * intros [[H _] | [[_ ->] | [H _]]]; [lia | reflexivity | lia].
    + destruct (val_items vals) as [its|].
      * destruct (sum_qty its =? q)%Z eqn:Es;
          [apply Z.eqb_eq in Es | apply Z.eqb_neq in Es]; split.
        -- discriminate.
        -- intros [[H _] | [[H _] | (_ & _ & its' & [= <-] & Hne)]];
             [lia | lia | contradiction].
        -- intros [= <-]. right; right. split; [exact E3|].
           split; [reflexivity|]. eauto.
        -- intros [[H _] | [[H _] | (_ & -> & _)]]; [lia | lia | reflexivity].
      * split; [discriminate|].
        intros [[H _] | [[H _] | (_ & _ & its' & H & _)]];
          [lia | lia | discriminate H].
  - split.
    + intros [= <-]. left. split; [exact E0 | reflexivity].
    + intros [[_ ->] | [[H _] | [H _]]]; [reflexivity | lia | lia].
Qed.

Lemma total_price_check (vals : cart_values) p k :
  first_error [float_ge0; validate_total_price vals] p = Some k <->
  (PrimFloat.leb zero p = false /\ k = NotGe 0) \/
  (PrimFloat.leb zero p = true /\ k = ValueError price_mismatch_message /\
   exists its, val_items vals = Some its /\
     PrimFloat.ltb tolerance (PrimFloat.abs (PrimFloat.sub (sum_prices its) p)) = true).
Proof.
  simpl. unfold float_ge0, validate_total_price.
  destruct (PrimFloat.leb zero p).
  - destruct (val_items vals) as [its|].
    + destruct (PrimFloat.ltb tolerance _) eqn:Et; split.
      * intros [= <-]. right. split; [reflexivity|]. split; [reflexivity|]. eauto.
      * intros [[H _] | (_ & -> & _)]; [discriminate H | reflexivity].
      * discriminate.
      * intros [[H _] | (_ & _ & its' & [= <-] & H)]; [discriminate H | congruence].
    + split; [discriminate|].
      intros [[H _] | (_ & _ & its' & H & _)]; discriminate H.
  - split.
    + intros [= <-]. left. auto.
    + intros [[_ ->] | [H _]]; [reflexivity | discriminate H].
Qed.

(** The errors of a cart are its faults. *)
Lemma cart_reports (c : RawCart) l k :
  In (mk_error l k) (errors_of (validate_cart c)) <-> cart_fault c l k.
Proof.
  rewrite <- SchemaFacts.validate_cart_errors, !in_app_iff,
    items_field_reports, !field_reports. split.
  - intros [H | [H | H]].
    + destruct H as [(E & -> & ->) | (lst & name & r & f & E & Hin & -> & Hf)].
      * apply items_missing, E.
      * eapply item_faulty; eassumption.
    + destruct H as [-> [[E ->] | (q & E & Hk)]]; [apply total_qty_missing, E|].
      apply total_qty_check in Hk
        as [[Hq ->] | [[Hq ->] | (Hq & -> & its & Hv & Hne)]].
      * eapply total_qty_negative; eassumption.
      * eapply total_qty_below_minimum; eassumption.
      * simpl in Hv. apply items_value in Hv as (lst & El & Hp).
        eapply total_qty_mismatch; eassumption.
    + destruct H as [-> [[E ->] | (p & E & Hk)]]; [apply total_price_missing, E|].
      apply total_price_check in Hk as [[Hp ->] | (Hp & -> & its & Hv & Hgap)].
      * eapply total_price_negative; eassumption.
      * simpl in Hv. apply items_value in Hv as (lst & El & Hip).
        eapply total_price_mismatch; eassumption.
  - intros H.
    destruct H as [E | lst name r f k E Hin Hf | E | q E Hq | q E Hq
                  | q lst its E Hq El Hp Hne | E | p E Hp | p lst its E Hp El Hip Hgap].
    + left. left. auto.
    + left. right. exists lst, name, r, f. auto.
    + right; left. split; [reflexivity | left; auto].
    + right; left. split; [reflexivity | right]. exists q. split; [exact E|].
      apply total_qty_check. left. auto.
    + right; left. split; [reflexivity | right]. exists q. split; [exact E|].
      apply total_qty_check. right; left. auto.
    + right; left. split; [reflexivity | right]. exists q. split; [exact E|].
      apply total_qty_check. right; right. split; [exact Hq|].
      split; [reflexivity|]. exists its. split; [|exact Hne].
      simpl. apply items_value. eauto.
    + right; right. split; [reflexivity | left; auto].
    + right; right. split; [reflexivity | right]. exists p. split; [exact E|].
      apply total_price_check. left. auto.
    + right; right. split; [reflexivity | right]. exists p. split; [exact E|].
      apply total_price_check. right. split; [exact Hp|].
      split; [reflexivity|]. exists its. split; [|exact Hgap].
      simpl. apply items_value. eauto.
Qed.

Lemma two_in_list {A} (x y : A) (l : list A) :
  In x l -> In y l -> x <> y -> (2 <= length l)%nat.
Proof.
  destruct l as [|a [|b l]]; simpl; intros Hx Hy Hne; [destruct Hx | | lia].
  destruct Hx as [<- | []], Hy as [<- | []]. congruence.
Qed.

Section Reports.
Variable validate_email : string -> option string.

Lemma email_reports (raw : option string) l k :
  In (mk_error l k) (errors_of (email_field validate_email raw)) <->
  l = ["email"] /\
  ((raw = None /\ k = Missing) \/
   (exists e, raw = Some e /\ validate_email e = None /\ k = EmailSyntax)).
Proof.
  unfold email_field. destruct raw as [e|]; [destruct (validate_email e) eqn:E|];
    simpl; split.
  - intros [].
  - intros [_ [[H _] | (e' & [= <-] & H & _)]]; [discriminate H | congruence].
  - intros [[= <- <-] | []]. split; [reflexivity|]. right. eauto.
  - intros [-> [[H _] | (e' & _ & _ & ->)]]; [discriminate H | left; reflexivity].
  - intros [[= <- <-] | []]. auto.
  - intros [-> [[_ ->] | (e' & H & _)]]; [left; reflexivity | discriminate H].
Qed.

Lemma order_reports (raw : option RawCart) l k :
  In (mk_error l k) (errors_of (order_field raw)) <->
  (raw = None /\ l = ["order"] /\ k = Missing) \/
  (exists c l0, raw = Some c /\ l = "order" :: l0 /\ cart_fault c l0 k).
Proof.
  assert (Hsome : forall c,
    errors_of (order_field (Some c)) = under "order" (errors_of (validate_cart c))).
  { intros c. unfold order_field. destruct (validate_cart c); reflexivity. }
  destruct raw as [c|].
  - rewrite Hsome, in_under. split.
    + intros (l0 & -> & Hf%cart_reports). right. eauto.
    + intros [[H _] | (c' & l0 & [= <-] & -> & Hf)]; [discriminate H|].
      exists l0. split; [reflexivity | apply cart_reports, Hf].
  - simpl. split.
    + intros [[= <- <-] | []]. left. auto.
    + intros [(_ & -> & ->) | (c & ? & H & _)];
        [left; reflexivity | discriminate H].
Qed.

Lemma phone_check p k :
  first_error [validate_phone_format] p = Some k <->
  Re.phone_match p = false /\ k = ValueError phone_message.
Proof.
  simpl. unfold validate_phone_format. destruct (Re.phone_match p); simpl.
  - split; [discriminate | intros [H _]; discriminate H].
  - split; [intros [= <-]; auto | intros [_ ->]; reflexivity].
Qed.

(** The errors of a request are its faults. *)
Lemma request_reports (r : RawOrderRequest) l k :
  In (mk_error l k) (errors_of (validate_order_request validate_email r)) <->
  request_fault validate_email r l k.
Proof.
  rewrite order_request_errors, !in_app_iff, !field_reports, email_reports,
    order_reports. split.
  - intros [H | [H | [H | [H | [H | H]]]]].
    + destruct H as [-> [[E ->] | (p & E & [Hp ->]%phone_check)]].
      * apply phone_missing, E.
      * eapply phone_refused; eassumption.
    + destruct H as [-> [[E ->] | (e & E & He & ->)]].
      * apply email_missing, E.
      * eapply email_refused; eassumption.
    + destruct H as [-> [[E ->] | (v & _ & Hk)]]; [|discriminate Hk].
      apply verification_missing, E.
    + destruct H as [-> [[E ->] | (v & _ & Hk)]]; [|discriminate Hk].
      apply shipping_missing, E.
    + destruct H as [(E & -> & ->) | (c & l0 & E & -> & Hf)].
      * apply order_missing, E.
      * eapply order_faulty; eassumption.
    + destruct H as [-> [[E ->] | (v & _ & Hk)]]; [|discriminate Hk].
      apply cf_token_missing, E.
  - intros H. destruct H as [E | p E Hp | E | e E He | E | E | E | c l0 k E Hf | E].
    + left. split; [reflexivity | left; auto].
    + left. split; [reflexivity | right]. exists p. split; [exact E|].
      apply phone_check. auto.
    + right; left. split; [reflexivity | left; auto].
    + right; left. split; [reflexivity | right]. eauto.
    + right; right; left. split; [reflexivity | left; auto].
    + right; right; right; left. split; [reflexivity | left; auto].
    + right; right; right; right; left. left. auto.
    + right; right; right; right; left. right. eauto.
    + right; right; right; right; right. split; [reflexivity | left; auto].
Qed.

End Reports.

Lemma same_location {A B} (f : A -> B) (l : list A) (x y : A) :
  List.NoDup (map f l) -> In x l -> In y l -> f x = f y -> x = y.
Proof.
  induction l as [|a l IH]; simpl; intros Hnd Hx Hy E; [destruct Hx|].
  apply List.NoDup_cons_iff in Hnd as [Hfresh Hnd].
  destruct Hx as [<- | Hx], Hy as [<- | Hy].
  - reflexivity.
  - destruct Hfresh. rewrite E. apply in_map, Hy.
  - destruct Hfresh. rewrite <- E. apply in_map, Hx.
  - apply IH; assumption.
Qed.

(** C8, as stated, does not hold: a payload that violates constraints
    of two fields fails with two errors, one for each. *)
Lemma two_faults_two_errors :
  validate_order_request lenient_email two_faults =
  inl [ mk_error ["phone"] (ValueError phone_message);
        mk_error ["order"; "totalQty"] (ValueError min_order_message) ].
Proof. vm_compute. reflexivity. Qed.

(** C8, amended: schema validation stops at the first violated
    constraint within a field and goes on with the other fields. The
    errors of a failure are exactly the faults of the payload, where a
    field that is missing or violates its constraints has the fault of
    the first constraint it violates ([request_fault]); item names being
    the keys of a dict, hence distinct, no two errors have the same
    location and a location has one kind of fault; and a payload with
    faults at two locations fails with two errors at least. *)
Theorem schema_errors_per_field (validate_email : string -> option string)
    (r : RawOrderRequest) :
  List.NoDup (item_names r) ->
  let errs := errors_of (validate_order_request validate_email r) in
  (forall l k, In (mk_error l k) errs <-> request_fault validate_email r l k) /\
  List.NoDup (map loc errs) /\
  (forall l k1 k2,
     request_fault validate_email r l k1 -> request_fault validate_email r l k2 ->
     k1 = k2) /\
  (forall l1 k1 l2 k2,
     request_fault validate_email r l1 k1 -> request_fault validate_email r l2 k2 ->
     l1 <> l2 -> (2 <= length errs)%nat).
Proof.
  intros Hnd errs.
  pose proof (tidy_order_request validate_email r Hnd) as Hlocs.
  fold errs in Hlocs. unfold locs in Hlocs.
  split; [intros l k; apply request_reports|].
  split; [exact Hlocs|]. split.
  - intros l k1 k2 H1%request_reports H2%request_reports.
    assert (E : mk_error l k1 = mk_error l k2)
      by (apply (same_location loc errs); auto).
    congruence.
  - intros l1 k1 l2 k2 H1%request_reports H2%request_reports Hne.
    apply (two_in_list (mk_error l1 k1) (mk_error l2 k2)); [exact H1 | exact H2|].
    congruence.
Qed.

Lemma schema_errors_per_field_witness :
  List.NoDup (item_names two_faults) /\
  let errs := errors_of (validate_order_request lenient_email two_faults) in
  (forall l k, In (mk_error l k) errs <-> request_fault lenient_email two_faults l k) /\
  List.NoDup (map loc errs) /\
  (forall l k1 k2,
     request_fault lenient_email two_faults l k1 ->
     request_fault lenient_email two_faults l k2 -> k1 = k2) /\
  (forall l1 k1 l2 k2,
     request_fault lenient_email two_faults l1 k1 ->
     request_fault lenient_email two_faults l2 k2 ->
     l1 <> l2 -> (2 <= length errs)%nat).
Proof.
  assert (Hnd : List.NoDup (item_names two_faults))
    by (constructor; [intros [] | constructor]).
  split; [exact Hnd|].
  exact (schema_errors_per_field lenient_email two_faults Hnd).
Defined.

(** Within the declared quantity the minimum order comes before the
    comparison with the sum: with 2 pieces declared for a line item of 3,
    the one error is that of the minimum order. *)
Definition short_and_wrong : RawCart :=
  {| raw_items := Some
       [ ("apple", {| raw_qty := Some 3%Z; raw_price := Some 15%float;
                      raw_pricePerUnit := Some 5%float;
                      raw_imageUrl := Some "a.png" |}) ];
     raw_totalQty := Some 2%Z;
     raw_totalPrice := Some 15%float |}.

Example first_constraint_wins :
  validate_cart short_and_wrong =
  inl [mk_error ["totalQty"] (ValueError min_order_message)].
Proof. reflexivity. Qed.

End SchemaErrors.

(* ===================================================================== *)
(** * The request handler                                                 *)
(* ===================================================================== *)

Module Handler.
Import PyStr Schema.

(** ** Exceptions, calls to the outside, and the monad that carries them *)

Inductive exn :=
| HTTPException (status_code : Z) (detail : string)
| NoAnswer                      (* dns.resolver.NoAnswer *)
| NXDOMAIN                      (* dns.resolver.NXDOMAIN *)
| OtherError (what : string).   (* any other subclass of Exception *)

Record email_message := {
  Source : string;
  ToAddresses : list string;
  Subject : string;
  Html : string
}.

Inductive rdtype := MX | NS.

(** What leaves the process, in order. *)
Inductive event :=
| Siteverify (token : string)                     (* POST to Cloudflare *)
| Resolve (qname : string) (rd : rdtype)          (* dns.resolver.resolve *)
| SendEmail (m : email_message) (accepted : bool). (* ses_client.send_email *)

Inductive result (A : Type) :=
| Ok (a : A)
| Raise (e : exn).
Arguments Ok {A} a.
Arguments Raise {A} e.

(** A computation returns or raises, and leaves a trace of calls. *)
Definition M (A : Type) : Type := result A * list event.

Definition ret {A} (a : A) : M A := (Ok a, []).
Definition raise {A} (e : exn) : M A := (Raise e, []).
Definition emit (ev : event) : M unit := (Ok tt, [ev]).

Definition bind {A B} (m : M A) (k : A -> M B) : M B :=
  match m with
  | (Ok a, t) => let '(r, t') := k a in (r, t ++ t')
  | (Raise e, t) => (Raise e, t)
  end.

(** [try: m except ...: handler]; the handler answers [None] for an
    exception that no clause catches or that a clause re-raises. *)
Definition try_except {A} (m : M A) (handler : exn -> option (M A)) : M A :=
  match m with
  | (Raise e, t) =>
      match handler e with
      | Some h => let '(r, t') := h in (r, t ++ t')
      | None => (Raise e, t)
      end
  | ok => ok
  end.

Notation "'let!' x ':=' m 'in' k" := (bind m (fun x => k))
  (at level 10, x name, m at level 100, k at level 200, only parsing).

(** ** The surroundings of one request *)

Inductive weekday :=
| Monday | Tuesday | Wednesday | Thursday | Friday | Saturday | Sunday.

(** [now.strftime('%A')] *)
Definition day_name (d : weekday) : string :=
  match d with
  | Monday => "Monday" | Tuesday => "Tuesday" | Wednesday => "Wednesday"
  | Thursday => "Thursday" | Friday => "Friday" | Saturday => "Saturday"
  | Sunday => "Sunday"
  end.

(** [datetime.now(eastern)], as far as the handler reads it. *)
Record datetime := { day : weekday; hour : Z }.

(** A JSON scalar, for the [success] member of Cloudflare's reply. *)
Inductive py_value :=
| PyNone
| PyBool (b : bool)
| PyInt (z : Z)
| PyStr (s : string).

Definition py_truthy (v : py_value) : bool :=
  match v with
  | PyNone => false
  | PyBool b => b
  | PyInt z => negb (z =? 0)%Z
  | PyStr s => truthy s
  end.

Inductive siteverify_reply :=
| SvRaises (what : string)                (* the POST or [response.json()] raises *)
| SvJson (success : option py_value).     (* a JSON object and its [success] member *)

Inductive dns_reply :=
| Answer (records : list string)
| RaisesNoAnswer
| RaisesNXDOMAIN
| RaisesOther (what : string).

Record Env := {
  now : datetime;
  urandom16 : N;                               (* [os.urandom(16)], big-endian *)
  siteverify : string -> siteverify_reply;
  blocklist : gset string;                     (* [disposable_email_domains.blocklist] *)
  dns : string -> rdtype -> dns_reply;
  ses : email_message -> bool;                 (* [false]: [send_email] raises *)
  BUSINESS_EMAIL : string;
  NO_REPLY_EMAIL : string;
  (* the three template functions; the text they produce is not modelled *)
  create_product_html : string -> float -> string -> Z -> string;
  create_order_html :
    list string -> Z -> float -> string -> Unicode.ustr -> string -> string -> string;
  create_customer_confirmation_html : list string -> Z -> float -> string -> string
}.

(** The adapter puts a client pair into the scope of every event, so
    [request.client] is an address. *)
Record Address := { host : string; port : Z }.
Record Request := { client : Address }.

(** ** Business hours *)

Definition hours_message : string := "Our business hours are Mon-Sat 8am-8pm.".

Definition validate_business_hours (now : datetime) : bool * string :=
  let current_day := day_name (day now) in
  let current_hour := hour now in
  if String.eqb current_day "Sunday" then (false, hours_message)
  else if (current_hour <? 8)%Z || (current_hour >=? 20)%Z then (false, hours_message)
  else (true, "").

(** ** Order identifier *)

(** [uuid.uuid4().int]: sixteen random bytes with the variant and version
    bits overwritten. *)
Definition uuid4 (random : N) : N :=
  let i := (random mod 2 ^ 128)%N in
  let i := N.ldiff i (N.shiftl 0xc000 48) in
  let i := N.lor i (N.shiftl 0x8000 48) in
  let i := N.ldiff i (N.shiftl 0xf000 64) in
  N.lor i (N.shiftl 4 76).

Definition hex_digit (d : N) : ascii :=
  if (d <? 10)%N then ascii_of_N (48 + d) else ascii_of_N (87 + d).

(** ['%0wx' % n] for [n < 16 ^ w]. *)
Fixpoint hex_fixed (w : nat) (n : N) : string :=
  match w with
  | O => ""
  | S w' => hex_fixed w' (n / 16) +:+ String (hex_digit (n mod 16)) ""
  end.

(** [str(u)] for a UUID: 8-4-4-4-12 hexadecimal digits. *)
Definition uuid_str (i : N) : string :=
  let hex := hex_fixed 32 i in
  slice 0 8 hex +:+ "-" +:+ slice 8 12 hex +:+ "-" +:+ slice 12 16 hex
    +:+ "-" +:+ slice 16 20 hex +:+ "-" +:+ drop 20 hex.

(** [str(uuid.uuid4())[:8].upper()] *)
Definition new_order_id (random : N) : string :=
  upper (take 8 (uuid_str (uuid4 random))).



(** ** Human verification *)

Definition verify_turnstile_token (env : Env) (token : string) : M py_value :=
  let! _ := emit (Siteverify token) in
  match siteverify env token with
  | SvRaises what => raise (OtherError what)
  | SvJson success =>
      (* result.get("success", False) *)
      ret (match success with Some v => v | None => PyBool false end)
  end.

(** ** Email domain *)

Definition resolve (env : Env) (qname : string) (rd : rdtype) : M (list string) :=
  let! _ := emit (Resolve qname rd) in
  match dns env qname rd with
  | Answer records => ret records
  | RaisesNoAnswer => raise NoAnswer
  | RaisesNXDOMAIN => raise NXDOMAIN
  | RaisesOther what => raise (OtherError what)
  end.

Definition list_truthy {A} (l : list A) : bool :=
  match l with [] => false | _ => true end.

Definition is_domain_real (env : Env) (email : string) : M bool :=
  try_except
    (let domain := last_item (split "@" email) in
     if bool_decide (domain ∈ blocklist env) then ret false
     else
       let! mx_records := resolve env domain MX in
       if negb (list_truthy mx_records) then ret false
       else
         let! ns_records := resolve env domain NS in
         if negb (list_truthy ns_records) then ret false
         else ret true)
    (fun e =>
       (* except (dns.resolver.NoAnswer, dns.resolver.NXDOMAIN, Exception) *)
       match e with
       | NoAnswer | NXDOMAIN | HTTPException _ _ | OtherError _ => Some (ret false)
       end).

(** ** Notification *)

Definition send_email (env : Env) (m : email_message) : M unit :=
  let! _ := emit (SendEmail m (ses env m)) in
  if ses env m then ret tt else raise (OtherError "ClientError").

Definition owner_message (env : Env) (order_data : OrderRequest)
    (order_id : string) (owner_email_html : string) : email_message :=
  {| Source := NO_REPLY_EMAIL env;
     ToAddresses := [BUSINESS_EMAIL env];
     Subject := "New Order Received - " +:+ order_id;
     Html := owner_email_html |}.

Definition customer_message (env : Env) (order_data : OrderRequest)
    (order_id : string) (customer_email_html : string) : email_message :=
  {| Source := NO_REPLY_EMAIL env;
     ToAddresses := [lower (email order_data)];
     Subject := "Order Confirmation - " +:+ order_id;
     Html := customer_email_html |}.

Definition send_order_emails (env : Env) (order_data : OrderRequest)
    (order_id : string) : M bool :=
  try_except
    (let product_html_list :=
       map (fun '(item_name, item_data) =>
              create_product_html env item_name (price item_data)
                (imageUrl item_data) (qty item_data))
           (items (order order_data)) in
     let owner_email_html :=
       create_order_html env product_html_list
         (totalQty (order order_data)) (totalPrice (order order_data))
         (email order_data) (phone order_data) (shipping order_data) order_id in
     let customer_email_html :=
       create_customer_confirmation_html env product_html_list
         (totalQty (order order_data)) (totalPrice (order order_data)) order_id in
     let! _ := send_email env (owner_message env order_data order_id owner_email_html) in
     let! _ := send_email env
                 (customer_message env order_data order_id customer_email_html) in
     ret true)
    (fun e => (* except Exception *) Some (ret false)).

(** ** The endpoint *)

Record JSONResponse := {
  status_code : Z;
  success : bool;
  orderId : string;
  message : string
}.

Definition order_placed (order_id : string) : JSONResponse :=
  {| status_code := 200; success := true; orderId := order_id;
     message := "Order placed successfully" |}.

Definition security_message : string := "Security check failed".
Definition domain_message : string := "Please provide a valid email address.".
Definition dispatch_message : string :=
  "Failed to send order confirmation. Please try again.".
Definition network_message : string := "Network error. Please try again.".

Definition process_order (env : Env) (order_request : OrderRequest)
    (request : Request) : M JSONResponse :=
  try_except
    (let client_ip := host (client request) in
     let '(is_valid_hours, hours_error) := validate_business_hours (now env) in
     if negb is_valid_hours then raise (HTTPException 400 hours_error)
     else
       let order_id := new_order_id (urandom16 env) in
       if truthy (verification order_request) then ret (order_placed order_id)
       else
         let! is_human := verify_turnstile_token env (cf_token order_request) in
         if negb (py_truthy is_human) then raise (HTTPException 400 security_message)
         else
           let! real := is_domain_real env (lower (email order_request)) in
           if negb real then raise (HTTPException 400 domain_message)
           else
             let! email_sent := send_order_emails env order_request order_id in
             if negb email_sent then raise (HTTPException 500 dispatch_message)
             else ret (order_placed order_id))
    (fun e =>
       match e with
       | HTTPException _ _ => None                      (* except HTTPException: raise *)
       | _ => Some (raise (HTTPException 500 network_message))  (* except Exception *)
       end).

End Handler.

(* ===================================================================== *)
(** * Sample surroundings and requests                                    *)
(* ===================================================================== *)

Module Samples.
Import PyStr Schema Handler.

Definition shop_cart : Cart :=
  {| items :=
       [ ("apple", {| qty := 1; price := 10%float; pricePerUnit := 10%float;
                      imageUrl := "a.png" |});
         ("pear", {| qty := 1; price := 5%float; pricePerUnit := 5%float;
                     imageUrl := "p.png" |});
         ("plum", {| qty := 1; price := 5%float; pricePerUnit := 5%float;
                     imageUrl := "l.png" |}) ];
     totalQty := 3;
     totalPrice := 20%float |}.

Definition request_with (honeypot mail token : string) : OrderRequest :=
  {| phone := Unicode.text "555-123-4567"; email := mail; verification := honeypot;
     shipping := "1 Main St"; order := shop_cart; cf_token := token |}.

Definition genuine : OrderRequest := request_with "" "Ann@Example.com" "good".

Definition from_gateway : Request := {| client := {| host := "203.0.113.7"; port := 0 |} |}.

(** Cloudflare accepts the token [good], is unreachable for [down], and
    refuses everything else; [example.com] has MX and NS records,
    [nomail.example] only NS records, nothing else exists; the mail
    service accepts a message when [accepts] says so. *)
Definition world (d : weekday) (h : Z) (accepts : email_message -> bool) : Env :=
  {| now := {| day := d; hour := h |};
     urandom16 := 0x1a2b3c4d5e6f708192a3b4c5d6e7f809;
     siteverify := fun token =>
       if String.eqb token "good" then SvJson (Some (PyBool true))
       else if String.eqb token "down" then SvRaises "ConnectError"
       else SvJson (Some (PyBool false));
     blocklist := {[ "mailinator.com" ]};
     dns := fun qname rd =>
       if String.eqb qname "example.com" then Answer ["10 mx.example.com."]
       else if String.eqb qname "nomail.example" then
         match rd with MX => RaisesNoAnswer | NS => Answer ["ns.nomail.example."] end
       else RaisesNXDOMAIN;
     ses := accepts;
     BUSINESS_EMAIL := "owner@shop.example";
     NO_REPLY_EMAIL := "no-reply@shop.example";
     create_product_html := fun name _ _ _ => name;
     create_order_html := fun products _ _ mail _ _ order_id =>
       order_id +:+ " " +:+ mail +:+ " " +:+ String.concat "," products;
     create_customer_confirmation_html := fun products _ _ order_id =>
       order_id +:+ " " +:+ String.concat "," products |}.

Definition always : email_message -> bool := fun _ => true.

(** The mail service refuses every recipient but the shop itself, as it
    does in its sandbox for addresses that were not verified. *)
Definition only_to_owner : email_message -> bool :=
  fun m => match ToAddresses m with
           | [a] => String.eqb a "owner@shop.example"
           | _ => false
           end.

End Samples.

Example order_id_sample :
  Handler.new_order_id 0x1a2b3c4d5e6f708192a3b4c5d6e7f809 = "1A2B3C4D".
Proof. vm_compute. reflexivity. Qed.

Example uuid_sample :
  Handler.uuid_str (Handler.uuid4 0x1a2b3c4d5e6f708192a3b4c5d6e7f809)
  = "1a2b3c4d-5e6f-4081-92a3-b4c5d6e7f809".
Proof. vm_compute. reflexivity. Qed.

Example genuine_order_accepted :
  Handler.process_order (Samples.world Handler.Tuesday 10 Samples.always)
    Samples.genuine Samples.from_gateway
  = (Handler.Ok (Handler.order_placed "1A2B3C4D"),
     [ Handler.Siteverify "good";
       Handler.Resolve "example.com" Handler.MX;
       Handler.Resolve "example.com" Handler.NS;
       Handler.SendEmail
         {| Handler.Source := "no-reply@shop.example";
            Handler.ToAddresses := ["owner@shop.example"];
            Handler.Subject := "New Order Received - 1A2B3C4D";
            Handler.Html := "1A2B3C4D Ann@Example.com apple,pear,plum" |} true;
       Handler.SendEmail
         {| Handler.Source := "no-reply@shop.example";
            Handler.ToAddresses := ["ann@example.com"];
            Handler.Subject := "Order Confirmation - 1A2B3C4D";
            Handler.Html := "1A2B3C4D apple,pear,plum" |} true ]).
Proof. vm_compute. reflexivity. Qed.

Example late_order_refused :
  Handler.process_order (Samples.world Handler.Tuesday 21 Samples.always)
    Samples.genuine Samples.from_gateway
  = (Handler.Raise (Handler.HTTPException 400 Handler.hours_message), []).
Proof. vm_compute. reflexivity. Qed.

(* ===================================================================== *)
(** * Properties of the handler                                           *)
(* ===================================================================== *)

Module HandlerFacts.
Import PyStr Schema Handler.

Arguments new_order_id : simpl never.

(** Monday to Saturday, from 08:00 inclusive to 20:00 exclusive. *)
Definition open_at (t : datetime) : Prop :=
  day t <> Sunday /\ (8 <= hour t < 20)%Z.

(** Sunday at any hour, or an hour below 8 or at or after 20. *)
Definition closed_at (t : datetime) : Prop :=
  day t = Sunday \/ (hour t < 8)%Z \/ (20 <= hour t)%Z.


(** The records of a reply, as [if not records] sees them. *)
Definition resolves (r : dns_reply) : bool :=
  match r with
  | Answer records => list_truthy records
  | _ => false
  end.

(** [email.split('@')[-1]] *)
Definition domain_of (email : string) : string := last_item (split "@" email).

Definition is_send (ev : event) : bool :=
  match ev with SendEmail _ _ => true | _ => false end.

(** The messages the mail service accepted, in order. *)
Definition delivered (t : list event) : list email_message :=
  flat_map (fun ev => match ev with SendEmail m true => [m] | _ => [] end) t.

(** Two characters that are equal or the two cases of one letter. *)
Definition same_letter (a b : ascii) : bool :=
  Ascii.eqb a b
  || (char_in_range "A" "Z" a && Ascii.eqb (char_lower a) b)
  || (char_in_range "A" "Z" b && Ascii.eqb a (char_lower b)).

(** Two strings that differ only in letter case. *)
Fixpoint differ_only_in_case (s t : string) : bool :=
  match s, t with
  | EmptyString, EmptyString => true
  | String a s', String b t' => same_letter a b && differ_only_in_case s' t'
  | _, _ => false
  end.

Definition with_email (r : OrderRequest) (e : string) : OrderRequest :=
  {| phone := phone r; email := e; verification := verification r;
     shipping := shipping r; order := order r; cf_token := cf_token r |}.

(** ** Business hours *)

Lemma hours_open (t : datetime) :
  open_at t -> validate_business_hours t = (true, "").
Proof.
  intros [Hd Hh]. unfold validate_business_hours.
  destruct (day t); simpl; try (exfalso; apply Hd; reflexivity);
    (destruct (hour t <? 8)%Z eqn:E1; [lia|]);
    (destruct (hour t >=? 20)%Z eqn:E2; [lia|]); reflexivity.
Qed.

Lemma hours_closed (t : datetime) :
  closed_at t -> validate_business_hours t = (false, hours_message).
Proof.
  intros H. unfold validate_business_hours.
  destruct (String.eqb (day_name (day t)) "Sunday") eqn:Ed; [reflexivity|].
  destruct H as [H | H].
  - rewrite H in Ed. discriminate Ed.
  - destruct (hour t <? 8)%Z eqn:E1; [reflexivity|].
    destruct (hour t >=? 20)%Z eqn:E2; [reflexivity|]. lia.
Qed.

Lemma open_or_closed (t : datetime) : open_at t \/ closed_at t.
Proof.
  unfold open_at, closed_at.
  destruct (day t); try (right; left; reflexivity);
    destruct (Z_lt_dec (hour t) 8); destruct (Z_le_dec 20 (hour t));
    try (right; right; lia); left; split; try discriminate; lia.
Qed.

(** ** Order identifier *)

Lemma length_hex_fixed (w : nat) : forall n, String.length (hex_fixed w n) = w.
Proof.
  induction w as [|w IH]; intros n; simpl; [reflexivity|].
  rewrite length_app, IH. simpl. lia.
Qed.







(** ** The stages of [process_order] *)

Lemma process_order_closed env req rq :
  closed_at (now env) ->
  process_order env req rq = (Raise (HTTPException 400 hours_message), []).
Proof.
  intros H. unfold process_order. rewrite (hours_closed _ H). reflexivity.
Qed.

Lemma is_domain_real_verdict env email :
  exists t,
    is_domain_real env email =
    (Ok (negb (bool_decide (domain_of email ∈ blocklist env))
         && resolves (dns env (domain_of email) MX)
         && resolves (dns env (domain_of email) NS)), t).
Proof.
  unfold is_domain_real, domain_of, resolve.
  destruct (bool_decide _); simpl; [eexists; reflexivity|].
  destruct (dns env _ MX) as [[|r rs]| | |]; simpl; try (eexists; reflexivity).
  destruct (dns env _ NS) as [[|r' rs']| | |]; simpl; eexists; reflexivity.
Qed.

(** What [send_order_emails] does, by the answers of the mail service to
    the two messages. *)
Lemma send_order_emails_cases env req order_id :
  exists owner customer,
    ToAddresses owner = [BUSINESS_EMAIL env] /\
    ToAddresses customer = [lower (email req)] /\
    send_order_emails env req order_id =
    if ses env owner then
      if ses env customer
      then (Ok true, [SendEmail owner true; SendEmail customer true])
      else (Ok false, [SendEmail owner true; SendEmail customer false])
    else (Ok false, [SendEmail owner false]).
Proof.
  unfold send_order_emails.
  match goal with
  | |- context [send_email env (owner_message env req order_id ?h)] =>
      exists (owner_message env req order_id h)
  end.
  match goal with
  | |- context [send_email env (customer_message env req order_id ?h)] =>
      exists (customer_message env req order_id h)
  end.
  split; [reflexivity|]. split; [reflexivity|].
  unfold send_email, bind, emit, try_except, ret, raise.
  destruct (ses env (owner_message _ _ _ _)); [|reflexivity].
  destruct (ses env (customer_message _ _ _ _)); reflexivity.
Qed.

Arguments is_domain_real : simpl never.
Arguments send_order_emails : simpl never.

(** The value [result.get("success", False)]. *)
Definition success_of (success : option py_value) : py_value :=
  match success with Some v => v | None => PyBool false end.

(** Cloudflare answers, and the answer counts as true. *)
Definition human (env : Env) (req : OrderRequest) : Prop :=
  exists success,
    siteverify env (cf_token req) = SvJson success /\
    py_truthy (success_of success) = true.

Lemma truthy_empty (s : string) : truthy s = false <-> s = "".
Proof. destruct s; simpl; split; congruence. Qed.

Lemma process_order_honeypot env req rq :
  open_at (now env) -> verification req <> "" ->
  process_order env req rq = (Ok (order_placed (new_order_id (urandom16 env))), []).
Proof.
  intros Ho Hv. unfold process_order. rewrite (hours_open _ Ho). simpl.
  destruct (truthy (verification req)) eqn:E; [reflexivity|].
  apply truthy_empty in E. contradiction.
Qed.

Lemma process_order_refused env req rq success :
  open_at (now env) -> verification req = "" ->
  siteverify env (cf_token req) = SvJson success ->
  py_truthy (success_of success) = false ->
  process_order env req rq =
  (Raise (HTTPException 400 security_message), [Siteverify (cf_token req)]).
Proof.
  intros Ho Hv Hs Ht. unfold process_order. rewrite (hours_open _ Ho), Hv. simpl.
  unfold verify_turnstile_token. rewrite Hs. simpl.
  unfold success_of in Ht. rewrite Ht. reflexivity.
Qed.

Lemma process_order_outage env req rq what :
  open_at (now env) -> verification req = "" ->
  siteverify env (cf_token req) = SvRaises what ->
  process_order env req rq =
  (Raise (HTTPException 500 network_message), [Siteverify (cf_token req)]).
Proof.
  intros Ho Hv Hs. unfold process_order. rewrite (hours_open _ Ho), Hv. simpl.
  unfold verify_turnstile_token. rewrite Hs. reflexivity.
Qed.

Lemma send_order_emails_returns env req order_id :
  exists sent t, send_order_emails env req order_id = (Ok sent, t).
Proof.
  destruct (send_order_emails_cases env req order_id) as (o & c & _ & _ & ->).
  destruct (ses env o); [destruct (ses env c)|]; eauto.
Qed.

(** Past the verification, the answer is decided by the domain check and
    by the dispatch. *)
Lemma process_order_human env req rq b t sent t' :
  open_at (now env) -> verification req = "" -> human env req ->
  is_domain_real env (lower (email req)) = (Ok b, t) ->
  send_order_emails env req (new_order_id (urandom16 env)) = (Ok sent, t') ->
  process_order env req rq =
  if b then
    if sent
    then (Ok (order_placed (new_order_id (urandom16 env))),
          Siteverify (cf_token req) :: t ++ t')
    else (Raise (HTTPException 500 dispatch_message),
          Siteverify (cf_token req) :: t ++ t')
  else (Raise (HTTPException 400 domain_message), Siteverify (cf_token req) :: t).
Proof.
  intros Ho Hv (success & Hs & Ht) Hd Hsend.
  unfold process_order. rewrite (hours_open _ Ho), Hv. simpl.
  unfold verify_turnstile_token. rewrite Hs. simpl.
  unfold success_of in Ht. rewrite Ht. simpl. rewrite Hd.
  destruct b; simpl.
  - rewrite Hsend. destruct sent; simpl; rewrite List.app_nil_r; reflexivity.
  - rewrite List.app_nil_r. reflexivity.
Qed.

Lemma same_letter_lower (a b : ascii) :
  same_letter a b = true -> char_lower a = char_lower b.
Proof.
  assert (Hidem : forall c, char_lower (char_lower c) = char_lower c)
    by (intros [[] [] [] [] [] [] [] []]; reflexivity).
  unfold same_letter. intros H.
  apply orb_true_iff in H as [H | H]; [apply orb_true_iff in H as [H | H]|].
  - apply Ascii.eqb_eq in H as ->. reflexivity.
  - apply andb_true_iff in H as [_ H]. apply Ascii.eqb_eq in H as <-.
    symmetry. apply Hidem.
  - apply andb_true_iff in H as [_ H]. apply Ascii.eqb_eq in H as ->.
    apply Hidem.
Qed.

Lemma lower_same_case (s : string) : forall t,
  differ_only_in_case s t = true -> lower s = lower t.
Proof.
  induction s as [|a s IH]; intros [|b t]; simpl; try discriminate; [reflexivity|].
  intros [Hab Hst]%andb_true_iff. unfold lower in *. simpl.
  rewrite (same_letter_lower _ _ Hab), (IH _ Hst). reflexivity.
Qed.

(** The handler answers with the invalid-domain rejection exactly when
    the request passes the earlier gates and the domain check says no. *)
Lemma rejected_for_domain env req rq :
  fst (process_order env req rq) = Raise (HTTPException 400 domain_message) <->
  open_at (now env) /\ verification req = "" /\ human env req /\
  fst (is_domain_real env (lower (email req))) = Ok false.
Proof.
  destruct (is_domain_real_verdict env (lower (email req))) as [t Hd].
  set (b := _ && _ && _) in Hd.
  destruct (send_order_emails_returns env req (new_order_id (urandom16 env)))
    as (sent & t' & Hsend).
  split.
  - intros H. destruct (open_or_closed (now env)) as [Ho | Hc];
      [|rewrite (process_order_closed _ _ _ Hc) in H; discriminate H].
    destruct (verification req) as [|c v] eqn:Hv;
      [|rewrite process_order_honeypot in H; [discriminate H | exact Ho | rewrite Hv; discriminate]].
    destruct (siteverify env (cf_token req)) as [what | success] eqn:Hs;
      [rewrite (process_order_outage _ _ _ what Ho Hv Hs) in H; discriminate H|].
    destruct (py_truthy (success_of success)) eqn:Ht;
      [|rewrite (process_order_refused _ _ _ success Ho Hv Hs Ht) in H; discriminate H].
    assert (Hh : human env req) by (exists success; auto).
    split; [exact Ho|]. split; [reflexivity|]. split; [exact Hh|].
    rewrite (process_order_human _ _ _ _ _ _ _ Ho Hv Hh Hd Hsend) in H.
    rewrite Hd. simpl.
    destruct b; [|reflexivity]. exfalso. destruct sent; discriminate H.
  - intros (Ho & Hv & Hh & Hf). rewrite Hd in Hf. simpl in Hf. injection Hf as Hb.
    rewrite (process_order_human _ _ _ _ _ _ _ Ho Hv Hh Hd Hsend), Hb. reflexivity.
Qed.

End HandlerFacts.

(* ===================================================================== *)
(** * The handler, claim by claim                                         *)
(* ===================================================================== *)

Module HandlerClaims.
Import PyStr Schema Handler HandlerFacts.

(** ** Honeypot *)




(** ** Business hours *)

(** C4: on a Sunday, or at an hour below 8 or at or after 20, every
    request is rejected with status 400 and the business-hours message,
    before anything else is called; from Monday to Saturday at an hour in
    [8, 20) the hours check answers (True, '') and the handler does not
    answer with the business-hours rejection. *)
Theorem business_hours_gate (env : Env) (req : OrderRequest) (rq : Request) :
  (closed_at (now env) ->
     process_order env req rq = (Raise (HTTPException 400 hours_message), [])) /\
  (open_at (now env) ->
     validate_business_hours (now env) = (true, "") /\
     fst (process_order env req rq) <> Raise (HTTPException 400 hours_message)).
Proof.
  split; [apply process_order_closed|].
  intros Ho. split; [apply hours_open, Ho|].
  destruct (verification req) as [|c v] eqn:Hv;
    [|rewrite process_order_honeypot; [discriminate | exact Ho | rewrite Hv; discriminate]].
  destruct (siteverify env (cf_token req)) as [what | sv] eqn:Hs;
    [rewrite (process_order_outage _ _ _ what Ho Hv Hs); discriminate|].
  destruct (py_truthy (success_of sv)) eqn:Ht;
    [|rewrite (process_order_refused _ _ _ sv Ho Hv Hs Ht); discriminate].
  assert (Hh : human env req) by (exists sv; auto).
  destruct (is_domain_real_verdict env (lower (email req))) as [t Hd].
  destruct (send_order_emails_returns env req (new_order_id (urandom16 env)))
    as (sent & t' & Hsend).
  rewrite (process_order_human _ _ _ _ _ _ _ Ho Hv Hh Hd Hsend).
  destruct (_ && _ && _); [destruct sent|]; discriminate.
Qed.

Lemma business_hours_gate_witness :
  closed_at (now (Samples.world Tuesday 21 Samples.always)) /\
  process_order (Samples.world Tuesday 21 Samples.always) Samples.genuine Samples.from_gateway
    = (Raise (HTTPException 400 hours_message), []) /\
  open_at (now (Samples.world Saturday 8 Samples.always)) /\
  validate_business_hours (now (Samples.world Saturday 8 Samples.always)) = (true, "") /\
  fst (process_order (Samples.world Saturday 8 Samples.always) Samples.genuine
         Samples.from_gateway)
    <> Raise (HTTPException 400 hours_message).
Proof.
  assert (Hc : closed_at (now (Samples.world Tuesday 21 Samples.always)))
    by (right; right; simpl; lia).
  assert (Ho : open_at (now (Samples.world Saturday 8 Samples.always)))
    by (split; [discriminate | simpl; lia]).
  split; [exact Hc|].
  split; [exact (proj1 (business_hours_gate _ Samples.genuine Samples.from_gateway) Hc)|].
  split; [exact Ho|].
  exact (proj2 (business_hours_gate _ Samples.genuine Samples.from_gateway) Ho).
Defined.

(** ** Human verification *)

(** C2, as stated, does not hold when the verification call raises: the
    exception leaves [verify_turnstile_token], is caught by the last
    clause of the handler and becomes a 500 with the network message. *)
Lemma verification_outage_sample :
  process_order (Samples.world Tuesday 10 Samples.always)
    (Samples.request_with "" "Ann@Example.com" "down") Samples.from_gateway
  = (Raise (HTTPException 500 network_message), [Siteverify "down"]).
Proof. vm_compute. reflexivity. Qed.

(** C2, amended: for every request that reaches the human-verification
    stage, a negative answer of the verification service (a false, empty
    or absent [success]) is rejected with status 400 and the message
    "Security check failed"; when the call itself raises, the handler
    answers with status 500 and the message "Network error. Please try
    again.". In both cases nothing is resolved and no email is sent. *)
Theorem verification_failure (env : Env) (req : OrderRequest) (rq : Request) :
  open_at (now env) ->
  verification req = "" ->
  (forall success,
     siteverify env (cf_token req) = SvJson success ->
     py_truthy (success_of success) = false ->
     process_order env req rq =
     (Raise (HTTPException 400 security_message), [Siteverify (cf_token req)])) /\
  (forall what,
     siteverify env (cf_token req) = SvRaises what ->
     process_order env req rq =
     (Raise (HTTPException 500 network_message), [Siteverify (cf_token req)])).
Proof.
  intros Ho Hv. split.
  - intros success Hs Ht. apply (process_order_refused _ _ _ success); assumption.
  - intros what Hs. apply (process_order_outage _ _ _ what); assumption.
Qed.

Lemma verification_failure_witness :
  open_at (now (Samples.world Tuesday 10 Samples.always)) /\
  verification (Samples.request_with "" "Ann@Example.com" "stale") = "" /\
  process_order (Samples.world Tuesday 10 Samples.always)
    (Samples.request_with "" "Ann@Example.com" "stale") Samples.from_gateway
  = (Raise (HTTPException 400 security_message), [Siteverify "stale"]) /\
  process_order (Samples.world Tuesday 10 Samples.always)
    (Samples.request_with "" "Ann@Example.com" "down") Samples.from_gateway
  = (Raise (HTTPException 500 network_message), [Siteverify "down"]).
Proof.
  assert (Ho : open_at (now (Samples.world Tuesday 10 Samples.always)))
    by (split; [discriminate | simpl; lia]).
  split; [exact Ho|]. split; [reflexivity|]. split.
  - exact (proj1 (verification_failure (Samples.world Tuesday 10 Samples.always)
             (Samples.request_with "" "Ann@Example.com" "stale") Samples.from_gateway
             Ho eq_refl) (Some (PyBool false)) eq_refl eq_refl).
  - exact (proj2 (verification_failure (Samples.world Tuesday 10 Samples.always)
             (Samples.request_with "" "Ann@Example.com" "down") Samples.from_gateway
             Ho eq_refl) "ConnectError" eq_refl).
Defined.

(** ** Email domain *)

(** C3: the domain check never raises; and for every request that
    reaches it, if the domain of the lowercased address is in the
    blocklist, or its MX resolution raises or yields nothing, or its NS
    resolution raises or yields nothing, the handler rejects with status
    400 and the invalid-email message, and no email is sent. *)
Theorem domain_check_fail_closed (env : Env) (req : OrderRequest) (rq : Request) :
  (forall email, exists b t, is_domain_real env email = (Ok b, t)) /\
  (open_at (now env) ->
   verification req = "" ->
   human env req ->
   domain_of (lower (email req)) ∈ blocklist env \/
   resolves (dns env (domain_of (lower (email req))) MX) = false \/
   resolves (dns env (domain_of (lower (email req))) NS) = false ->
   fst (process_order env req rq) = Raise (HTTPException 400 domain_message) /\
   List.filter is_send (snd (process_order env req rq)) = []).
Proof.
  split.
  - intros email. destruct (is_domain_real_verdict env email) as [t Hd]. eauto.
  - intros Ho Hv Hh Hbad.
    destruct (is_domain_real_verdict env (lower (email req))) as [t Hd].
    assert (Hb : negb (bool_decide (domain_of (lower (email req)) ∈ blocklist env))
                 && resolves (dns env (domain_of (lower (email req))) MX)
                 && resolves (dns env (domain_of (lower (email req))) NS) = false).
    { destruct Hbad as [H | [H | H]].
      - rewrite (bool_decide_eq_true_2 _ H). reflexivity.
      - rewrite H. apply andb_false_iff. left. apply andb_false_r.
      - rewrite H. apply andb_false_r. }
    rewrite Hb in Hd.
    assert (Hquiet : List.filter is_send t = []).
    { revert Hd. unfold is_domain_real, resolve.
      destruct (bool_decide _); simpl; [intros [= <-]; reflexivity|].
      destruct (dns env _ MX) as [[|r rs]| | |]; simpl;
        try (intros [= <-]; reflexivity).
      destruct (dns env _ NS) as [[|r' rs']| | |]; simpl;
        intros [= <-]; try reflexivity; discriminate. }
    destruct (send_order_emails_returns env req (new_order_id (urandom16 env)))
      as (sent & t' & Hsend).
    rewrite (process_order_human _ _ _ _ _ _ _ Ho Hv Hh Hd Hsend). simpl.
    split; [reflexivity | exact Hquiet].
Qed.

Lemma domain_check_fail_closed_witness :
  let env := Samples.world Tuesday 10 Samples.always in
  let req := Samples.request_with "" "Ann@NoMail.example" "good" in
  open_at (now env) /\
  verification req = "" /\
  human env req /\
  resolves (dns env (domain_of (lower (email req))) MX) = false /\
  fst (process_order env req Samples.from_gateway)
    = Raise (HTTPException 400 domain_message) /\
  List.filter is_send (snd (process_order env req Samples.from_gateway)) = [].
Proof.
  intros env req.
  assert (Ho : open_at (now env)) by (split; [discriminate | simpl; lia]).
  assert (Hh : human env req) by (exists (Some (PyBool true)); split; reflexivity).
  assert (Hmx : resolves (dns env (domain_of (lower (email req))) MX) = false)
    by reflexivity.
  split; [exact Ho|]. split; [reflexivity|]. split; [exact Hh|]. split; [exact Hmx|].
  exact (proj2 (domain_check_fail_closed env req Samples.from_gateway)
           Ho eq_refl Hh (or_intror (or_introl Hmx))).
Defined.

(** C10: for two addresses that differ only in letter case, the domain
    check as the handler invokes it (on the lowercased address) gives the
    same verdict and makes the same calls, and the handler answers one of
    them with the invalid-email rejection exactly when it answers the
    other with it. *)
Theorem domain_check_ignores_case (env : Env) (e1 e2 : string) :
  differ_only_in_case e1 e2 = true ->
  is_domain_real env (lower e1) = is_domain_real env (lower e2) /\
  forall req rq,
    fst (process_order env (with_email req e1) rq)
      = Raise (HTTPException 400 domain_message) <->
    fst (process_order env (with_email req e2) rq)
      = Raise (HTTPException 400 domain_message).
Proof.
  intros Hc. apply lower_same_case in Hc. split; [rewrite Hc; reflexivity|].
  intros req rq. rewrite !rejected_for_domain. unfold human. simpl.
  rewrite Hc. reflexivity.
Qed.

Lemma domain_check_ignores_case_witness :
  differ_only_in_case "Ann@Example.COM" "ann@examPLE.com" = true /\
  is_domain_real (Samples.world Tuesday 10 Samples.always) (lower "Ann@Example.COM")
    = is_domain_real (Samples.world Tuesday 10 Samples.always) (lower "ann@examPLE.com") /\
  forall req rq,
    fst (process_order (Samples.world Tuesday 10 Samples.always)
           (with_email req "Ann@Example.COM") rq)
      = Raise (HTTPException 400 domain_message) <->
    fst (process_order (Samples.world Tuesday 10 Samples.always)
           (with_email req "ann@examPLE.com") rq)
      = Raise (HTTPException 400 domain_message).
Proof.
  split; [reflexivity|].
  exact (domain_check_ignores_case (Samples.world Tuesday 10 Samples.always)
           "Ann@Example.COM" "ann@examPLE.com" eq_refl).
Defined.

(** ** Notification *)

(** C9, as stated, does not hold: the two messages are sent one after
    the other, and when the mail service accepts the first and refuses
    the second, the handler answers 500 with the dispatch message
    although the business owner's message was delivered. *)
Lemma owner_informed_customer_not :
  let out := process_order (Samples.world Tuesday 10 Samples.only_to_owner)
               Samples.genuine Samples.from_gateway in
  fst out = Raise (HTTPException 500 dispatch_message) /\
  delivered (snd out) =
    [ {| Source := "no-reply@shop.example";
         ToAddresses := ["owner@shop.example"];
         Subject := "New Order Received - 1A2B3C4D";
         Html := "1A2B3C4D Ann@Example.com apple,pear,plum" |} ].
Proof. split; vm_compute; reflexivity. Qed.

(** C9, amended: for every non-bot request that passes the gates, the
    message to the business owner is sent first and the one to the
    customer second. If the mail service accepts both, the handler
    answers 200 and both were delivered. If it refuses the first, the
    second is not attempted, nothing was delivered, and the handler
    answers 500 with "Failed to send order confirmation. Please try
    again.". If it accepts the first and refuses the second, the handler
    answers the same 500, the customer's message was not delivered and
    the owner's was. *)
Theorem dispatch_outcome (env : Env) (req : OrderRequest) (rq : Request) :
  open_at (now env) ->
  verification req = "" ->
  human env req ->
  fst (is_domain_real env (lower (email req))) = Ok true ->
  exists owner customer,
    ToAddresses owner = [BUSINESS_EMAIL env] /\
    ToAddresses customer = [lower (email req)] /\
    let out := process_order env req rq in
    if ses env owner then
      if ses env customer then
        fst out = Ok (order_placed (new_order_id (urandom16 env))) /\
        List.filter is_send (snd out) = [SendEmail owner true; SendEmail customer true] /\
        delivered (snd out) = [owner; customer]
      else
        fst out = Raise (HTTPException 500 dispatch_message) /\
        List.filter is_send (snd out) = [SendEmail owner true; SendEmail customer false] /\
        delivered (snd out) = [owner]
    else
      fst out = Raise (HTTPException 500 dispatch_message) /\
      List.filter is_send (snd out) = [SendEmail owner false] /\
      delivered (snd out) = [].
Proof.
  intros Ho Hv Hh Hreal.
  destruct (is_domain_real env (lower (email req))) as [r t] eqn:Hd.
  simpl in Hreal. subst r.
  assert (Hquiet : List.filter is_send t = [] /\ delivered t = []).
  { revert Hd. unfold is_domain_real, resolve.
    destruct (bool_decide _); simpl; [intros [= <-]; split; reflexivity|].
    destruct (dns env _ MX) as [[|r rs]| | |]; simpl;
      try (intros [= <-]; split; reflexivity).
    destruct (dns env _ NS) as [[|r' rs']| | |]; simpl;
      intros [= <-]; split; reflexivity. }
  destruct Hquiet as [Hq1 Hq2].
  destruct (send_order_emails_cases env req (new_order_id (urandom16 env)))
    as (owner & customer & Hto1 & Hto2 & Hsend).
  exists owner, customer. split; [exact Hto1|]. split; [exact Hto2|].
  unfold delivered in *. cbv zeta.
  destruct (ses env owner); [destruct (ses env customer)|];
    rewrite (process_order_human _ _ _ _ _ _ _ Ho Hv Hh Hd Hsend); simpl;
    rewrite List.filter_app, List.flat_map_app, Hq1, Hq2; repeat split.
Qed.

Lemma dispatch_outcome_witness :
  let env := Samples.world Tuesday 10 Samples.only_to_owner in
  open_at (now env) /\
  verification Samples.genuine = "" /\
  human env Samples.genuine /\
  fst (is_domain_real env (lower (email Samples.genuine))) = Ok true /\
  exists owner customer,
    ToAddresses owner = [BUSINESS_EMAIL env] /\
    ToAddresses customer = [lower (email Samples.genuine)] /\
    let out := process_order env Samples.genuine Samples.from_gateway in
    if ses env owner then
      if ses env customer then
        fst out = Ok (order_placed (new_order_id (urandom16 env))) /\
        List.filter is_send (snd out) = [SendEmail owner true; SendEmail customer true] /\
        delivered (snd out) = [owner; customer]
      else
        fst out = Raise (HTTPException 500 dispatch_message) /\
        List.filter is_send (snd out) = [SendEmail owner true; SendEmail customer false] /\
        delivered (snd out) = [owner]
    else
      fst out = Raise (HTTPException 500 dispatch_message) /\
      List.filter is_send (snd out) = [SendEmail owner false] /\
      delivered (snd out) = [].
Proof.
  intros env.
  assert (Ho : open_at (now env)) by (split; [discriminate | simpl; lia]).
  assert (Hh : human env Samples.genuine)
    by (exists (Some (PyBool true)); split; reflexivity).
  assert (Hr : fst (is_domain_real env (lower (email Samples.genuine))) = Ok true)
    by reflexivity.
  split; [exact Ho|]. split; [reflexivity|]. split; [exact Hh|]. split; [exact Hr|].
  exact (dispatch_outcome env Samples.genuine Samples.from_gateway Ho eq_refl Hh Hr).
Defined.

End HandlerClaims.

(* ===================================================================== *)
(** * What a validated cart and a validated request guarantee            *)
(* ===================================================================== *)

Module Validated.
Import PyStr Schema.

(** The constraints of [CartItem]. *)
Definition item_ok (it : CartItem) : Prop :=
  (0 < qty it)%Z /\
  PrimFloat.leb zero (price it) = true /\
  PrimFloat.leb zero (pricePerUnit it) = true.

Definition qty_mismatch_error : error :=
  mk_error ["totalQty"] (ValueError qty_mismatch_message).

(** A payload with valid line items holding four pieces, declaring
    [declared] pieces for a total of 20. *)
Definition four_pieces (declared : Z) : RawCart :=
  {| raw_items := Some
       [ ("apple", {| raw_qty := Some 3%Z; raw_price := Some 15%float;
                      raw_pricePerUnit := Some 5%float; raw_imageUrl := Some "a.png" |});
         ("pear", {| raw_qty := Some 1%Z; raw_price := Some 5%float;
                     raw_pricePerUnit := Some 5%float; raw_imageUrl := Some "p.png" |}) ];
     raw_totalQty := Some declared;
     raw_totalPrice := Some 20%float |}.

(** The same, with a line item of quantity 0. *)
Definition broken_item_cart : RawCart :=
  {| raw_items := Some
       [ ("apple", {| raw_qty := Some 0%Z; raw_price := Some 15%float;
                      raw_pricePerUnit := Some 5%float; raw_imageUrl := Some "a.png" |}) ];
     raw_totalQty := Some 7%Z;
     raw_totalPrice := Some 99%float |}.

(** An address is kept as it is when it has an at-sign. *)
Definition plain_email (s : string) : option string :=
  if contains "@" s then Some s else None.

Definition order_payload (phone_number : Unicode.ustr) (c : RawCart) : RawOrderRequest :=
  {| raw_phone := Some phone_number;
     raw_email := Some "ann@example.com";
     raw_verification := Some "";
     raw_shipping := Some "1 Main St";
     raw_order := Some c;
     raw_cf_token := Some "good" |}.

Lemma first_error_none {A} (checks : list (A -> option err_kind)) (v : A) :
  first_error checks v = None <-> Forall (fun c => c v = None) checks.
Proof.
  induction checks as [|c cs IH]; simpl.
  - split; [constructor | reflexivity].
  - destruct (c v) eqn:E.
    + split; [discriminate|]. intros H. inversion H; congruence.
    + rewrite IH. split; [constructor; assumption | intros H; inversion H; assumption].
Qed.

Lemma field_ok {A} name (raw : option A) checks v :
  field name raw checks = inr v <->
  raw = Some v /\ Forall (fun c => c v = None) checks.
Proof.
  unfold field. destruct raw as [x|].
  - destruct (first_error checks x) eqn:E.
    + split; [discriminate|]. intros [[= ->] H%first_error_none]. congruence.
    + apply first_error_none in E. split.
      * intros [= ->]. auto.
      * intros [[= ->] _]. reflexivity.
  - split; [discriminate | intros [H _]; discriminate H].
Qed.

Lemma field_failure {A} name (raw : option A) checks es :
  field name raw checks = inl es -> es <> [].
Proof.
  unfold field. destruct raw as [x|]; [destruct (first_error checks x)|];
    intros [= <-]; discriminate.
Qed.

Lemma int_gt_none b v : int_gt b v = None <-> (b < v)%Z.
Proof. unfold int_gt. destruct (b <? v)%Z eqn:E; split; try discriminate; lia || auto. Qed.

Lemma int_ge_none b v : int_ge b v = None <-> (b <= v)%Z.
Proof. unfold int_ge. destruct (b <=? v)%Z eqn:E; split; try discriminate; lia || auto. Qed.

Lemma float_ge0_none v : float_ge0 v = None <-> PrimFloat.leb zero v = true.
Proof. unfold float_ge0. destruct (PrimFloat.leb zero v); split; congruence. Qed.

Lemma validate_cart_item_ok (r : RawCartItem) (it : CartItem) :
  validate_cart_item r = inr it ->
  item_ok it /\
  raw_qty r = Some (qty it) /\ raw_price r = Some (price it) /\
  raw_pricePerUnit r = Some (pricePerUnit it) /\ raw_imageUrl r = Some (imageUrl it).
Proof.
  unfold validate_cart_item.
  destruct (field "qty" _ _) as [|q] eqn:Eq; [discriminate|].
  destruct (field "price" _ _) as [|p] eqn:Ep; [discriminate|].
  destruct (field "pricePerUnit" _ _) as [|u] eqn:Eu; [discriminate|].
  destruct (field "imageUrl" _ _) as [|i] eqn:Ei; [discriminate|].
  intros [= <-]. simpl.
  apply field_ok in Eq as [-> Hq], Ep as [-> Hp], Eu as [-> Hu], Ei as [-> _].
  inversion Hq as [|? ? Hq0 _]; inversion Hp as [|? ? Hp0 _];
    inversion Hu as [|? ? Hu0 _]; subst.
  apply int_gt_none in Hq0. apply float_ge0_none in Hp0, Hu0.
  repeat split; assumption.
Qed.

Lemma validate_items_ok (l : list (string * RawCartItem)) :
  forall es vs, validate_items l = (es, vs) ->
  Forall (fun it => item_ok (snd it)) vs /\
  (es = [] -> map fst vs = map fst l).
Proof.
  induction l as [|[name r] l IH]; simpl; intros es vs.
  - intros [= <- <-]. split; [constructor | reflexivity].
  - destruct (validate_items l) as [es' vs'] eqn:El.
    destruct (IH _ _ eq_refl) as [Hok Hnames].
    destruct (validate_cart_item r) as [e | it] eqn:Ei; intros [= <- <-].
    + split; [exact Hok|]. intros [Hu _]%app_eq_nil.
      destruct e; [destruct (SchemaFacts.validate_cart_item_errors r Ei) | discriminate Hu].
    + split.
      * constructor; [apply (validate_cart_item_ok r it Ei) | exact Hok].
      * intros E. simpl. rewrite (Hnames E). reflexivity.
Qed.

Lemma items_field_ok (raw : option (list (string * RawCartItem))) its :
  validate_items_field raw = inr its ->
  exists l, raw = Some l /\ validate_items l = ([], its).
Proof.
  unfold validate_items_field. destruct raw as [l|]; [|discriminate].
  destruct (validate_items l) as [[|e es] vs] eqn:El; [|discriminate].
  intros [= <-]. exists l. split; [reflexivity | exact El].
Qed.

Lemma items_field_failure (raw : option (list (string * RawCartItem))) es :
  validate_items_field raw = inl es -> es <> [].
Proof.
  unfold validate_items_field. destruct raw as [l|]; [|intros [= <-]; discriminate].
  destruct (validate_items l) as [[|e es'] vs]; [discriminate|].
  intros [= <-]. discriminate.
Qed.

(** The three fields of a cart that validated. *)
Lemma validate_cart_ok (c : RawCart) (cart : Cart) :
  validate_cart c = inr cart ->
  validate_items_field (raw_items c) = inr (items cart) /\
  raw_totalQty c = Some (totalQty cart) /\
  raw_totalPrice c = Some (totalPrice cart) /\
  (0 <= totalQty cart)%Z /\
  validate_min_quantity (totalQty cart) = None /\
  validate_total_qty {| val_items := Some (items cart); val_totalQty := None |}
    (totalQty cart) = None /\
  float_ge0 (totalPrice cart) = None /\
  validate_total_price
    {| val_items := Some (items cart); val_totalQty := Some (totalQty cart) |}
    (totalPrice cart) = None.
Proof.
  unfold validate_cart.
  destruct (validate_items_field (raw_items c)) as [|its] eqn:Ei; [discriminate|].
  simpl value_of.
  destruct (field "totalQty" _ _) as [|q] eqn:Eq; [discriminate|].
  destruct (field "totalPrice" _ _) as [|p] eqn:Ep; [discriminate|].
  intros [= <-]. simpl.
  apply field_ok in Eq as [Hq Cq], Ep as [Hp Cp].
  inversion Cq as [|? ? C1 Cq']; inversion Cq' as [|? ? C2 Cq'']; subst.
  inversion Cq'' as [|? ? C3 _]; subst.
  inversion Cp as [|? ? C4 Cp']; inversion Cp' as [|? ? C5 _]; subst.
  apply int_ge_none in C1. repeat split; assumption.
Qed.

Lemma sum_qty_from (its : list (string * CartItem)) : forall acc,
  Forall (fun it => item_ok (snd it)) its ->
  (acc + Z.of_nat (length its) <=
   fold_left (fun a it => a + qty (snd it)) its acc)%Z.
Proof.
  induction its as [|it its IH]; intros acc H; simpl.
  - lia.
  - inversion H as [|? ? [Hq _] Hrest]; subst.
    specialize (IH (acc + qty (snd it))%Z Hrest). lia.
Qed.

Lemma field_error_kind {A} name (raw : option A) checks e :
  In e (errors_of (field name raw checks)) ->
  (raw = None /\ e = mk_error [name] Missing) \/
  (exists v k, raw = Some v /\ first_error checks v = Some k /\ e = mk_error [name] k).
Proof.
  unfold field. destruct raw as [v|]; [destruct (first_error checks v) eqn:E|]; simpl.
  - intros [<- | []]. right. eauto.
  - intros [].
  - intros [<- | []]. left. auto.
Qed.

Lemma items_errors_loc (raw : option (list (string * RawCartItem))) e :
  In e (errors_of (validate_items_field raw)) -> exists rest, loc e = "items" :: rest.
Proof.
  unfold validate_items_field. destruct raw as [l|]; simpl.
  - destruct (validate_items l) as [[|e0 es] vs]; simpl; [intros []|].
    intros [<- | (e1 & <- & _)%in_map_iff]; simpl; eauto.
  - intros [<- | []]. simpl. eauto.
Qed.

(** A line item priced at infinity, in a cart that declares a total of
    infinity. *)
Definition priceless_cart : RawCart :=
  {| raw_items := Some
       [ ("apple", {| raw_qty := Some 3%Z; raw_price := Some infinity;
                      raw_pricePerUnit := Some 5%float; raw_imageUrl := Some "a.png" |}) ];
     raw_totalQty := Some 3%Z;
     raw_totalPrice := Some infinity |}.

(** Infinity less infinity is not a number, and no number is found above
    the tolerance: the cart validates. *)
Example priceless_cart_validates :
  exists cart,
    validate_cart priceless_cart = inr cart /\
    PrimFloat.is_nan
      (PrimFloat.abs (PrimFloat.sub (sum_prices (items cart)) (totalPrice cart))) = true.
Proof. eexists. split; reflexivity. Qed.

(** X1. A cart that validates satisfies every constraint the models
    declare: the declared quantity is at least 3 and is the sum of the
    item quantities, the declared price is not below 0, the distance
    between the declared price and the binary64 sum of the item prices
    is at most the tolerance or is not a number (infinite prices), and
    every line item has a positive quantity and prices not below 0. *)
Theorem validated_cart_invariants (c : RawCart) (cart : Cart) :
  validate_cart c = inr cart ->
  let gap := PrimFloat.abs (PrimFloat.sub (sum_prices (items cart)) (totalPrice cart)) in
  (3 <= totalQty cart)%Z /\
  sum_qty (items cart) = totalQty cart /\
  PrimFloat.leb zero (totalPrice cart) = true /\
  (PrimFloat.leb gap tolerance = true \/ PrimFloat.is_nan gap = true) /\
  PrimFloat.ltb tolerance gap = false /\
  Forall (fun it => item_ok (snd it)) (items cart).
Proof.
  intros H gap. apply validate_cart_ok in H
    as (Hi & _ & _ & _ & Hmin & Hsum & Hge & Hprice).
  apply items_field_ok in Hi as (l & _ & Hl).
  unfold validate_min_quantity in Hmin. unfold validate_total_qty in Hsum.
  unfold validate_total_price in Hprice. simpl in Hsum, Hprice.
  destruct (totalQty cart <? 3)%Z eqn:E3; [discriminate|].
  destruct (sum_qty (items cart) =? totalQty cart)%Z eqn:Es; [|discriminate].
  fold gap in Hprice.
  destruct (PrimFloat.ltb tolerance gap) eqn:Et; [discriminate|].
  split; [lia|]. split; [lia|]. split; [apply float_ge0_none, Hge|].
  split; [|split; [reflexivity | apply (validate_items_ok l _ _ Hl)]].
  destruct (FloatFacts.not_ltb_cases gap tolerance Et) as [Hle | [Hnan | Hnan]];
    [left; exact Hle | right; exact Hnan | discriminate Hnan].
Qed.

Lemma validated_cart_invariants_witness :
  exists cart,
    validate_cart (four_pieces 4) = inr cart /\
    let gap := PrimFloat.abs (PrimFloat.sub (sum_prices (items cart)) (totalPrice cart)) in
    ((3 <= totalQty cart)%Z /\
     sum_qty (items cart) = totalQty cart /\
     PrimFloat.leb zero (totalPrice cart) = true /\
     (PrimFloat.leb gap tolerance = true \/ PrimFloat.is_nan gap = true) /\
     PrimFloat.ltb tolerance gap = false /\
     Forall (fun it => item_ok (snd it)) (items cart)).
Proof.
  eexists. split; [reflexivity|].
  apply (validated_cart_invariants (four_pieces 4) _ eq_refl).
Defined.

(** X2. A cart that validates holds at least one line item and at most
    as many as the pieces it declares; an empty cart never validates. *)
Theorem validated_cart_size (c : RawCart) (cart : Cart) :
  validate_cart c = inr cart ->
  (1 <= length (items cart))%nat /\
  (Z.of_nat (length (items cart)) <= totalQty cart)%Z.
Proof.
  intros H. apply validate_cart_ok in H
    as (Hi & _ & _ & _ & Hmin & Hsum & _).
  apply items_field_ok in Hi as (l & _ & Hl).
  destruct (validate_items_ok l _ _ Hl) as [Hok _].
  unfold validate_min_quantity in Hmin. unfold validate_total_qty in Hsum.
  simpl in Hsum.
  destruct (totalQty cart <? 3)%Z eqn:E3; [discriminate|].
  destruct (sum_qty (items cart) =? totalQty cart)%Z eqn:Es; [|discriminate].
  pose proof (sum_qty_from (items cart) 0%Z Hok) as Hlen.
  apply Z.eqb_eq in Es. apply Z.ltb_ge in E3.
  fold (sum_qty (items cart)) in Hlen. rewrite Es in Hlen.
  split; [|lia].
  destruct (items cart) as [|it its]; [|simpl; lia].
  unfold sum_qty in Es. simpl in Es. lia.
Qed.

Lemma validated_cart_size_witness :
  exists cart,
    validate_cart (four_pieces 4) = inr cart /\
    (1 <= length (items cart))%nat /\
    (Z.of_nat (length (items cart)) <= totalQty cart)%Z.
Proof.
  eexists. split; [reflexivity|].
  apply (validated_cart_size (four_pieces 4) _ eq_refl).
Defined.

(** X3. For a cart whose line items are all valid and that declares at
    least 3 pieces, the quantity-mismatch error is reported exactly when
    the declared quantity differs from the sum of the item quantities. *)
Theorem quantity_mismatch_reported (c : RawCart) its (q : Z) :
  validate_items_field (raw_items c) = inr its ->
  raw_totalQty c = Some q ->
  (3 <= q)%Z ->
  (sum_qty its <> q <-> In qty_mismatch_error (errors_of (validate_cart c))).
Proof.
  intros Hi Hq H3. rewrite <- SchemaFacts.validate_cart_errors.
  rewrite Hi, Hq. simpl value_of.
  assert (Hf : errors_of (field "totalQty" (Some q)
                 [int_ge 0; validate_min_quantity;
                  validate_total_qty {| val_items := Some its; val_totalQty := None |}])
               = if (sum_qty its =? q)%Z then [] else [qty_mismatch_error]).
  { unfold field. simpl. unfold int_ge, validate_min_quantity, validate_total_qty.
    destruct (0 <=? q)%Z eqn:E0; [|lia].
    destruct (q <? 3)%Z eqn:E3; [lia|]. simpl.
    destruct (sum_qty its =? q)%Z; reflexivity. }
  rewrite Hf, !in_app_iff. split.
  - intros Hne. right; left.
    destruct (sum_qty its =? q)%Z eqn:E; [lia | left; reflexivity].
  - intros [Hin | [Hin | Hin]].
    + destruct Hin.
    + destruct (sum_qty its =? q)%Z eqn:E; [destruct Hin | lia].
    + apply SchemaFacts.field_errors_loc in Hin. discriminate Hin.
Qed.

Lemma quantity_mismatch_reported_witness :
  exists its,
    validate_items_field (raw_items (four_pieces 5)) = inr its /\
    raw_totalQty (four_pieces 5) = Some 5%Z /\
    (3 <= 5)%Z /\
    (sum_qty its <> 5%Z <->
     In qty_mismatch_error (errors_of (validate_cart (four_pieces 5)))).
Proof.
  eexists. split; [reflexivity|]. split; [reflexivity|]. split; [lia|].
  apply (quantity_mismatch_reported (four_pieces 5) _ 5%Z eq_refl eq_refl). lia.
Defined.

(** X4. For a declared quantity below 3 the quantity-mismatch error is
    never reported, whatever the line items hold: the checks of the field
    stop at the bound or at the minimum order size. *)
Theorem below_minimum_hides_mismatch (c : RawCart) (q : Z) :
  raw_totalQty c = Some q ->
  (q < 3)%Z ->
  ~ In qty_mismatch_error (errors_of (validate_cart c)).
Proof.
  intros Hq H3 Hin. apply SchemaFacts.validate_cart_errors in Hin.
  apply in_app_or in Hin as [Hin | Hin];
    [apply items_errors_loc in Hin as [rest E]; discriminate E|].
  apply in_app_or in Hin as [Hin | Hin];
    [|apply SchemaFacts.field_errors_loc in Hin; discriminate Hin].
  apply field_error_kind in Hin as [[E _] | (v & k & E & Hk & Hek)];
    [rewrite Hq in E; discriminate E|].
  rewrite Hq in E. injection E as <-. simpl in Hk.
  unfold int_ge, validate_min_quantity in Hk.
  destruct (0 <=? q)%Z; [|injection Hk as <-; discriminate Hek].
  destruct (q <? 3)%Z eqn:E3; [|lia].
  injection Hk as <-. discriminate Hek.
Qed.

Lemma below_minimum_hides_mismatch_witness :
  raw_totalQty (four_pieces 2) = Some 2%Z /\ (2 < 3)%Z /\
  ~ In qty_mismatch_error (errors_of (validate_cart (four_pieces 2))).
Proof.
  split; [reflexivity|]. split; [lia|].
  apply (below_minimum_hides_mismatch (four_pieces 2) 2%Z eq_refl). lia.
Defined.

(** X5. When a line item is itself invalid (or [items] is missing),
    neither sum is compared: the failure holds no quantity-mismatch and
    no price-mismatch error, whatever totals the cart declares. *)
Theorem invalid_items_mask_cross_checks (c : RawCart) es :
  validate_items_field (raw_items c) = inl es ->
  ~ In qty_mismatch_error (errors_of (validate_cart c)) /\
  ~ In price_mismatch_error (errors_of (validate_cart c)).
Proof.
  intros Hi. split; intros Hin; apply SchemaFacts.validate_cart_errors in Hin;
    (apply in_app_or in Hin as [Hin | Hin];
       [apply items_errors_loc in Hin as [rest E]; discriminate E|]);
    rewrite Hi in Hin; simpl value_of in Hin;
    apply in_app_or in Hin as [Hin | Hin].
  - apply field_error_kind in Hin as [[_ E] | (v & k & _ & Hk & Hek)];
      [discriminate E|].
    simpl in Hk. unfold int_ge, validate_min_quantity in Hk.
    destruct (0 <=? v)%Z; [|injection Hk as <-; discriminate Hek].
    destruct (v <? 3)%Z; [injection Hk as <-; discriminate Hek|].
    discriminate Hk.
  - apply SchemaFacts.field_errors_loc in Hin. discriminate Hin.
  - apply SchemaFacts.field_errors_loc in Hin. discriminate Hin.
  - apply field_error_kind in Hin as [[_ E] | (v & k & _ & Hk & Hek)];
      [discriminate E|].
    simpl in Hk. unfold float_ge0 in Hk.
    destruct (PrimFloat.leb zero v); [discriminate Hk|].
    injection Hk as <-. discriminate Hek.
Qed.

Lemma invalid_items_mask_cross_checks_witness :
  validate_items_field (raw_items broken_item_cart)
    = inl [mk_error ["items"; "apple"; "qty"] (NotGt 0)] /\
  ~ In qty_mismatch_error (errors_of (validate_cart broken_item_cart)) /\
  ~ In price_mismatch_error (errors_of (validate_cart broken_item_cart)).
Proof.
  split; [reflexivity|].
  apply (invalid_items_mask_cross_checks broken_item_cart _ eq_refl).
Defined.

Ltac empty_failure :=
  match goal with
  | H : validate_items_field _ = inl [] |- _ => exact (items_field_failure _ _ H eq_refl)
  | H : field _ _ _ = inl [] |- _ => exact (field_failure _ _ _ _ H eq_refl)
  end.

Lemma cart_failure (c : RawCart) es : validate_cart c = inl es -> es <> [].
Proof.
  unfold validate_cart.
  destruct (validate_items_field (raw_items c)) as [e1|its] eqn:Ei; simpl value_of;
    destruct (field "totalQty" _ _) as [e2|q] eqn:Eq;
    destruct (field "totalPrice" _ _) as [e3|p] eqn:Ep;
    try discriminate; intros [= <-]; simpl; intros Hnil;
    repeat match goal with
           | H : _ ++ _ = [] |- _ => apply app_eq_nil in H as [? ?]
           end; subst; empty_failure.
Qed.

Section Requests.
Variable validate_email : string -> option string.

Lemma email_failure (raw : option string) es :
  email_field validate_email raw = inl es -> es <> [].
Proof.
  unfold email_field. destruct raw as [v|]; [destruct (validate_email v)|];
    intros [= <-]; discriminate.
Qed.

Lemma order_failure (raw : option RawCart) es :
  order_field raw = inl es -> es <> [].
Proof.
  unfold order_field. destruct raw as [c|]; [|intros [= <-]; discriminate].
  destruct (validate_cart c) as [es'|] eqn:Ec; [|discriminate].
  intros [= <-]. apply cart_failure in Ec. destruct es'; [congruence | discriminate].
Qed.

Lemma request_failure (r : RawOrderRequest) es :
  validate_order_request validate_email r = inl es -> es <> [].
Proof.
  unfold validate_order_request.
  destruct (field "phone" _ _) as [e1|] eqn:E1;
    destruct (email_field _ _) as [e2|] eqn:E2;
    destruct (field "verification" _ _) as [e3|] eqn:E3;
    destruct (field "shipping" _ _) as [e4|] eqn:E4;
    destruct (order_field _) as [e5|] eqn:E5;
    destruct (field "cf_token" _ _) as [e6|] eqn:E6;
    try discriminate; intros [= <-]; simpl; intros Hnil;
    repeat match goal with
           | H : _ ++ _ = [] |- _ => apply app_eq_nil in H as [? ?]
           end; subst;
    match goal with
    | H : field _ _ _ = inl [] |- _ => exact (field_failure _ _ _ _ H eq_refl)
    | H : email_field _ _ = inl [] |- _ => exact (email_failure _ _ H eq_refl)
    | H : order_field _ = inl [] |- _ => exact (order_failure _ _ H eq_refl)
    end.
Qed.

End Requests.

(** The cart [c] of a payload meets the constraints of [Cart] and
    holds the values of [cart]. *)
Definition cart_parses (c : RawCart) (cart : Cart) : Prop :=
  (exists l, raw_items c = Some l /\ SchemaErrors.items_parse l (items cart)) /\
  raw_totalQty c = Some (totalQty cart) /\
  (3 <= totalQty cart)%Z /\
  sum_qty (items cart) = totalQty cart /\
  raw_totalPrice c = Some (totalPrice cart) /\
  PrimFloat.leb zero (totalPrice cart) = true /\
  PrimFloat.ltb tolerance
    (PrimFloat.abs (PrimFloat.sub (sum_prices (items cart)) (totalPrice cart))) = false.

(** The payload [r] meets the constraints of [OrderRequest] and holds
    the values of [req]. *)
Definition request_parses (validate_email : string -> option string)
    (r : RawOrderRequest) (req : OrderRequest) : Prop :=
  raw_phone r = Some (phone req) /\
  Re.phone_match (phone req) = true /\
  (exists e, raw_email r = Some e /\ validate_email e = Some (email req)) /\
  raw_verification r = Some (verification req) /\
  raw_shipping r = Some (shipping req) /\
  (exists c, raw_order r = Some c /\ cart_parses c (order req)) /\
  raw_cf_token r = Some (cf_token req).

Lemma cart_parses_iff (c : RawCart) (cart : Cart) :
  validate_cart c = inr cart <-> cart_parses c cart.
Proof.
  unfold cart_parses. split.
  - intros H. apply validate_cart_ok in H
      as (Hi & Hq & Hp & _ & Hmin & Hsum & Hge & Hprice).
    apply items_field_ok in Hi as (l & El & Hl).
    unfold validate_min_quantity in Hmin. unfold validate_total_qty in Hsum.
    unfold validate_total_price in Hprice. simpl in Hsum, Hprice.
    destruct (totalQty cart <? 3)%Z eqn:E3; [discriminate|].
    destruct (sum_qty (items cart) =? totalQty cart)%Z eqn:Es; [|discriminate].
    destruct (PrimFloat.ltb tolerance _) eqn:Et; [discriminate|].
    split; [exists l; split; [exact El | apply SchemaErrors.items_parse_iff, Hl]|].
    split; [exact Hq|]. split; [lia|]. split; [lia|].
    split; [exact Hp|]. split; [apply float_ge0_none, Hge | reflexivity].
  - intros ((l & El & Hl) & Hq & H3 & Hsum & Hp & Hge & Hgap).
    apply SchemaErrors.items_parse_iff in Hl.
    unfold validate_cart, validate_items_field. rewrite El, Hl, Hq, Hp.
    unfold field. simpl.
    unfold int_ge, validate_min_quantity, validate_total_qty, float_ge0,
      validate_total_price. simpl.
    destruct (0 <=? totalQty cart)%Z eqn:E0; [|lia].
    destruct (totalQty cart <? 3)%Z eqn:E3'; [lia|].
    destruct (sum_qty (items cart) =? totalQty cart)%Z eqn:Es; [|lia].
    rewrite Hge, Hgap. destruct cart; reflexivity.
Qed.

(** X6. A payload validates, and to the request [req], exactly when it
    meets every constraint the three models declare and [req] holds its
    values: all six fields are present, the phone matches the pattern,
    the email validator accepts the address and returns the email of
    [req], every line item is complete with a positive quantity and
    prices not below 0, the declared quantity is at least 3 and is the
    sum of the item quantities, the declared price is not below 0 and
    is not found more than the tolerance away from the sum of the item
    prices. *)
Theorem request_validates_iff (validate_email : string -> option string)
    (r : RawOrderRequest) (req : OrderRequest) :
  validate_order_request validate_email r = inr req <->
  request_parses validate_email r req.
Proof.
  unfold request_parses. split.
  - unfold validate_order_request.
    destruct (field "phone" _ _) as [|p] eqn:E1; [discriminate|].
    destruct (email_field _ _) as [|e] eqn:E2; [discriminate|].
    destruct (field "verification" _ _) as [|v] eqn:E3; [discriminate|].
    destruct (field "shipping" _ _) as [|s] eqn:E4; [discriminate|].
    destruct (order_field _) as [|o] eqn:E5; [discriminate|].
    destruct (field "cf_token" _ _) as [|t] eqn:E6; [discriminate|].
    intros [= <-]. simpl.
    apply field_ok in E1 as [-> C1], E3 as [-> _], E4 as [-> _], E6 as [-> _].
    inversion C1 as [|? ? Hp _]; subst. unfold validate_phone_format in Hp.
    destruct (Re.phone_match p) eqn:Hm; [|discriminate Hp].
    unfold email_field in E2. destruct (raw_email r) as [e0|]; [|discriminate].
    destruct (validate_email e0) as [e'|] eqn:He; [|discriminate].
    injection E2 as ->.
    unfold order_field in E5. destruct (raw_order r) as [c|]; [|discriminate].
    destruct (validate_cart c) as [|c'] eqn:Hc; [discriminate|].
    injection E5 as ->. apply cart_parses_iff in Hc.
    repeat split; eauto.
  - intros (Hp & Hm & (e & He & Hv) & Hver & Hs & (c & Hc & Hcart) & Ht).
    apply cart_parses_iff in Hcart.
    unfold validate_order_request, email_field, order_field, field.
    rewrite Hp, He, Hv, Hver, Hs, Hc, Hcart, Ht. simpl.
    unfold validate_phone_format. rewrite Hm. simpl.
    destruct req; reflexivity.
Qed.

Lemma request_validates_iff_witness :
  (exists req,
     request_parses plain_email
       (order_payload (Unicode.text "555-123-4567") (four_pieces 4)) req) /\
  (forall req,
     ~ request_parses plain_email
         (order_payload (Unicode.text "555-123-456") (four_pieces 4)) req).
Proof.
  split.
  - eexists. apply request_validates_iff. reflexivity.
  - intros req H. apply request_validates_iff in H. discriminate H.
Defined.

(** X7. A request that validates carries the payload: its phone is the
    payload's and matches the pattern, its email is what the email
    validator made of the payload's, its honeypot, shipping and token are
    the payload's, and its cart is the payload's cart, validated. *)
Theorem validated_request_fields (validate_email : string -> option string)
    (r : RawOrderRequest) (req : OrderRequest) :
  validate_order_request validate_email r = inr req ->
  raw_phone r = Some (phone req) /\
  Re.phone_match (phone req) = true /\
  (exists e, raw_email r = Some e /\ validate_email e = Some (email req)) /\
  raw_verification r = Some (verification req) /\
  raw_shipping r = Some (shipping req) /\
  raw_cf_token r = Some (cf_token req) /\
  (exists c, raw_order r = Some c /\ validate_cart c = inr (order req)).
Proof.
  unfold validate_order_request.
  destruct (field "phone" _ _) as [|p] eqn:E1; [discriminate|].
  destruct (email_field _ _) as [|e] eqn:E2; [discriminate|].
  destruct (field "verification" _ _) as [|v] eqn:E3; [discriminate|].
  destruct (field "shipping" _ _) as [|s] eqn:E4; [discriminate|].
  destruct (order_field _) as [|o] eqn:E5; [discriminate|].
  destruct (field "cf_token" _ _) as [|t] eqn:E6; [discriminate|].
  intros [= <-]. simpl.
  apply field_ok in E1 as [-> C1], E3 as [-> _], E4 as [-> _], E6 as [-> _].
  inversion C1 as [|? ? Hp _]; subst. unfold validate_phone_format in Hp.
  destruct (Re.phone_match p) eqn:Hm; [|discriminate Hp].
  unfold email_field in E2. destruct (raw_email r) as [e0|]; [|discriminate].
  destruct (validate_email e0) as [e'|] eqn:He; [|discriminate].
  injection E2 as ->.
  unfold order_field in E5. destruct (raw_order r) as [c|]; [|discriminate].
  destruct (validate_cart c) as [|c'] eqn:Hc; [discriminate|].
  injection E5 as ->.
  repeat split; eauto.
Qed.

Lemma validated_request_fields_witness :
  exists req,
    validate_order_request plain_email
      (order_payload (Unicode.text "555-123-4567") (four_pieces 4)) = inr req /\
    (raw_phone (order_payload (Unicode.text "555-123-4567") (four_pieces 4)) = Some (phone req) /\
     Re.phone_match (phone req) = true /\
     (exists e, raw_email (order_payload (Unicode.text "555-123-4567") (four_pieces 4)) = Some e /\
                plain_email e = Some (email req)) /\
     raw_verification (order_payload (Unicode.text "555-123-4567") (four_pieces 4))
       = Some (verification req) /\
     raw_shipping (order_payload (Unicode.text "555-123-4567") (four_pieces 4)) = Some (shipping req) /\
     raw_cf_token (order_payload (Unicode.text "555-123-4567") (four_pieces 4)) = Some (cf_token req) /\
     (exists c, raw_order (order_payload (Unicode.text "555-123-4567") (four_pieces 4)) = Some c /\
                validate_cart c = inr (order req))).
Proof.
  eexists. split; [reflexivity|].
  apply (validated_request_fields plain_email
           (order_payload (Unicode.text "555-123-4567") (four_pieces 4)) _ eq_refl).
Defined.

End Validated.

(* ===================================================================== *)
(** * What an accepted phone number looks like                            *)
(* ===================================================================== *)

Module PhoneNumbers.
Import Unicode Schema Phone.

Definition count_digits (s : ustr) : nat := length (List.filter is_digit s).

Lemma count_digits_app (s t : ustr) :
  count_digits (s ++ t) = (count_digits s + count_digits t)%nat.
Proof. unfold count_digits. rewrite List.filter_app, length_app. reflexivity. Qed.

Lemma count_digits_all (s : ustr) :
  forallb is_digit s = true -> count_digits s = length s.
Proof.
  unfold count_digits. induction s as [|c s IH]; simpl; [reflexivity|].
  intros [Hc Hs]%andb_true_iff. rewrite Hc. simpl. rewrite (IH Hs). reflexivity.
Qed.

Lemma count_digits_none (p : N -> bool) (s : ustr) :
  (forall c, p c = true -> is_digit c = false) ->
  forallb p s = true -> count_digits s = 0%nat.
Proof.
  intros Hp. unfold count_digits. induction s as [|c s IH]; simpl; [reflexivity|].
  intros [Hc Hs]%andb_true_iff. rewrite (Hp _ Hc). apply (IH Hs).
Qed.

(** No character from space to dot is a decimal digit. *)
Lemma range_no_digit c : in_space_dot_range c = true -> is_digit c = false.
Proof.
  unfold in_space_dot_range, chr. simpl N_of_ascii.
  intros [H1 H2]%andb_true_iff. apply N.leb_le in H1, H2.
  assert (H : In c [32; 33; 34; 35; 36; 37; 38; 39; 40; 41; 42; 43; 44; 45; 46]%N)
    by (simpl; lia).
  simpl in H.
  repeat destruct H as [<- | H]; try reflexivity. destruct H.
Qed.

Lemma sep_no_digit c : is_sep c = true -> is_digit c = false.
Proof. intros H. apply range_no_digit, sep_in_range, H. Qed.

Lemma space_no_digit c : is_space c = true -> is_digit c = false.
Proof. unfold is_space. intros <-%N.eqb_eq. reflexivity. Qed.

Lemma count_digits_spaces s : spaces s = true -> count_digits s = 0%nat.
Proof. apply count_digits_none, space_no_digit. Qed.

Lemma count_digits_group n g : digits n g -> count_digits g = n.
Proof. intros [Hl Hd]. rewrite (count_digits_all _ Hd). exact Hl. Qed.

Lemma count_digits_sep t : sep_shape t -> count_digits t = 0%nat.
Proof.
  intros (sp & e & -> & Hsp & He). rewrite count_digits_app, (count_digits_spaces _ Hsp).
  destruct He as [-> | (c & -> & Hc)]; [reflexivity|].
  unfold count_digits. simpl. rewrite (sep_no_digit _ Hc). reflexivity.
Qed.

Lemma count_digits_tail t : tail_shape t -> count_digits t = 0%nat.
Proof.
  intros (sp & nl & -> & Hsp & Hnl). rewrite count_digits_app, (count_digits_spaces _ Hsp).
  destruct Hnl as [-> | ->]; reflexivity.
Qed.

Lemma spaces_digits_empty s :
  spaces s = true -> forallb is_digit s = true -> s = [].
Proof.
  destruct s as [|c s]; [reflexivity|]. unfold spaces. simpl.
  intros [Hc _]%andb_true_iff [Hd _]%andb_true_iff.
  rewrite (space_no_digit _ Hc) in Hd. discriminate Hd.
Qed.

Lemma accepted_shape (s : ustr) :
  validate_phone_format s = None <-> phone_shape in_space_dot_range s.
Proof.
  unfold validate_phone_format. rewrite <- phone_match_shape.
  destruct (Re.phone_match s); simpl; split; congruence.
Qed.

(** X8. The phone validator accepts exactly the strings made of: an
    optional prefix (an optional plus sign, a 1, any number of spaces and
    one character between space and dot in code-point order), three
    decimal digits of any script, any number of spaces and at most one
    space, dot or hyphen, three digits, the same kind of separator, four
    digits, any number of spaces and at most one final newline. *)
Theorem phone_accepts_exactly (s : ustr) :
  validate_phone_format s = None <-> phone_shape in_space_dot_range s.
Proof.
  split; intros H.
  - apply accepted_shape in H
      as (p & g1 & t1 & g2 & t2 & g3 & tl & E & Hp & Hrest).
    exists p, g1, t1, g2, t2, g3, tl. auto.
  - apply accepted_shape. exact H.
Qed.

(** X9. An accepted phone number holds exactly ten decimal digits, or
    eleven when it starts with the country code 1 (with or without a plus
    sign). *)
Theorem accepted_phone_digits (s : ustr) :
  validate_phone_format s = None ->
  count_digits s = 10%nat \/
  (count_digits s = 11%nat /\
   exists rest, s = text "1" ++ rest \/ s = text "+1" ++ rest).
Proof.
  intros H. apply accepted_shape in H
    as (p & g1 & t1 & g2 & t2 & g3 & tl & -> & Hp & Hg1 & Ht1 & Hg2 & Ht2 & Hg3 & Htl).
  rewrite !count_digits_app.
  rewrite (count_digits_group _ _ Hg1), (count_digits_group _ _ Hg2),
    (count_digits_group _ _ Hg3), (count_digits_sep _ Ht1), (count_digits_sep _ Ht2),
    (count_digits_tail _ Htl).
  destruct Hp as [-> | (plus & sp & c & -> & Hplus & Hsp & Hc)]; [left; reflexivity|].
  right. rewrite !count_digits_app, (count_digits_spaces _ Hsp).
  assert (Hc0 : count_digits [c] = 0%nat)
    by (unfold count_digits; simpl; rewrite (range_no_digit _ Hc); reflexivity).
  rewrite Hc0.
  split; [destruct Hplus as [-> | ->]; reflexivity|].
  exists ((sp ++ [c]) ++ g1 ++ t1 ++ g2 ++ t2 ++ g3 ++ tl).
  destruct Hplus as [-> | ->]; [left | right]; rewrite <- !List.app_assoc; reflexivity.
Qed.

Lemma accepted_phone_digits_witness :
  validate_phone_format (text "+1 555 123 4567") = None /\
  (count_digits (text "+1 555 123 4567") = 10%nat \/
   (count_digits (text "+1 555 123 4567") = 11%nat /\
    exists rest, text "+1 555 123 4567" = text "1" ++ rest \/
                 text "+1 555 123 4567" = text "+1" ++ rest)).
Proof.
  split; [reflexivity|].
  apply (accepted_phone_digits (text "+1 555 123 4567")); reflexivity.
Defined.

(** X10. A string made of decimal digits only is accepted exactly when
    it has ten of them: eleven digits, the country code glued to the
    number, are refused. *)
Theorem digits_only_phone (s : ustr) :
  forallb is_digit s = true ->
  (validate_phone_format s = None <-> length s = 10%nat).
Proof.
  intros Hd. rewrite accepted_shape. split.
  - intros (p & g1 & t1 & g2 & t2 & g3 & tl & -> & Hp & Hg1 & Ht1 & Hg2 & Ht2 & Hg3 & Htl).
    rewrite !forallb_app in Hd.
    repeat match goal with
           | H : _ && _ = true |- _ => apply andb_true_iff in H as [? ?]
           end.
    assert (Ep : p = []).
    { destruct Hp as [-> | (plus & sp & c & -> & _ & _ & Hc)]; [reflexivity|].
      exfalso. rewrite !forallb_app in *.
      repeat match goal with
             | H : _ && _ = true |- _ => apply andb_true_iff in H as [? ?]
             end.
      match goal with
      | H : forallb is_digit [c] = true |- _ =>
          simpl in H; rewrite (range_no_digit _ Hc) in H; discriminate H
      end. }
    assert (Esep : forall t, sep_shape t -> forallb is_digit t = true -> t = []).
    { intros t (sp & e & -> & Hsp & He) Ht. rewrite forallb_app in Ht.
      apply andb_true_iff in Ht as [Ht1' Ht2'].
      rewrite (spaces_digits_empty _ Hsp Ht1').
      destruct He as [-> | (c & -> & Hc)]; [reflexivity|].
      simpl in Ht2'. rewrite (sep_no_digit _ Hc) in Ht2'. discriminate Ht2'. }
    assert (Etl : tl = []).
    { destruct Htl as (sp & nl & -> & Hsp & Hnl).
      match goal with
      | H : forallb is_digit (sp ++ nl) = true |- _ =>
          rewrite forallb_app in H; apply andb_true_iff in H as [Ha Hb]
      end.
      rewrite (spaces_digits_empty _ Hsp Ha).
      destruct Hnl as [-> | ->]; [reflexivity | discriminate Hb]. }
    rewrite Ep, (Esep t1), (Esep t2), Etl by assumption.
    rewrite !length_app. destruct Hg1 as [-> _], Hg2 as [-> _], Hg3 as [-> _].
    reflexivity.
  - intros Hl.
    do 10 (destruct s as [|? s]; [discriminate Hl|]).
    destruct s; [|discriminate Hl].
    simpl in Hd.
    repeat match goal with
           | H : _ && _ = true |- _ => apply andb_true_iff in H as [? ?]
           end.
    exists [], [n; n0; n1], [], [n2; n3; n4], [], [n5; n6; n7; n8], [].
    split; [reflexivity|].
    split; [left; reflexivity|].
    assert (Hsep : sep_shape [])
      by (exists [], []; split; [reflexivity|]; split; [reflexivity | left; reflexivity]).
    assert (Htl : tail_shape [])
      by (exists [], []; split; [reflexivity|]; split; [reflexivity | left; reflexivity]).
    repeat split; try assumption; simpl;
      repeat match goal with H : is_digit _ = true |- _ => rewrite H; clear H end;
      reflexivity.
Qed.

Lemma digits_only_phone_witness :
  forallb is_digit (text "15551234567") = true /\
  (validate_phone_format (text "15551234567") = None <->
   length (text "15551234567") = 10%nat).
Proof.
  split; [reflexivity|].
  apply (digits_only_phone (text "15551234567")); reflexivity.
Defined.

Example ten_arabic_indic_digits :
  validate_phone_format [1632; 1633; 1634; 1635; 1636; 1637; 1638; 1639; 1640; 1641]%N
  = None.
Proof. reflexivity. Qed.

End PhoneNumbers.

(* ===================================================================== *)
(** * The handler from end to end                                         *)
(* ===================================================================== *)

Module OrderFlow.
Import PyStr Schema Handler HandlerFacts.

(** The rendered pieces of the two messages. *)
Definition product_html_list (env : Env) (req : OrderRequest) : list string :=
  map (fun '(item_name, item_data) =>
         create_product_html env item_name (price item_data)
           (imageUrl item_data) (qty item_data))
      (items (order req)).

Definition owner_mail (env : Env) (req : OrderRequest) (order_id : string)
  : email_message :=
  owner_message env req order_id
    (create_order_html env (product_html_list env req)
       (totalQty (order req)) (totalPrice (order req))
       (email req) (phone req) (shipping req) order_id).

Definition customer_mail (env : Env) (req : OrderRequest) (order_id : string)
  : email_message :=
  customer_message env req order_id
    (create_customer_confirmation_html env (product_html_list env req)
       (totalQty (order req)) (totalPrice (order req)) order_id).

(** Every call a request can cause, in the order the handler makes them. *)
Definition all_calls (env : Env) (req : OrderRequest) (owner_ok customer_ok : bool)
  : list event :=
  let d := domain_of (lower (email req)) in
  let order_id := new_order_id (urandom16 env) in
  [ Siteverify (cf_token req);
    Resolve d MX;
    Resolve d NS;
    SendEmail (owner_mail env req order_id) owner_ok;
    SendEmail (customer_mail env req order_id) customer_ok ].

(** The answers the handler can give. *)
Definition possible_answers (env : Env) : list (result JSONResponse) :=
  [ Ok (order_placed (new_order_id (urandom16 env)));
    Raise (HTTPException 400 hours_message);
    Raise (HTTPException 400 security_message);
    Raise (HTTPException 400 domain_message);
    Raise (HTTPException 500 dispatch_message);
    Raise (HTTPException 500 network_message) ].

Definition not_at_sign (c : ascii) : bool := negb (Ascii.eqb c "@").

Lemma is_domain_real_exact (env : Env) (email : string) :
  is_domain_real env email =
  let d := domain_of email in
  if bool_decide (d ∈ blocklist env) then (Ok false, [])
  else if resolves (dns env d MX)
       then (Ok (resolves (dns env d NS)), [Resolve d MX; Resolve d NS])
       else (Ok false, [Resolve d MX]).
Proof.
  unfold is_domain_real, domain_of, resolve. cbv zeta.
  destruct (bool_decide _); simpl; [reflexivity|].
  destruct (dns env _ MX) as [[|r rs]| | |]; simpl; try reflexivity.
  destruct (dns env _ NS) as [[|r' rs']| | |]; reflexivity.
Qed.

Lemma send_order_emails_exact (env : Env) (req : OrderRequest) (order_id : string) :
  send_order_emails env req order_id =
  if ses env (owner_mail env req order_id) then
    if ses env (customer_mail env req order_id)
    then (Ok true, [SendEmail (owner_mail env req order_id) true;
                    SendEmail (customer_mail env req order_id) true])
    else (Ok false, [SendEmail (owner_mail env req order_id) true;
                     SendEmail (customer_mail env req order_id) false])
  else (Ok false, [SendEmail (owner_mail env req order_id) false]).
Proof.
  unfold send_order_emails, owner_mail, customer_mail, product_html_list.
  unfold send_email, bind, emit, try_except, ret, raise.
  destruct (ses env (owner_message _ _ _ _)); [|reflexivity].
  destruct (ses env (customer_message _ _ _ _)); reflexivity.
Qed.

(** The seven ways a request can go. *)
Inductive flow (env : Env) (req : OrderRequest) : M JSONResponse -> Prop :=
| FlowClosed :
    closed_at (now env) ->
    flow env req (Raise (HTTPException 400 hours_message), [])
| FlowBot :
    open_at (now env) -> verification req <> "" ->
    flow env req (Ok (order_placed (new_order_id (urandom16 env))), [])
| FlowOutage what :
    open_at (now env) -> verification req = "" ->
    siteverify env (cf_token req) = SvRaises what ->
    flow env req (Raise (HTTPException 500 network_message), [Siteverify (cf_token req)])
| FlowRefused success :
    open_at (now env) -> verification req = "" ->
    siteverify env (cf_token req) = SvJson success ->
    py_truthy (success_of success) = false ->
    flow env req (Raise (HTTPException 400 security_message), [Siteverify (cf_token req)])
| FlowBadDomain t :
    open_at (now env) -> verification req = "" -> human env req ->
    is_domain_real env (lower (email req)) = (Ok false, t) ->
    flow env req (Raise (HTTPException 400 domain_message), Siteverify (cf_token req) :: t)
| FlowNotSent t t' :
    open_at (now env) -> verification req = "" -> human env req ->
    is_domain_real env (lower (email req)) = (Ok true, t) ->
    send_order_emails env req (new_order_id (urandom16 env)) = (Ok false, t') ->
    flow env req (Raise (HTTPException 500 dispatch_message),
                  Siteverify (cf_token req) :: t ++ t')
| FlowAccepted t t' :
    open_at (now env) -> verification req = "" -> human env req ->
    is_domain_real env (lower (email req)) = (Ok true, t) ->
    send_order_emails env req (new_order_id (urandom16 env)) = (Ok true, t') ->
    flow env req (Ok (order_placed (new_order_id (urandom16 env))),
                  Siteverify (cf_token req) :: t ++ t').

Lemma process_order_flow (env : Env) (req : OrderRequest) (rq : Request) :
  flow env req (process_order env req rq).
Proof.
  destruct (open_or_closed (now env)) as [Ho | Hc];
    [|rewrite (process_order_closed _ _ _ Hc); constructor; exact Hc].
  destruct (verification req) as [|c v] eqn:Hv.
  2:{ assert (Hne : verification req <> "") by (rewrite Hv; discriminate).
      rewrite (process_order_honeypot _ _ _ Ho Hne). constructor; assumption. }
  destruct (siteverify env (cf_token req)) as [what | sv] eqn:Hs.
  { rewrite (process_order_outage _ _ _ what Ho Hv Hs). econstructor; eassumption. }
  destruct (py_truthy (success_of sv)) eqn:Ht.
  2:{ rewrite (process_order_refused _ _ _ sv Ho Hv Hs Ht). econstructor; eassumption. }
  assert (Hh : human env req) by (exists sv; auto).
  destruct (is_domain_real_verdict env (lower (email req))) as [t Hd].
  destruct (send_order_emails_returns env req (new_order_id (urandom16 env)))
    as (sent & t' & Hsend).
  rewrite (process_order_human _ _ _ _ _ _ _ Ho Hv Hh Hd Hsend).
  destruct (_ && _ && _); [destruct sent|].
  - apply FlowAccepted; assumption.
  - apply FlowNotSent; assumption.
  - apply FlowBadDomain; assumption.
Qed.

(** The lookups of the domain check: an initial part of MX then NS, and
    both when the verdict is yes. *)
Lemma domain_trace (env : Env) (email : string) b t :
  is_domain_real env email = (Ok b, t) ->
  (exists rest, t ++ rest = [Resolve (domain_of email) MX; Resolve (domain_of email) NS]) /\
  (b = true -> t = [Resolve (domain_of email) MX; Resolve (domain_of email) NS]).
Proof.
  rewrite is_domain_real_exact. cbv zeta.
  destruct (bool_decide _); [|destruct (resolves (dns env _ MX))];
    intros [Hb <-]%pair_equal_spec; injection Hb as <-;
    (split; [eexists; reflexivity | try discriminate; reflexivity]).
Qed.

Lemma domain_trace_quiet (env : Env) (email : string) b t :
  is_domain_real env email = (Ok b, t) ->
  forall m ok, ~ In (SendEmail m ok) t.
Proof.
  intros H m ok Hin. apply domain_trace in H as [[rest E] _].
  assert (Hin' : In (SendEmail m ok) (t ++ rest)) by (apply in_or_app; left; exact Hin).
  rewrite E in Hin'. simpl in Hin'. intuition discriminate.
Qed.

(** X11. Whatever happens, the handler answers with one of six fixed
    responses: the success body, or an HTTP 400 or 500 carrying one of
    five fixed messages. No other exception leaves it, and no text of an
    internal exception reaches the caller. *)
Theorem answer_is_fixed (env : Env) (req : OrderRequest) (rq : Request) :
  In (fst (process_order env req rq)) (possible_answers env).
Proof.
  destruct (process_order_flow env req rq); simpl; auto 10.
Qed.


(** X13. The outside calls of one request are an initial part of one
    fixed sequence: the verification call, the MX lookup, the NS lookup,
    the message to the owner, the message to the customer. So there is at
    most one of each, and none happens before the ones that precede it. *)
Theorem calls_in_order (env : Env) (req : OrderRequest) (rq : Request) :
  exists owner_ok customer_ok rest,
    snd (process_order env req rq) ++ rest = all_calls env req owner_ok customer_ok.
Proof.
  unfold all_calls. cbv zeta.
  destruct (process_order_flow env req rq)
    as [| | | | t Ho Hv Hh Hd | t t' Ho Hv Hh Hd Hs | t t' Ho Hv Hh Hd Hs]; simpl snd;
    try (exists true, true; eexists; reflexivity).
  - apply domain_trace in Hd as [[rest E] _].
    exists true, true.
    exists (rest ++ [SendEmail (owner_mail env req (new_order_id (urandom16 env))) true;
                     SendEmail (customer_mail env req (new_order_id (urandom16 env))) true]).
    rewrite <- List.app_comm_cons, List.app_assoc, E. reflexivity.
  - apply domain_trace in Hd as [_ Hd]. rewrite (Hd eq_refl).
    rewrite send_order_emails_exact in Hs.
    destruct (ses env (owner_mail _ _ _)); [destruct (ses env (customer_mail _ _ _))|];
      apply pair_equal_spec in Hs as [Hs <-]; try discriminate Hs.
    + exists true, false, []. reflexivity.
    + exists false, true. eexists. reflexivity.
  - apply domain_trace in Hd as [_ Hd]. rewrite (Hd eq_refl).
    rewrite send_order_emails_exact in Hs.
    destruct (ses env (owner_mail _ _ _)); [destruct (ses env (customer_mail _ _ _))|];
      apply pair_equal_spec in Hs as [Hs <-]; try discriminate Hs.
    exists true, true, []. reflexivity.
Qed.

(** X14. An email is attempted only for a request that arrived within
    business hours with an empty honeypot, passed the human verification
    and passed the domain check; and it is one of the two messages of the
    order: from the no-reply address, to the business address or to the
    customer's lowercased address. *)
Theorem email_only_after_gates (env : Env) (req : OrderRequest) (rq : Request)
    (m : email_message) (ok : bool) :
  In (SendEmail m ok) (snd (process_order env req rq)) ->
  (open_at (now env) /\ verification req = "" /\ human env req /\
   fst (is_domain_real env (lower (email req))) = Ok true) /\
  Source m = NO_REPLY_EMAIL env /\
  (ToAddresses m = [BUSINESS_EMAIL env] \/ ToAddresses m = [lower (email req)]).
Proof.
  intros Hin.
  destruct (process_order_flow env req rq)
    as [| | | | t Ho Hv Hh Hd | t t' Ho Hv Hh Hd Hs | t t' Ho Hv Hh Hd Hs];
    simpl in Hin; try (intuition discriminate).
  - destruct Hin as [Hin | Hin]; [discriminate Hin|].
    destruct (domain_trace_quiet _ _ _ _ Hd _ _ Hin).
  - destruct Hin as [Hin | Hin]; [discriminate Hin|].
    apply in_app_or in Hin as [Hin | Hin];
      [destruct (domain_trace_quiet _ _ _ _ Hd _ _ Hin)|].
    split; [rewrite Hd; auto|].
    rewrite send_order_emails_exact in Hs.
    destruct (ses env (owner_mail _ _ _)); [destruct (ses env (customer_mail _ _ _))|];
      apply pair_equal_spec in Hs as [Hs <-]; try discriminate Hs; simpl in Hin;
      repeat match goal with
             | H : _ \/ _ |- _ => destruct H
             | H : SendEmail _ _ = SendEmail _ _ |- _ => injection H as <- <-
             | H : False |- _ => destruct H
             end; simpl; auto.
  - destruct Hin as [Hin | Hin]; [discriminate Hin|].
    apply in_app_or in Hin as [Hin | Hin];
      [destruct (domain_trace_quiet _ _ _ _ Hd _ _ Hin)|].
    split; [rewrite Hd; auto|].
    rewrite send_order_emails_exact in Hs.
    destruct (ses env (owner_mail _ _ _)); [destruct (ses env (customer_mail _ _ _))|];
      apply pair_equal_spec in Hs as [Hs <-]; try discriminate Hs; simpl in Hin;
      repeat match goal with
             | H : _ \/ _ |- _ => destruct H
             | H : SendEmail _ _ = SendEmail _ _ |- _ => injection H as <- <-
             | H : False |- _ => destruct H
             end; simpl; auto.
Qed.

Lemma email_only_after_gates_witness :
  let env := Samples.world Tuesday 10 Samples.always in
  let m := customer_mail env Samples.genuine (new_order_id (urandom16 env)) in
  In (SendEmail m true) (snd (process_order env Samples.genuine Samples.from_gateway)) /\
  ((open_at (now env) /\ verification Samples.genuine = "" /\ human env Samples.genuine /\
    fst (is_domain_real env (lower (email Samples.genuine))) = Ok true) /\
   Source m = NO_REPLY_EMAIL env /\
   (ToAddresses m = [BUSINESS_EMAIL env] \/
    ToAddresses m = [lower (email Samples.genuine)])).
Proof.
  intros env m.
  assert (Hin : In (SendEmail m true)
                  (snd (process_order env Samples.genuine Samples.from_gateway)))
    by (vm_compute; auto 10).
  split; [exact Hin|].
  exact (email_only_after_gates env Samples.genuine Samples.from_gateway m true Hin).
Defined.

(** X15. When a request with an empty honeypot is answered with success,
    exactly two messages were delivered, in this order: one from the
    no-reply address to the business address with the subject "New Order
    Received - " followed by the returned order identifier, and one from
    the no-reply address to the customer's lowercased address with the
    subject "Order Confirmation - " followed by the same identifier. *)
Theorem accepted_order_emails (env : Env) (req : OrderRequest) (rq : Request)
    (resp : JSONResponse) :
  verification req = "" ->
  fst (process_order env req rq) = Ok resp ->
  exists owner customer,
    delivered (snd (process_order env req rq)) = [owner; customer] /\
    Source owner = NO_REPLY_EMAIL env /\
    ToAddresses owner = [BUSINESS_EMAIL env] /\
    Subject owner = "New Order Received - " +:+ orderId resp /\
    Source customer = NO_REPLY_EMAIL env /\
    ToAddresses customer = [lower (email req)] /\
    Subject customer = "Order Confirmation - " +:+ orderId resp.
Proof.
  intros Hv H.
  destruct (process_order_flow env req rq)
    as [| Ho Hne | | | | | t t' Ho _ Hh Hd Hs]; try discriminate H.
  - contradiction.
  - simpl in H. injection H as <-.
    apply domain_trace in Hd as [_ Hd]. rewrite (Hd eq_refl).
    rewrite send_order_emails_exact in Hs.
    destruct (ses env (owner_mail _ _ _)); [destruct (ses env (customer_mail _ _ _))|];
      apply pair_equal_spec in Hs as [Hs <-]; try discriminate Hs.
    exists (owner_mail env req (new_order_id (urandom16 env))),
      (customer_mail env req (new_order_id (urandom16 env))).
    repeat split.
Qed.

Lemma accepted_order_emails_witness :
  let env := Samples.world Tuesday 10 Samples.always in
  verification Samples.genuine = "" /\
  fst (process_order env Samples.genuine Samples.from_gateway)
    = Ok (order_placed "1A2B3C4D") /\
  exists owner customer,
    delivered (snd (process_order env Samples.genuine Samples.from_gateway))
      = [owner; customer] /\
    Source owner = NO_REPLY_EMAIL env /\
    ToAddresses owner = [BUSINESS_EMAIL env] /\
    Subject owner = "New Order Received - " +:+ orderId (order_placed "1A2B3C4D") /\
    Source customer = NO_REPLY_EMAIL env /\
    ToAddresses customer = [lower (email Samples.genuine)] /\
    Subject customer = "Order Confirmation - " +:+ orderId (order_placed "1A2B3C4D").
Proof.
  intros env.
  assert (H : fst (process_order env Samples.genuine Samples.from_gateway)
              = Ok (order_placed "1A2B3C4D")) by (vm_compute; reflexivity).
  split; [reflexivity|]. split; [exact H|].
  exact (accepted_order_emails env Samples.genuine Samples.from_gateway _ eq_refl H).
Defined.



(** X17. The domain check says yes exactly when the domain is not in the
    blocklist and both its MX and its NS lookup return records. It looks
    nothing up for a blocklisted domain, and does not ask for NS records
    when the MX lookup fails. *)
Theorem domain_verdict_and_lookups (env : Env) (email : string) :
  (fst (is_domain_real env email) = Ok true <->
   (domain_of email ∉ blocklist env) /\
   resolves (dns env (domain_of email) MX) = true /\
   resolves (dns env (domain_of email) NS) = true) /\
  ((domain_of email ∈ blocklist env) -> snd (is_domain_real env email) = []) /\
  ((domain_of email ∉ blocklist env) ->
   snd (is_domain_real env email) =
   if resolves (dns env (domain_of email) MX)
   then [Resolve (domain_of email) MX; Resolve (domain_of email) NS]
   else [Resolve (domain_of email) MX]).
Proof.
  rewrite is_domain_real_exact. cbv zeta.
  destruct (bool_decide (domain_of email ∈ blocklist env)) eqn:Eb.
  - apply bool_decide_eq_true_1 in Eb. split; [|split]; simpl.
    + split; [discriminate | intros [Hn _]; contradiction].
    + reflexivity.
    + intros Hn. contradiction.
  - apply bool_decide_eq_false_1 in Eb. split; [|split].
    + destruct (resolves (dns env _ MX)); simpl.
      * split; [intros [= ->]; auto | intros (_ & _ & ->); reflexivity].
      * split; [discriminate | intros (_ & H & _); discriminate H].
    + intros Hin. contradiction.
    + intros _. destruct (resolves (dns env _ MX)); reflexivity.
Qed.

Lemma last_item_cons (h : string) (l : list string) :
  l <> [] -> last_item (h :: l) = last_item l.
Proof. destruct l; [contradiction | reflexivity]. Qed.

Lemma split_without_sep (sep : ascii) (s : string) :
  all_chars (fun c => negb (Ascii.eqb c sep)) s = true -> split sep s = [s].
Proof.
  induction s as [|c s IH]; simpl; [reflexivity|].
  intros [Hc Hs]%andb_true_iff. apply negb_true_iff in Hc.
  rewrite Hc, (IH Hs). reflexivity.
Qed.

Lemma split_two (sep : ascii) (l d : string) :
  exists h k t, split sep (l +:+ String sep d) = h :: k :: t.
Proof.
  induction l as [|c l (h & k & t & IH)].
  - rewrite app_nil_l. simpl. rewrite Ascii.eqb_refl.
    destruct (split sep d) as [|k t] eqn:E; [destruct (split_nonempty _ _ E)|].
    eauto.
  - rewrite app_cons. simpl. rewrite IH. destruct (Ascii.eqb c sep); eauto.
Qed.

Lemma last_split (sep : ascii) (d : string) :
  all_chars (fun c => negb (Ascii.eqb c sep)) d = true ->
  forall l, last_item (split sep (l +:+ String sep d)) = d.
Proof.
  intros Hd. induction l as [|c l IH].
  - rewrite app_nil_l. simpl. rewrite Ascii.eqb_refl, (split_without_sep _ _ Hd). reflexivity.
  - rewrite app_cons. simpl.
    destruct (split_two sep l d) as (h & k & t & E). rewrite E in IH |- *.
    destruct (Ascii.eqb c sep); rewrite last_item_cons by discriminate;
      [exact IH | rewrite <- IH; symmetry; apply last_item_cons; discriminate].
Qed.

(** X18. The domain the check works on is what follows the last at-sign
    of the address; an address without an at-sign is its own domain. *)
Theorem domain_after_last_at (local d : string) :
  all_chars not_at_sign d = true ->
  domain_of (local +:+ "@" +:+ d) = d /\ domain_of d = d.
Proof.
  intros Hd. unfold domain_of. split.
  - apply (last_split "@" d Hd local).
  - rewrite (split_without_sep "@" d Hd). reflexivity.
Qed.

Lemma domain_after_last_at_witness :
  all_chars not_at_sign "example.com" = true /\
  domain_of ("a@b" +:+ "@" +:+ "example.com") = "example.com" /\
  domain_of "example.com" = "example.com".
Proof.
  split; [reflexivity | apply (domain_after_last_at "a@b" "example.com"); reflexivity].
Defined.

Lemma hex_fixed_S (w : nat) (n : N) :
  hex_fixed (S w) n = hex_fixed w (n / 16) +:+ String (hex_digit (n mod 16)) "".
Proof. reflexivity. Qed.

Lemma hex_fixed_split (a b : nat) : forall n,
  hex_fixed (a + b) n = hex_fixed a (n / 16 ^ N.of_nat b) +:+ hex_fixed b n.
Proof.
  induction b as [|b IH]; intros n.
  - rewrite Nat.add_0_r. change (16 ^ N.of_nat 0)%N with 1%N.
    rewrite N.div_1_r. symmetry. apply app_nil_r.
  - rewrite Nat.add_succ_r, !hex_fixed_S, IH, app_assoc.
    rewrite Nat2N.inj_succ, N.pow_succ_r', N.Div0.div_div.
    reflexivity.
Qed.

Lemma shifted_constant_high (c s k : N) :
  (N.log2 c + s < 96)%N -> N.testbit (N.shiftl c s) (k + 96) = false.
Proof.
  intros H. rewrite N.shiftl_spec_high' by lia.
  apply N.bits_above_log2. lia.
Qed.

(** The variant and version bits lie below the first four bytes. *)
Lemma uuid4_top (random : N) :
  (uuid4 random / 2 ^ 96 = (random mod 2 ^ 128) / 2 ^ 96)%N.
Proof.
  rewrite <- !N.shiftr_div_pow2. apply N.bits_inj. intros k.
  rewrite !N.shiftr_spec'. unfold uuid4.
  rewrite N.lor_spec, N.ldiff_spec, N.lor_spec, N.ldiff_spec.
  rewrite !shifted_constant_high by (vm_compute; reflexivity).
  simpl. rewrite !orb_false_r, !andb_true_r. reflexivity.
Qed.

(** X19. The order identifier is the first four random bytes in
    uppercase hexadecimal: the version and variant bits that turn the
    sixteen random bytes into a UUID never reach it, and two draws that
    agree on their first four bytes give the same identifier. *)
Theorem order_id_from_first_bytes (random : N) :
  new_order_id random = upper (hex_fixed 8 ((random mod 2 ^ 128) / 2 ^ 96)).
Proof.
  unfold new_order_id, uuid_str, slice. rewrite <- uuid4_top.
  generalize (uuid4 random) as i. intros i.
  change (take (8 - 0) (drop 0 (hex_fixed 32 i))) with (take 8 (hex_fixed 32 i)).
  assert (Hhead : take 8 (hex_fixed 32 i) = hex_fixed 8 (i / 2 ^ 96)).
  { change 32%nat with (8 + 24)%nat. rewrite hex_fixed_split.
    change (16 ^ N.of_nat 24)%N with (2 ^ 96)%N.
    rewrite <- (length_hex_fixed 8 (i / 2 ^ 96)) at 1. apply take_app_length. }
  rewrite Hhead.
  rewrite <- (length_hex_fixed 8 (i / 2 ^ 96)) at 1. rewrite take_app_length.
  reflexivity.
Qed.

Example order_id_ignores_low_bytes :
  new_order_id 0x1a2b3c4dffffffffffffffffffffffff = "1A2B3C4D".
Proof. vm_compute. reflexivity. Qed.

End OrderFlow.
